(** * configmaker: a shallow embedding of [configmaker/configmaker.py]

    The script reconciles a sequencer sample sheet, an optional sample
    submission form and the FASTQ files of one or more run folders into a
    pipeline configuration.  Every Python function of the script is embedded
    below under its own name.  Text is modelled as [string] (ASCII code
    points; the character classes [\d] and whitespace are the ASCII ones),
    Python exceptions as values of [error], dictionaries as insertion-ordered
    association lists, Python sets as [gset], and the parts of the outside
    world the script consults (directory listings, glob, the pandas, json and
    yaml libraries) as the fields of a record [World]. *)

From Stdlib Require Import String Ascii ZArith List.
From stdpp Require Import base decidable option list gmap sets strings pretty sorting.

Import ListNotations.
Local Open Scope Z_scope.

(** ** Exceptions and the result type *)

Inductive error : Type :=
  | ArgumentTypeError (msg : string)
  | ValueError (msg : string)
  | RuntimeError (msg : string)
  | NameError (name : string)
  | UnboundLocalError (name : string)
  | IndexError
  | KeyError (key : string)
  | AttributeError (name : string)
  | TypeError (what : string)
  | OSError (path : string)
  | ParserError (what : string).

Inductive result (A : Type) : Type :=
  | Ok (a : A)
  | Err (e : error).
Arguments Ok {A} a.
Arguments Err {A} e.

#[global] Instance result_ret : MRet result := λ A a, Ok a.
#[global] Instance result_bind : MBind result := λ A B k r,
  match r with
  | Ok a => k a
  | Err e => Err e
  end.
#[global] Instance result_fmap : FMap result := λ A B f r,
  match r with
  | Ok a => Ok (f a)
  | Err e => Err e
  end.

Definition is_Ok {A} (r : result A) : Prop :=
  match r with Ok _ => True | Err _ => False end.

#[global] Instance error_eq_dec : EqDecision error.
Proof. solve_decision. Defined.

(** ** Text helpers (the [str] methods the script uses) *)

Definition nl : string := String "010"%char EmptyString.

(** [str.startswith] *)
Fixpoint startswith (s p : string) : bool :=
  match p with
  | EmptyString => true
  | String b p' =>
      match s with
      | EmptyString => false
      | String a s' => if decide (a = b) then startswith s' p' else false
      end
  end.

(** The ASCII characters for which [str.isspace] holds. *)
Definition is_space (c : ascii) : bool :=
  let n := nat_of_ascii c in
  ((9 <=? n) && (n <=? 13) || (28 <=? n) && (n <=? 32))%nat.

Fixpoint lstrip (s : string) : string :=
  match s with
  | EmptyString => EmptyString
  | String c s' => if is_space c then lstrip s' else s
  end.

(** [str.rstrip()]: drop the trailing white space. *)
Fixpoint rstrip (s : string) : string :=
  match s with
  | EmptyString => EmptyString
  | String c s' =>
      match rstrip s' with
      | EmptyString => if is_space c then EmptyString else String c EmptyString
      | r => String c r
      end
  end.

Definition strip (s : string) : string := lstrip (rstrip s).

Definition lower_char (c : ascii) : ascii :=
  let n := nat_of_ascii c in
  if ((65 <=? n) && (n <=? 90))%nat then ascii_of_nat (n + 32) else c.

(** [str.lower()] *)
Fixpoint lower (s : string) : string :=
  match s with
  | EmptyString => EmptyString
  | String c s' => String (lower_char c) (lower s')
  end.

(** [s.split(sep)] for a one-character separator: always at least one field. *)
Fixpoint split (sep : ascii) (s : string) : list string :=
  match s with
  | EmptyString => [EmptyString]
  | String c s' =>
      if decide (c = sep) then EmptyString :: split sep s'
      else match split sep s' with
           | [] => [String c EmptyString]
           | w :: ws => String c w :: ws
           end
  end.

(** [sep.join(l)] *)
Fixpoint join (sep : string) (l : list string) : string :=
  match l with
  | [] => EmptyString
  | [x] => x
  | x :: xs => x +:+ sep +:+ join sep xs
  end.

(** The lines of a text file as [readline] hands them out: each line keeps
    its newline, the last one may lack it, and no line is empty.  The
    files are opened in text mode with universal newlines: a carriage
    return, alone or in front of a line feed, ends a line too, and the
    line is handed out with a line feed at its end. *)
Fixpoint readlines (s : string) : list string :=
  match s with
  | EmptyString => []
  | String c s' =>
      if decide (c = "010"%char) then nl :: readlines s'
      else if decide (c = "013"%char) then
        match s' with
        | String c' s'' =>
            if decide (c' = "010"%char) then nl :: readlines s''
            else nl :: readlines s'
        | EmptyString => [nl]
        end
      else match readlines s' with
           | [] => [String c EmptyString]
           | l :: ls => String c l :: ls
           end
  end.

(** ** [posixpath] *)

(** [os.path.join] of two components. *)
Definition path_join2 (a b : string) : string :=
  if startswith b "/" then b
  else if decide (a = EmptyString) then b
  else if decide (last (list_ascii_of_string a) = Some "/"%char) then a +:+ b
  else a +:+ "/" +:+ b.

Definition path_join (a : string) (bs : list string) : string :=
  foldl path_join2 a bs.

(** [os.path.basename]: what follows the last slash. *)
Definition basename (p : string) : string :=
  from_option id EmptyString (last (split "/" p)).

(** ** The regular expression [GCF-\d{4}-\d{3}] *)

(** The class [\d] on the characters of the model.  The texts of the
    model are sequences of eight-bit characters, and the class holds the
    ten digits of ASCII; of the decimal digits of other scripts, which
    [\d] of a Python [str] pattern takes too, the model has none. *)
Definition is_digit (c : ascii) : bool :=
  let n := nat_of_ascii c in ((48 <=? n) && (n <=? 57))%nat.

Definition lit (a : ascii) (c : ascii) : bool := bool_decide (c = a).

(** A pattern that is a sequence of single-character classes. *)
Definition pattern := list (ascii → bool).

Definition gcf_patt : pattern :=
  [lit "G"; lit "C"; lit "F"; lit "-";
   is_digit; is_digit; is_digit; is_digit; lit "-";
   is_digit; is_digit; is_digit]%char.

(** [re.match(patt, s)]: the pattern is anchored at the start of [s] only;
    the result is [m.group()], the part of [s] that the pattern consumed. *)
Fixpoint re_match (patt : pattern) (s : string) : option string :=
  match patt with
  | [] => Some EmptyString
  | p :: patt' =>
      match s with
      | EmptyString => None
      | String c s' =>
          if p c then String c <$> re_match patt' s' else None
      end
  end.

(** ** [is_valid_gcf_id] *)

(** The function returns [True] for [None] and a string otherwise. *)
Inductive gcf_id_ret : Type :=
  | RetTrue
  | RetStr (s : string).

Definition is_valid_gcf_id (arg : option string) (patt : pattern) : result gcf_id_ret :=
  match arg with
  | None => Ok RetTrue
  | Some arg =>
      match re_match patt arg with
      | Some g => Ok (RetStr (strip g))
      | None =>
          Err (ArgumentTypeError
                 (arg +:+ " is not a valid GCF number (format: GCF-YYYY-NNN)"))
      end
  end.


(** [os.path.dirname]: the head up to the last slash, its trailing slashes
    dropped unless it consists of slashes only. *)
Fixpoint rstrip_slash (s : string) : string :=
  match s with
  | EmptyString => EmptyString
  | String c s' =>
      match rstrip_slash s' with
      | EmptyString => if decide (c = "/"%char) then EmptyString else String c EmptyString
      | r => String c r
      end
  end.

Definition dirname (p : string) : string :=
  match split "/" p with
  | [] | [_] => EmptyString
  | parts =>
      let head := join "/" (removelast parts) +:+ "/" in
      match rstrip_slash head with
      | EmptyString => head
      | stripped => stripped
      end
  end.

(** ** Insertion-ordered dictionaries *)

Section dict.
Context {V : Type}.

Fixpoint dict_get (k : string) (d : list (string * V)) : option V :=
  match d with
  | [] => None
  | (k', v) :: d' => if decide (k' = k) then Some v else dict_get k d'
  end.

(** [d[k] = v]: an existing key keeps its position, a new one goes last. *)
Fixpoint dict_set (k : string) (v : V) (d : list (string * V)) : list (string * V) :=
  match d with
  | [] => [(k, v)]
  | (k', v') :: d' =>
      if decide (k' = k) then (k, v) :: d' else (k', v') :: dict_set k v d'
  end.

Definition dict_keys (d : list (string * V)) : list string := d.*1.

Definition dict_of_list (l : list (string * V)) : list (string * V) :=
  foldl (λ d kv, dict_set kv.1 kv.2 d) [] l.
End dict.

(** The elements of a list in order of first appearance. *)
Fixpoint dedup_first {A} `{EqDecision A} (seen l : list A) : list A :=
  match l with
  | [] => []
  | x :: l' =>
      if decide (x ∈ seen) then dedup_first seen l'
      else x :: dedup_first (x :: seen) l'
  end.

Definition drop_duplicates {A} `{EqDecision A} (l : list A) : list A :=
  dedup_first [] l.

(** ** Data frames *)

Inductive cell : Type :=
  | CStr (s : string)
  | CInt (z : Z)
  | CNaN.

#[global] Instance cell_eq_dec : EqDecision cell.
Proof. solve_decision. Defined.

(** [str(x)] of a cell, as [astype(str)] applies it. *)
Definition cell_str (c : cell) : string :=
  match c with
  | CStr s => s
  | CInt z => pretty z
  | CNaN => "nan"
  end.

Record DataFrame : Type := mkDF {
  columns : list string;
  rows : list (list cell)
}.

Fixpoint index_of (name : string) (l : list string) : option nat :=
  match l with
  | [] => None
  | x :: l' => if decide (x = name) then Some 0%nat else S <$> index_of name l'
  end.

Definition row_get (i : nat) (r : list cell) : cell := default CNaN (r !! i).

(** [df[name]]: the cells of a column, [KeyError] without such a column. *)
Definition df_column (name : string) (df : DataFrame) : result (list cell) :=
  match index_of name (columns df) with
  | Some i => Ok (row_get i <$> rows df)
  | None => Err (KeyError name)
  end.

(** A row cut or filled with NaN to the width [n] of its frame. *)
Definition fit (n : nat) (r : list cell) : list cell :=
  take n r ++ replicate (n - length r) CNaN.

(** [df[name] = df[name].astype(str)] *)
Definition df_astype_str (name : string) (df : DataFrame) : result DataFrame :=
  match index_of name (columns df) with
  | Some i =>
      Ok (mkDF (columns df)
            ((λ r, <[i := CStr (cell_str (row_get i r))]> (fit (length (columns df)) r))
             <$> rows df))
  | None => Err (KeyError name)
  end.

(** [df.empty] *)
Definition df_empty (df : DataFrame) : bool :=
  bool_decide (columns df = []) || bool_decide (rows df = []).

(** [df.rename(columns=m)] *)
Definition df_rename (m : list (string * string)) (df : DataFrame) : DataFrame :=
  mkDF ((λ c, default c (dict_get c m)) <$> columns df) (rows df).

Fixpoint drop_positions {A} (keep : list bool) (l : list A) : list A :=
  match keep, l with
  | k :: keep', x :: l' => if k then x :: drop_positions keep' l' else drop_positions keep' l'
  | _, _ => []
  end.

(** [df.drop(cols, axis=1)]: every label must be a column. *)
Definition df_drop (cols : list string) (df : DataFrame) : result DataFrame :=
  match list_find (λ c, c ∉ columns df) cols with
  | Some (_, c) => Err (KeyError c)
  | None =>
      let keep := (λ c, bool_decide (c ∉ cols)) <$> columns df in
      Ok (mkDF (drop_positions keep (columns df))
               (drop_positions keep <$> rows df))
  end.

(** [pd.concat(dfs)]: the union of the columns in order of appearance,
    missing cells are NaN. *)
Definition pd_concat (dfs : list DataFrame) : result DataFrame :=
  match dfs with
  | [] => Err (ValueError "No objects to concatenate")
  | _ =>
      let cols := drop_duplicates (dfs ≫= columns) in
      Ok (mkDF cols
            (dfs ≫= λ df,
               (λ r, (λ c, match index_of c (columns df) with
                           | Some i => row_get i r
                           | None => CNaN
                           end) <$> cols) <$> rows df))
  end.

(** [pd.merge(left, right, on=key, how='inner')]: the rows are kept in the
    order of the left frame; a column name that both frames have, the key
    apart, gets the suffixes [_x] and [_y]. *)
Definition pd_merge_inner (key : string) (left right : DataFrame) : result DataFrame :=
  match index_of key (columns left), index_of key (columns right) with
  | Some i, Some j =>
      let keepr := (λ c, bool_decide (c ≠ key)) <$> columns right in
      let lcols := (λ c, if bool_decide (c ≠ key ∧ c ∈ columns right)
                         then c +:+ "_x" else c) <$> columns left in
      let rcols := (λ c, if bool_decide (c ∈ columns left)
                         then c +:+ "_y" else c)
                   <$> drop_positions keepr (columns right) in
      Ok (mkDF (lcols ++ rcols)
            (rows left ≫= λ l,
               (λ r, fit (length (columns left)) l
                     ++ drop_positions keepr (fit (length (columns right)) r))
               <$> filter (λ r, row_get j r = row_get i l) (rows right)))
  | _, _ => Err (KeyError key)
  end.

Definition fill_cell (c : cell) : cell :=
  match c with
  | CNaN => CStr EmptyString
  | _ => c
  end.

(** [df.fillna('')] *)
Definition df_fillna (df : DataFrame) : DataFrame :=
  mkDF (columns df)
       ((λ r : list cell, fill_cell <$> fit (length (columns df)) r) <$> rows df).

(** A row as the dictionary from column name to cell. *)
Definition row_dict (cols : list string) (r : list cell) : list (string * cell) :=
  dict_of_list (zip cols r).

(** [pd.DataFrame.from_dict(d, orient='index')]: one row per key; the
    columns are the keys of the inner dictionaries in order of appearance.
    An empty dictionary gives a frame without columns. *)
Definition df_from_dict (d : list (string * list (string * cell))) : DataFrame :=
  let cols := drop_duplicates (d ≫= λ kv, dict_keys kv.2) in
  mkDF cols ((λ kv, (λ c, default CNaN (dict_get c kv.2)) <$> cols) <$> d).

(** [df.to_dict(orient='index')] for a frame whose index is [index]: the
    index must be unique.  The keys of the sample dictionary are text, and
    the model writes every key as text. *)
Definition df_to_dict (index : list cell) (df : DataFrame)
  : result (list (string * list (string * cell))) :=
  if decide (NoDup index)
  then Ok (dict_of_list (zip (cell_str <$> index) (row_dict (columns df) <$> rows df)))
  else Err (ValueError "DataFrame index must be unique for orient='index'.").

(** ** The outside world *)

(** The part of [Stats/Stats.json] that the script reads. *)
Record ReadInfo : Type := {
  IsIndexedRead : bool;
  NumCycles : Z
}.

Record Lane : Type := { ReadInfos : list ReadInfo }.

Record Stats : Type := { ReadInfosForLanes : list Lane }.

(** The values of the output document and of the custom options. *)
Inductive value : Type :=
  | VStr (s : string)
  | VBool (b : bool)
  | VInts (l : list Z)
  | VSamples (d : list (string * list (string * cell))).

#[global] Instance value_eq_dec : EqDecision value.
Proof. solve_decision. Defined.

(** What the script asks of the operating system and of its libraries.
    The directory tree is only read; [read_csv] gets the lines that follow
    the [[Data]] marker, [read_excel] the workbook, the sheet number and
    the number of rows to skip, [json_load] the text of a [Stats.json]
    (a text that lacks one of the keys the script reads fails there). *)
Record World : Type := {
  listdir : string → result (list string);
  isdir : string → bool;
  glob : string → list string;
  abspath : string → string;
  relpath : string → string → string;
  writable : string → bool;
  read_csv : list string → result DataFrame;
  read_excel : string → nat → nat → result DataFrame;
  json_load : string → result Stats;
  yaml_dump : list (string * value) → string
}.

(** The warnings of the logger [GCF-configmaker]. *)
Inductive log_entry : Type :=
  | WarnSheetOnly (ids : list string)
  | WarnFormOnly (ids : list string)
  | WarnMultipleMachines.

Definition render (w : log_entry) : string :=
  match w with
  | WarnSheetOnly ids =>
      "WARNING: Samples " +:+ join ", " ids +:+
      " are contained in SampleSheet, but not in sample submission form!"
  | WarnFormOnly ids =>
      "WARNING: Samples " +:+ join ", " ids +:+
      " are contained in sample submission form, but not in SampleSheet!"
  | WarnMultipleMachines => "Multiple sequencing machines identified!"
  end.

(** What a run can change: the contents of the regular files, the log, the
    standard output, and the directories and symbolic links it creates. *)
Record state : Type := mkState {
  files : gmap string string;
  log : list log_entry;
  stdout : string;
  made_dirs : list string;
  links : list (string * string)
}.

(** ** The monad of the script: state and exceptions *)

Definition M (A : Type) : Type := state → state * result A.

#[global] Instance M_ret : MRet M := λ A a st, (st, Ok a).
#[global] Instance M_bind : MBind M := λ A B k m st,
  match m st with
  | (st', Ok a) => k a st'
  | (st', Err e) => (st', Err e)
  end.

Definition raise {A} (e : error) : M A := λ st, (st, Err e).

Definition lift {A} (r : result A) : M A := λ st, (st, r).

(** [open(path).read()] *)
Definition read_file (path : string) : M string := λ st,
  match files st !! path with
  | Some content => (st, Ok content)
  | None => (st, Err (OSError path))
  end.

(** [logger.warning] *)
Definition warning (w : log_entry) : M unit := λ st,
  (mkState (files st) (log st ++ [w]) (stdout st) (made_dirs st) (links st), Ok tt).

(** A [for] loop that threads the variables it assigns. *)
Fixpoint for_each {A B} (l : list A) (b : B) (body : B → A → M B) : M B :=
  match l with
  | [] => mret b
  | x :: l' => b' ← body b x; for_each l' b' body
  end.

Fixpoint for_each_r {A B} (l : list A) (b : B) (body : B → A → result B) : result B :=
  match l with
  | [] => Ok b
  | x :: l' => b' ← body b x; for_each_r l' b' body
  end.

(** ** The functions of [configmaker.py] *)

Definition SEQUENCERS : list (string * string) :=
  [("NB501038", "NextSeq 500");
   ("SN7001334", "HiSeq 2500");
   ("K00251", "HiSeq 4000");
   ("M02675", "MiSeq NTNU");
   ("M03942", "MiSeq StOlav");
   ("M05617", "MiSeq SINTEF")].

(** Truth value of an optional string: [None] and the empty string are false. *)
Definition truthy (o : option string) : bool :=
  match o with
  | Some (String _ _) => true
  | _ => false
  end.

Section configmaker.
Context (W : World).

(** [is_dir] *)
Definition is_dir (dirname : string) : result string :=
  if isdir W dirname then Ok dirname
  else Err (ArgumentTypeError (dirname +:+ " is not a directory")).

(** The loop of [_match_project_dir] when no project id is given;
    [found] holds the variables [project_dir] and [project_id]. *)
Fixpoint scan_project_dirs (pth : string) (fns : list string)
    (found : option (string * string)) : result (option (string * string)) :=
  match fns with
  | [] => Ok found
  | fn :: fns' =>
      if isdir W (path_join pth [fn]) && bool_decide (is_Some (re_match gcf_patt fn))
      then match found with
           | Some _ =>
               Err (ValueError "runfolders contain more than one project folders. Use `--project-id` option to choose one.")
           | None => scan_project_dirs pth fns' (Some (path_join pth [fn], fn))
           end
      else scan_project_dirs pth fns' found
  end.

Definition _match_project_dir (pth : string) (project_id : option string)
  : result (string * string) :=
  fns ← listdir W pth;
  if truthy project_id then
    let pid := default EmptyString project_id in
    match list_find (λ fn, isdir W (path_join pth [fn]) = true ∧ fn = pid) fns with
    | Some (_, fn) => Ok (path_join pth [fn], pid)
    | None =>
        Err (ValueError (pid +:+ " is not present in run_folder: " +:+ pth))
    end
  else
    found ← scan_project_dirs pth fns None;
    match found with
    | Some (String c d, fn) => Ok (String c d, fn)
    | _ =>
        Err (ValueError ("failed to identify any valid projects in runfolder: " +:+ pth))
    end.

Definition _match_samplesheet (pth : string) : list string :=
  glob W (path_join pth ["SampleSheet.csv"]).

(** [samplesheet] is the name of the file given with [--sample-sheet]. *)
Definition inspect_samplesheet (samplesheet : option string) (runfolders : list string)
  : result (list string) :=
  match samplesheet with
  | Some name => Ok [name]
  | None =>
      let samplesheets := runfolders ≫= _match_samplesheet in
      if decide (length samplesheets = 0%nat)
      then Err (RuntimeError ("Cannot find SampleSheet.csv in " +:+ join ", " runfolders))
      else Ok samplesheets
  end.

(** [get_data_from_samplesheet]: [fh] is what is left to read of the file,
    line by line.  At the end of the file the function builds its message
    from [s.name], and no variable [s] is in its scope or in the module's:
    evaluating the name raises [NameError]. *)
Fixpoint get_data_from_samplesheet (fh : list string) (custom_opts : bool)
    (opts_d : list (string * value)) : result (DataFrame * list (string * value)) :=
  match fh with
  | [] | EmptyString :: _ => Err (NameError "s")
  | line :: fh' =>
      if startswith line "[Data]" then
        df ← read_csv W fh'; Ok (df, opts_d)
      else if startswith line "[CustomOptions]" then
        get_data_from_samplesheet fh' true opts_d
      else if custom_opts then
        match rstrip <$> split "," line with
        | [key; val] =>
            let val := if decide (lower val = "true") then VBool true else VStr val in
            get_data_from_samplesheet fh' custom_opts (dict_set key val opts_d)
        | [] | [_] => Err (ValueError "not enough values to unpack")
        | _ => Err (ValueError "too many values to unpack")
        end
      else get_data_from_samplesheet fh' custom_opts opts_d
  end.

(** [df[df.Sample_Project == project_id]] *)
Definition df_filter_project (project_id : option string) (df : DataFrame)
  : result DataFrame :=
  match index_of "Sample_Project" (columns df) with
  | Some i =>
      Ok (mkDF (columns df)
            (filter (λ r, Some (row_get i r) = CStr <$> project_id) (rows df)))
  | None => Err (AttributeError "Sample_Project")
  end.

(** [df[['Sample_ID']].drop_duplicates(['Sample_ID'])] on a frame that has
    the column. *)
Definition df_sample_ids (df : DataFrame) : result DataFrame :=
  ids ← df_column "Sample_ID" df;
  Ok (mkDF ["Sample_ID"] ((λ c, [c]) <$> drop_duplicates ids)).

(** The body of the loop over the sheets: [acc] holds [df_list] and the
    variable [opts], which every round assigns anew. *)
Definition read_sheet (acc : list DataFrame * option (list (string * value)))
    (sheet : string) : M (list DataFrame * option (list (string * value))) :=
  s ← read_file sheet;
  '(data, opts) ← lift (get_data_from_samplesheet (readlines s) false []);
  mret (acc.1 ++ [data], Some opts).

Definition get_project_samples_from_samplesheet (samplesheet : option string)
    (runfolders : list string) (project_id : option string)
  : M (DataFrame * list (string * value)) :=
  ss ← lift (inspect_samplesheet samplesheet runfolders);
  '(df_list, opts) ← for_each ss ([], None) read_sheet;
  df ← lift (pd_concat df_list);
  df ← lift (df_filter_project project_id df);
  df ← lift (df_astype_str "Sample_ID" df);
  df ← lift (df_sample_ids df);
  match opts with
  | Some opts => mret (df, opts)
  | None => raise (UnboundLocalError "opts")
  end.

(** One round of the loop of [inspect_dirs]; [acc] holds [project_dirs] and
    [project_ids].  The loop does not assign [project_id]. *)
Definition inspect_dir (project_id : option string)
    (acc : list string * gset string) (pth : string)
  : result (list string * gset string) :=
  '(pdir, pid) ← _match_project_dir pth project_id;
  Ok (acc.1 ++ [pdir], acc.2 ∪ {[pid]}).

Definition inspect_dirs (runfolders : list string) (project_id : option string)
  : result (list string * option string) :=
  '(project_dirs, project_ids) ←
    for_each_r runfolders ([], (∅ : gset string)) (inspect_dir project_id);
  if decide (1 < size project_ids)%nat then
    Err (ValueError "runfolders contain more than one GCF project ID. Use `--project-id` option to choose one.")
  else if decide (size project_ids = 1%nat) then
    Ok (project_dirs, head (elements project_ids))
  else Ok (project_dirs, project_id).

(** [match_fastq]: the paths that [glob] finds, sorted, and made relative to
    the directory two levels above the project directory on demand. *)
Definition match_fastq (sample_name project_dir : string) (rel_path : bool)
  : list string * list string :=
  let r1_fastq_files :=
    merge_sort String.le
      (glob W (path_join project_dir ["**"; sample_name +:+ "_*R1*.fastq.gz"])) in
  let r2_fastq_files :=
    merge_sort String.le
      (glob W (path_join project_dir ["**"; sample_name +:+ "_*R2*.fastq.gz"])) in
  if rel_path then
    ((λ x, relpath W x (dirname (dirname project_dir))) <$> r1_fastq_files,
     (λ x, relpath W x (dirname (dirname project_dir))) <$> r2_fastq_files)
  else (r1_fastq_files, r2_fastq_files).

(** The body of the loop of [find_samples] for the row whose [Sample_ID]
    is [sid]: the record stored under [str(sid)]. *)
Definition sample_record (sid : string) (project_dirs : list string)
  : list (string * cell) :=
  let s_r1 := project_dirs ≫= λ p_pth, (match_fastq sid p_pth true).1 in
  let s_r2 := project_dirs ≫= λ p_pth, (match_fastq sid p_pth true).2 in
  let pe := if decide (length s_r2 = 0%nat) then 0 else 1 in
  [("R1", CStr (join "," s_r1));
   ("R2", CStr (join "," s_r2));
   ("paired_end", CInt pe);
   ("Sample_ID", CStr sid)].

(** One round of the loop of [find_samples]: [row.Sample_ID] is read, and
    has to be text for [match_fastq] to build its patterns from it. *)
Definition find_samples_row (df : DataFrame) (project_dirs : list string)
    (sample_dict : list (string * list (string * cell))) (row : list cell)
  : result (list (string * list (string * cell))) :=
  match index_of "Sample_ID" (columns df) with
  | None => Err (AttributeError "Sample_ID")
  | Some i =>
      match row_get i row with
      | CStr sid => Ok (dict_set sid (sample_record sid project_dirs) sample_dict)
      | _ => Err (TypeError "unsupported operand type(s) for +")
      end
  end.

Definition find_samples (df : DataFrame) (project_dirs : list string)
  : result (list (string * list (string * cell))) :=
  for_each_r (rows df) [] (find_samples_row df project_dirs).

Definition customer_column_map : list (string * string) :=
  [("Unique Sample ID", "Sample_ID");
   ("External ID (optional reference sample ID)", "External_ID");
   ("Sample Group (conditions to be compared)", "Sample_Group");
   ("Comments (optional info that does not fit in other columns)", "Customer_Comment");
   ("Sample biosource (examples: celltype/tissue/FFPE)", "Sample_Biosource");
   ("Project ID", "Project_ID");
   ("Sample type (e.g RNA or DNA or library)", "Sample_Type");
   ("Index1_p7 (If dual indexed libraries are submitted indicate what index sequence is used P7)", "Index");
   ("Index2_p5 (If libraries are submitted  indicate what index sequence is used P75)", "Index2");
   ("Plate location (if samples delivered in 96 well plates)", "Plate");
   ("Sample Buffer", "Sample_Buffer");
   ("Volume (ul)", "Volume");
   ("Quantification Method", "Quantification_Method");
   ("Concentration (ng/ul)", "Concentration");
   ("260/280 ratio", "260/280");
   ("260/230 ratio", "260/230")].

Definition remove_cols : list string :=
  ["Concentration"; "Index"; "Index2"; "Sample_Type"; "Plate"; "Sample_Buffer";
   "Volume"; "Quantification_Method"; "Concentration"; "260/280"; "260/230"].

Definition lab_column_map : list (string * string) :=
  [("Concentration (ng/ul)", "Concentration");
   ("260/280 ratio", "260/280");
   ("260/230 ratio", "260/230");
   ("Comment", "Lab_Comment")].

(** The two set differences of [check_existence_of_samples]. *)
Definition sheet_only (samples : list string) (ids : list cell) : gset string :=
  list_to_set samples ∖ list_to_set (cell_str <$> ids).

Definition form_only (samples : list string) (ids : list cell) : gset string :=
  list_to_set (cell_str <$> ids) ∖ list_to_set samples.

(** The order in which [', '.join(list(diff))] names the samples of a set
    is not determined by the script; the model uses that of [elements]. *)
Definition check_existence_of_samples (samples : list string) (df : DataFrame)
  : M unit :=
  ids ← lift (df_column "Sample_ID" df);
  let diff := sheet_only samples ids in
  _ ← (if decide (diff ≠ ∅) then warning (WarnSheetOnly (elements diff)) else mret tt);
  ids ← lift (df_column "Sample_ID" df);
  let diff := form_only samples ids in
  _ ← (if decide (diff ≠ ∅) then warning (WarnFormOnly (elements diff)) else mret tt);
  mret tt.

(** The customer sheet as [merge_samples_with_submission_form] prepares
    it: read, renamed, the superseded columns dropped. *)
Definition customer_sheet (book : string) : result DataFrame :=
  customer ← read_excel W book 0 14;
  let customer := df_rename customer_column_map customer in
  df_drop remove_cols customer.

(** The lab sheet as the function prepares it. *)
Definition lab_sheet (book : string) : result DataFrame :=
  lab ← read_excel W book 2 0;
  let lab := df_rename lab_column_map lab in
  df_drop ["Sample_Name"; "Project ID"; "KIT"] lab.

(** The frame [merge] of the function: the two sheets joined, or the
    customer sheet alone when the lab sheet is empty, with [Sample_ID] as
    text. *)
Definition merged_form (customer lab : DataFrame) : result DataFrame :=
  merge ← (if negb (df_empty lab)
           then pd_merge_inner "Sample_ID" customer lab
           else Ok customer);
  df_astype_str "Sample_ID" merge.

(** [ssub] is the name of the workbook. *)
Definition merge_samples_with_submission_form (ssub : string)
    (sample_dict : list (string * list (string * cell)))
  : M (list (string * list (string * cell))) :=
  book ← read_file ssub;
  customer ← lift (customer_sheet book);
  _ ← check_existence_of_samples (dict_keys sample_dict) customer;
  book ← read_file ssub;
  lab ← lift (lab_sheet book);
  merge ← lift (merged_form customer lab);
  let sample_df := df_from_dict sample_dict in
  sample_df ← lift (pd_merge_inner "Sample_ID" sample_df merge);
  index ← lift (df_column "Sample_ID" sample_df);
  let sample_df := df_fillna sample_df in
  lift (df_to_dict index sample_df).

Definition find_read_geometry (runfolders : list string) : M (list Z) :=
  '(all, read_geometry) ←
    for_each runfolders ((∅ : gset string), None) (λ '(all, _) fn,
      let stats_fn := path_join fn ["Stats"; "Stats.json"] in
      text ← read_file stats_fn;
      S ← lift (json_load W text);
      lane ← lift (match ReadInfosForLanes S !! 0%nat with
                   | Some lane => Ok lane
                   | None => Err IndexError
                   end);
      let read_geometry :=
        NumCycles <$> filter (λ read, IsIndexedRead read = false) (ReadInfos lane) in
      mret (all ∪ {[join ":" (pretty <$> read_geometry)]}, Some read_geometry));
  if decide (1 < size all)%nat then
    raise (ValueError "Read geometry mismatch between runfolders. Check Stats.json!")
  else match read_geometry with
       | Some read_geometry => mret read_geometry
       | None => raise (UnboundLocalError "read_geometry")
       end.

(** The set [matches] that the loop of [find_machine] builds. *)
Definition machine_matches (runfolders : list string) : result (gset string) :=
  for_each_r runfolders (∅ : gset string) (λ matches pth,
    machine_code ← match split "_" (basename pth) !! 1%nat with
                   | Some code => Ok code
                   | None => Err IndexError
                   end;
    let machine := default EmptyString (dict_get machine_code SEQUENCERS) in
    Ok (matches ∪ {[machine]})).

(** The order in which ['|'.join(list(matches))] lists a set is not
    determined by the script; the model uses that of [elements], and
    [find_machine_may_return] admits every order. *)
Definition find_machine (runfolders : list string) : M string :=
  matches ← lift (machine_matches runfolders);
  _ ← (if decide (1 < size matches)%nat then warning WarnMultipleMachines else mret tt);
  mret (join "|" (elements matches)).

Definition find_machine_may_return (runfolders : list string) (s : string) : Prop :=
  ∃ matches l, machine_matches runfolders = Ok matches
               ∧ l ≡ₚ elements matches ∧ s = join "|" l.

(** The result of [parser.parse_args()]. *)
Inductive out_handle : Type :=
  | OutFile (name : string)
  | OutStdout.

Record Namespace : Type := {
  args_project_id : option string;
  args_runfolders : list string;
  args_samplesheet : option string;
  args_output : out_handle;
  args_ssub : option string;
  args_organism : option string;
  args_libkit : option string;
  args_machine : option string;
  args_create_fastq_dir : bool
}.

Definition create_default_config (sample_dict : list (string * list (string * cell)))
    (opts : list (string * value)) (args : Namespace)
    (project_id fastq_dir : option string) : M (list (string * value)) :=
  let config := [] in
  let config := if truthy project_id
                then dict_set "project_id" (VStr (default EmptyString project_id)) config
                else config in
  let config := match dict_get "Organism" opts with
                | Some v => dict_set "organism" v config
                | None => config
                end in
  let config := match args_organism args with
                | Some o => dict_set "organism" (VStr o) config
                | None => config
                end in
  let config := match dict_get "Libprep" opts with
                | Some v => dict_set "libprepkit" v config
                | None => config
                end in
  let config := match args_libkit args with
                | Some k => dict_set "libprepkit" (VStr k) config
                | None => config
                end in
  read_geometry ← find_read_geometry (args_runfolders args);
  let config := dict_set "read_geometry" (VInts read_geometry) config in
  machine ← (if truthy (args_machine args)
             then mret (default EmptyString (args_machine args))
             else find_machine (args_runfolders args));
  let config := dict_set "machine" (VStr machine) config in
  let config := if truthy fastq_dir
                then dict_set "fastq_dir" (VStr (default EmptyString fastq_dir)) config
                else config in
  let config := dict_set "samples" (VSamples sample_dict) config in
  mret config.

(** *** The command line *)

(** The strings of the command line, option by option. *)
Record cli : Type := {
  cli_project_id : option string;
  cli_runfolders : list string;
  cli_samplesheet : option string;
  cli_output : option string;
  cli_ssub : option string;
  cli_organism : option string;
  cli_libkit : option string;
  cli_machine : option string;
  cli_create_fastq_dir : bool
}.

(** [argparse.FileType('r')]: the file is opened when the argument is
    parsed; the rest of the script uses the name of the handle. *)
Definition FileType_r (path : string) : M string := λ st,
  if decide (path = "-") then (st, Ok "<stdin>")
  else match files st !! path with
       | Some _ => (st, Ok path)
       | None => (st, Err (ArgumentTypeError ("can't open '" +:+ path +:+ "'")))
       end.

(** [argparse.FileType('w')]: opening a file for writing creates it or
    empties it, at the moment the argument is parsed. *)
Definition FileType_w (path : string) : M out_handle := λ st,
  if decide (path = "-") then (st, Ok OutStdout)
  else if writable W path then
    (mkState (<[path := EmptyString]> (files st)) (log st) (stdout st)
             (made_dirs st) (links st),
     Ok (OutFile path))
  else (st, Err (ArgumentTypeError ("can't open '" +:+ path +:+ "'"))).

Definition opt_arg {A} (o : option string) (type : string → M A) : M (option A) :=
  match o with
  | Some s => a ← type s; mret (Some a)
  | None => mret None
  end.

(** [parser.parse_args()], the options taken in the order in which the
    parser declares them.  [--output] defaults to the string
    [config.yaml], which goes through [FileType('w')] like a given one.
    [argparse] converts the arguments in the order of the command line, and
    a default at the end: which of two invalid arguments is reported, and
    whether the output file has been opened when a parse fails, depends on
    that order, which [cli] does not record.  A parse that succeeds has
    converted every argument, in whatever order. *)
Definition parse_args (c : cli) : M Namespace :=
  project_id ← opt_arg (cli_project_id c) (λ s,
    r ← lift (is_valid_gcf_id (Some s) gcf_patt);
    mret (match r with RetStr g => g | RetTrue => s end));
  _ ← (if decide (cli_runfolders c = [])
       then raise (ArgumentTypeError "the following arguments are required: runfolders")
       else mret tt);
  runfolders ← lift (for_each_r (cli_runfolders c) [] (λ acc v,
    d ← is_dir v; Ok (acc ++ [d])));
  let runfolders := abspath W <$> runfolders in
  samplesheet ← opt_arg (cli_samplesheet c) FileType_r;
  output ← FileType_w (default "config.yaml" (cli_output c));
  ssub ← opt_arg (cli_ssub c) FileType_r;
  mret {| args_project_id := project_id;
          args_runfolders := runfolders;
          args_samplesheet := samplesheet;
          args_output := output;
          args_ssub := ssub;
          args_organism := cli_organism c;
          args_libkit := cli_libkit c;
          args_machine := cli_machine c;
          args_create_fastq_dir := cli_create_fastq_dir c |}.

(** [os.path.exists] *)
Definition path_exists (path : string) : M bool := λ st,
  (st, Ok (bool_decide (is_Some (files st !! path))
           || isdir W path
           || bool_decide (path ∈ (links st).*2))).

(** [os.makedirs(path, exist_ok=True)] *)
Definition makedirs (path : string) : M unit := λ st,
  match files st !! path with
  | Some _ => (st, Err (OSError path))
  | None =>
      (mkState (files st) (log st) (stdout st) (made_dirs st ++ [path]) (links st),
       Ok tt)
  end.

(** [os.symlink(src, dst)]: [dst] must not exist yet. *)
Definition symlink (src dst : string) : M unit :=
  there ← path_exists dst;
  if (there : bool) then raise (OSError dst)
  else λ st,
    (mkState (files st) (log st) (stdout st) (made_dirs st) (links st ++ [(src, dst)]),
     Ok tt).

Definition link_all (default_fastq_dir : string) (srcs dsts : list string) : M unit :=
  for_each (zip srcs dsts) tt (λ _ '(src, dst),
    let dst := path_join default_fastq_dir [dst] in
    _ ← makedirs (dirname dst);
    symlink src dst).

(** The part of the script under [--create-fastq-dir]. *)
Definition create_fastq_dir (sample_ids project_dirs : list string) : M string :=
  let default_fastq_dir := "data/raw/fastq" in
  _ ← makedirs default_fastq_dir;
  _ ← for_each sample_ids tt (λ _ sample_id,
        for_each project_dirs tt (λ _ pid,
          let '(r1_src, r2_src) := match_fastq sample_id pid false in
          let '(r1_dst, r2_dst) := match_fastq sample_id pid true in
          _ ← link_all default_fastq_dir r1_src r1_dst;
          link_all default_fastq_dir r2_src r2_dst));
  mret default_fastq_dir.

(** [yaml.dump(config, args.output, ...)] *)
Definition dump (config : list (string * value)) (out : out_handle) : M unit := λ st,
  let text := yaml_dump W config in
  match out with
  | OutFile name =>
      (mkState (<[name := default EmptyString (files st !! name) +:+ text]> (files st))
               (log st) (stdout st) (made_dirs st) (links st),
       Ok tt)
  | OutStdout =>
      (mkState (files st) (log st) (stdout st +:+ text) (made_dirs st) (links st),
       Ok tt)
  end.

(** The script from the line after [parser.parse_args()] to its end. *)
Definition run (args : Namespace) : M unit :=
  '(project_dirs, project_id) ←
    lift (inspect_dirs (args_runfolders args) (args_project_id args));
  '(s_df, opts) ←
    get_project_samples_from_samplesheet (args_samplesheet args)
      (args_runfolders args) project_id;
  sample_dict ← lift (find_samples s_df project_dirs);
  ssub ← match args_ssub args with
         | Some ssub => mret (Some ssub)
         | None =>
             match args_runfolders args with
             | [runfolder] =>
                 let ssub_fn := path_join runfolder ["Sample-Submission-Form.xlsx"] in
                 there ← path_exists ssub_fn;
                 mret (if (there : bool) then Some ssub_fn else None)
             | _ =>
                 raise (ValueError "`--sample-submission-form` option is required with multiple runfolders.")
             end
         end;
  sample_dict ← match ssub with
                | Some ssub => merge_samples_with_submission_form ssub sample_dict
                | None => mret sample_dict
                end;
  fastq_dir ← (if args_create_fastq_dir args
               then d ← create_fastq_dir (dict_keys sample_dict) project_dirs;
                    mret (Some d)
               else mret None);
  config ← create_default_config sample_dict opts args project_id fastq_dir;
  dump config (args_output args).

Definition main (c : cli) : M unit :=
  args ← parse_args c;
  run args.

End configmaker.

(** ** A concrete world for the examples

    Directory listings, glob results, workbooks and [Stats.json] texts are
    given by finite tables; the CSV reader splits unquoted lines at commas
    and reads every cell as text. *)

Definition table_get {A} (tbl : list (string * A)) (d : A) (k : string) : A :=
  default d (dict_get k tbl).

Definition simple_read_csv (lines : list string) : result DataFrame :=
  match lines with
  | [] => Err (ParserError "No columns to parse from file")
  | header :: body =>
      Ok (mkDF (split "," (rstrip header))
               ((λ line, CStr <$> split "," (rstrip line)) <$> body))
  end.

Fixpoint strip_prefix (p s : string) : option string :=
  match p with
  | EmptyString => Some s
  | String a p' =>
      match s with
      | EmptyString => None
      | String b s' => if decide (a = b) then strip_prefix p' s' else None
      end
  end.

Definition simple_relpath (x start : string) : string :=
  default x (strip_prefix (start +:+ "/") x).

Definition simple_yaml_dump (config : list (string * value)) : string :=
  join EmptyString
    ((λ kv, kv.1 +:+ ": " +:+
            match kv.2 with
            | VStr s => s
            | VBool b => if b then "true" else "false"
            | VInts l => "[" +:+ join ", " (pretty <$> l) +:+ "]"
            | VSamples d => "{" +:+ join ", " (dict_keys d) +:+ "}"
            end +:+ nl) <$> config).

Definition table_world (dirs : list (string * list string))
    (globs : list (string * list string))
    (books : list (string * list (nat * DataFrame)))
    (stats : list (string * Stats)) : World :=
  {| listdir := λ p, match dict_get p dirs with
                     | Some l => Ok l
                     | None => Err (OSError p)
                     end;
     isdir := λ p, bool_decide (is_Some (dict_get p dirs));
     glob := table_get globs [];
     abspath := id;
     relpath := simple_relpath;
     writable := λ _, true;
     read_csv := simple_read_csv;
     read_excel := λ book sheet _,
       match dict_get book books with
       | Some sheets =>
           match list_find (λ s, s.1 = sheet) sheets with
           | Some (_, s) => Ok s.2
           | None => Err (ValueError "Worksheet index out of range")
           end
       | None => Err (ParserError "Excel file format cannot be determined")
       end;
     json_load := λ text, match dict_get text stats with
                          | Some s => Ok s
                          | None => Err (ParserError "JSONDecodeError")
                          end;
     yaml_dump := simple_yaml_dump |}.

Definition initial_state (fs : list (string * string)) : state :=
  mkState (list_to_map fs) [] EmptyString [] [].

(** One run of a NextSeq 500 with project GCF-2020-001 and samples A and B;
    B has reads in both directions. *)
Definition run1 : string := "/seq/200101_NB501038_0001_AXX".

Definition sheet1 : string :=
  "[Header]" +:+ nl +:+
  "[CustomOptions]" +:+ nl +:+
  "Organism,human" +:+ nl +:+
  "[Data]" +:+ nl +:+
  "Sample_ID,Sample_Project" +:+ nl +:+
  "A,GCF-2020-001" +:+ nl +:+
  "B,GCF-2020-001" +:+ nl.

Definition stats_2x75 : Stats :=
  {| ReadInfosForLanes :=
       [ {| ReadInfos := [ {| IsIndexedRead := false; NumCycles := 75 |};
                           {| IsIndexedRead := true; NumCycles := 8 |};
                           {| IsIndexedRead := false; NumCycles := 75 |} ] |} ] |}.

Definition world1 : World :=
  table_world
    [("/seq", ["200101_NB501038_0001_AXX"]);
     (run1, ["GCF-2020-001"; "Stats"; "SampleSheet.csv"]);
     (run1 +:+ "/GCF-2020-001", ["A_S1_R1_001.fastq.gz"; "B_S2_R1_001.fastq.gz";
                                  "B_S2_R2_001.fastq.gz"]);
     (run1 +:+ "/Stats", ["Stats.json"])]
    [(run1 +:+ "/SampleSheet.csv", [run1 +:+ "/SampleSheet.csv"]);
     (run1 +:+ "/GCF-2020-001/**/A_*R1*.fastq.gz",
      [run1 +:+ "/GCF-2020-001/A_S1_R1_001.fastq.gz"]);
     (run1 +:+ "/GCF-2020-001/**/B_*R1*.fastq.gz",
      [run1 +:+ "/GCF-2020-001/B_S2_R1_001.fastq.gz"]);
     (run1 +:+ "/GCF-2020-001/**/B_*R2*.fastq.gz",
      [run1 +:+ "/GCF-2020-001/B_S2_R2_001.fastq.gz"])]
    []
    [("stats-2x75", stats_2x75)].

Definition files1 : list (string * string) :=
  [(run1 +:+ "/SampleSheet.csv", sheet1);
   (run1 +:+ "/Stats/Stats.json", "stats-2x75");
   ("config.yaml", "project_id: GCF-2019-999")].

Definition cli1 : cli :=
  {| cli_project_id := None;
     cli_runfolders := [run1];
     cli_samplesheet := None;
     cli_output := None;
     cli_ssub := None;
     cli_organism := None;
     cli_libkit := None;
     cli_machine := None;
     cli_create_fastq_dir := false |}.

(** A second run, on a machine that [SEQUENCERS] does not list, whose sample
    sheet has no custom options. *)
Definition run2 : string := "/seq/200102_X99999_0002_BXX".

Definition sheet2 : string :=
  "[Header]" +:+ nl +:+
  "[Data]" +:+ nl +:+
  "Sample_ID,Sample_Project" +:+ nl +:+
  "B,GCF-2020-001" +:+ nl.

Definition world2 : World :=
  table_world
    [(run1, ["GCF-2020-001"; "Stats"; "SampleSheet.csv"]);
     (run1 +:+ "/GCF-2020-001", []);
     (run2, ["GCF-2020-001"; "Stats"; "SampleSheet.csv"]);
     (run2 +:+ "/GCF-2020-001", [])]
    [(run1 +:+ "/SampleSheet.csv", [run1 +:+ "/SampleSheet.csv"]);
     (run2 +:+ "/SampleSheet.csv", [run2 +:+ "/SampleSheet.csv"])]
    []
    [("stats-2x75", stats_2x75)].

Definition files2 : list (string * string) :=
  [(run1 +:+ "/SampleSheet.csv", sheet1);
   (run1 +:+ "/Stats/Stats.json", "stats-2x75");
   (run2 +:+ "/SampleSheet.csv", sheet2);
   (run2 +:+ "/Stats/Stats.json", "stats-2x75")].

(** Two run folders: the first has no project directory, the second has
    two. *)
Definition run3 : string := "/seq/200103_NB501038_0003_CXX".
Definition run4 : string := "/seq/200104_NB501038_0004_DXX".

Definition world3 : World :=
  table_world
    [(run3, ["Stats"; "Reports"]);
     (run3 +:+ "/Stats", []);
     (run3 +:+ "/Reports", []);
     (run4, ["GCF-2020-001"; "GCF-2020-002"; "Stats"]);
     (run4 +:+ "/GCF-2020-001", []);
     (run4 +:+ "/GCF-2020-002", []);
     (run4 +:+ "/Stats", [])]
    [] [] [].

(** A submission form for samples B and C; its lab sheet lists B only. *)
Definition customer_form (ids : list string) : DataFrame :=
  mkDF (dict_keys customer_column_map)
       ((λ sid, CStr sid :: replicate 15 CNaN) <$> ids).

Definition lab_form (ids : list string) : DataFrame :=
  mkDF ["Sample_ID"; "Sample_Name"; "Project ID"; "KIT"; "Concentration (ng/ul)"; "Comment"]
       ((λ sid, [CStr sid; CStr sid; CStr "GCF-2020-001"; CNaN; CInt 12; CNaN]) <$> ids).

Definition world4 : World :=
  table_world [] []
    [("form B C", [(0%nat, customer_form ["B"; "C"]); (2%nat, lab_form [])]);
     ("form A B, lab B", [(0%nat, customer_form ["A"; "B"]); (2%nat, lab_form ["B"])])]
    [].

Definition files4 : list (string * string) :=
  [("form1.xlsx", "form B C"); ("form2.xlsx", "form A B, lab B")].

Definition samples_A_B : list (string * list (string * cell)) :=
  [("A", [("R1", CStr "run/A_R1.fastq.gz"); ("R2", CStr EmptyString);
          ("paired_end", CInt 0); ("Sample_ID", CStr "A")]);
   ("B", [("R1", CStr "run/B_R1.fastq.gz"); ("R2", CStr "run/B_R2.fastq.gz");
          ("paired_end", CInt 1); ("Sample_ID", CStr "B")])].

(** The parsed arguments of runs on these worlds. *)
Definition args1 : Namespace :=
  {| args_project_id := None;
     args_runfolders := [run1];
     args_samplesheet := None;
     args_output := OutFile "config.yaml";
     args_ssub := None;
     args_organism := Some "mouse";
     args_libkit := None;
     args_machine := None;
     args_create_fastq_dir := false |}.

Definition args2 : Namespace :=
  {| args_project_id := None;
     args_runfolders := [run1; run2];
     args_samplesheet := None;
     args_output := OutFile "config.yaml";
     args_ssub := None;
     args_organism := None;
     args_libkit := None;
     args_machine := None;
     args_create_fastq_dir := false |}.

Definition cli3 : cli :=
  {| cli_project_id := None;
     cli_runfolders := [run3];
     cli_samplesheet := None;
     cli_output := None;
     cli_ssub := None;
     cli_organism := None;
     cli_libkit := None;
     cli_machine := None;
     cli_create_fastq_dir := false |}.

Definition files3 : list (string * string) :=
  [("config.yaml", "project_id: GCF-2019-999")].

Definition args3 : Namespace :=
  {| args_project_id := None;
     args_runfolders := [run3];
     args_samplesheet := None;
     args_output := OutFile "config.yaml";
     args_ssub := None;
     args_organism := None;
     args_libkit := None;
     args_machine := None;
     args_create_fastq_dir := false |}.

(** Two runs that report different read lengths; a third folder has no
    [Stats.json]. *)
Definition stats_1x150 : Stats :=
  {| ReadInfosForLanes :=
       [ {| ReadInfos := [ {| IsIndexedRead := false; NumCycles := 150 |};
                           {| IsIndexedRead := true; NumCycles := 8 |} ] |} ] |}.

Definition world5 : World :=
  table_world [] [] [] [("stats-2x75", stats_2x75); ("stats-1x150", stats_1x150)].

Definition files5 : list (string * string) :=
  [(run1 +:+ "/Stats/Stats.json", "stats-2x75");
   (run2 +:+ "/Stats/Stats.json", "stats-1x150")].

(** A run folder whose name has no machine code, and a run on it that
    names the machine. *)
Definition run6 : string := "/seq/novaseq".

Definition files6 : list (string * string) :=
  [(run6 +:+ "/Stats/Stats.json", "stats-2x75")].

Definition args6 : Namespace :=
  {| args_project_id := Some "GCF-2020-001";
     args_runfolders := [run6];
     args_samplesheet := None;
     args_output := OutStdout;
     args_ssub := None;
     args_organism := Some "mouse";
     args_libkit := None;
     args_machine := Some "NovaSeq 6000";
     args_create_fastq_dir := false |}.

(** A submission form that lists sample B twice. *)
Definition world7 : World :=
  table_world [] []
    [("form B B", [(0%nat, customer_form ["B"; "B"]); (2%nat, lab_form [])])]
    [].

Definition files7 : list (string * string) := [("form3.xlsx", "form B B")].

(** What the parser makes of [cli1], and the state it leaves. *)
Definition args_of_cli1 : Namespace :=
  {| args_project_id := None;
     args_runfolders := [run1];
     args_samplesheet := None;
     args_output := OutFile "config.yaml";
     args_ssub := None;
     args_organism := None;
     args_libkit := None;
     args_machine := None;
     args_create_fastq_dir := false |}.

Definition parsed_state1 : state :=
  mkState (<["config.yaml" := EmptyString]> (list_to_map files1)) [] EmptyString [] [].

(** The first world with the workbooks of the fourth, and a submission
    form in the run folder. *)
Definition world8 : World :=
  {| listdir := listdir world1;
     isdir := isdir world1;
     glob := glob world1;
     abspath := abspath world1;
     relpath := relpath world1;
     writable := writable world1;
     read_csv := read_csv world1;
     read_excel := read_excel world4;
     json_load := json_load world1;
     yaml_dump := yaml_dump world1 |}.

Definition files8 : list (string * string) :=
  (run1 +:+ "/Sample-Submission-Form.xlsx", "form A B, lab B") :: files1.

(** A run on the two run folders of the third world. *)
Definition args34 : Namespace :=
  {| args_project_id := None;
     args_runfolders := [run3; run4];
     args_samplesheet := None;
     args_output := OutFile "config.yaml";
     args_ssub := None;
     args_organism := None;
     args_libkit := None;
     args_machine := None;
     args_create_fastq_dir := false |}.

(** Run folders whose directories have names with more behind the id. *)
Definition run9 : string := "/seq/200109_NB501038_0009_JXX".
Definition run10 : string := "/seq/200110_NB501038_0010_KXX".

Definition world9 : World :=
  table_world
    [(run9, ["GCF-2020-001"; "GCF-2020-001-old"]);
     (run9 +:+ "/GCF-2020-001", []);
     (run9 +:+ "/GCF-2020-001-old", []);
     (run10, ["GCF-2020-0011"; "Stats"]);
     (run10 +:+ "/GCF-2020-0011", []);
     (run10 +:+ "/Stats", [])]
    [] [] [].

(** A run with [--create-fastq-dir] on the first world. *)
Definition cli_staging : cli :=
  {| cli_project_id := None;
     cli_runfolders := [run1];
     cli_samplesheet := None;
     cli_output := None;
     cli_ssub := None;
     cli_organism := None;
     cli_libkit := None;
     cli_machine := None;
     cli_create_fastq_dir := true |}.

(** The files of the first world without its [Stats.json]. *)
Definition files_no_stats : list (string * string) :=
  [(run1 +:+ "/SampleSheet.csv", sheet1);
   ("config.yaml", "project_id: GCF-2019-999")].

(** ** The vocabulary of the properties *)

(** [opts] is what the reader gets from the last of the sheets it parses. *)
Definition last_sheet_options (W : World) (samplesheet : option string)
    (runfolders : list string) (st : state) (opts : list (string * value)) : Prop :=
  ∃ ss sheet text data,
    inspect_samplesheet W samplesheet runfolders = Ok ss
    ∧ last ss = Some sheet
    ∧ files st !! sheet = Some text
    ∧ get_data_from_samplesheet W (readlines text) false [] = Ok (data, opts).

(** The document that [create_default_config] builds from the read geometry
    and the machine name it has obtained. *)
Definition config_of (sample_dict : list (string * list (string * cell)))
    (opts : list (string * value)) (args : Namespace)
    (project_id fastq_dir : option string) (read_geometry : list Z)
    (machine : string) : list (string * value) :=
  let config := [] in
  let config := if truthy project_id
                then dict_set "project_id" (VStr (default EmptyString project_id)) config
                else config in
  let config := match dict_get "Organism" opts with
                | Some v => dict_set "organism" v config
                | None => config
                end in
  let config := match args_organism args with
                | Some o => dict_set "organism" (VStr o) config
                | None => config
                end in
  let config := match dict_get "Libprep" opts with
                | Some v => dict_set "libprepkit" v config
                | None => config
                end in
  let config := match args_libkit args with
                | Some k => dict_set "libprepkit" (VStr k) config
                | None => config
                end in
  let config := dict_set "read_geometry" (VInts read_geometry) config in
  let config := dict_set "machine" (VStr machine) config in
  let config := if truthy fastq_dir
                then dict_set "fastq_dir" (VStr (default EmptyString fastq_dir)) config
                else config in
  dict_set "samples" (VSamples sample_dict) config.

(** [name] is what the lookup table gives for the machine code of [pth],
    the empty string for a code that the table does not list. *)
Definition mapped_name (pth name : string) : Prop :=
  ∃ code, split "_" (basename pth) !! 1%nat = Some code
          ∧ name = default EmptyString (dict_get code SEQUENCERS).

(** The [machine] field is the pipe-join, in some order, of the set of the
    names that the run folders map to. *)
Definition machine_field_spec (runfolders : list string)
    (config : list (string * value)) : Prop :=
  ∃ (matches : gset string) (l : list string),
    (∀ name, name ∈ matches ↔ ∃ pth, pth ∈ runfolders ∧ mapped_name pth name)
    ∧ l ≡ₚ elements matches
    ∧ dict_get "machine" config = Some (VStr (join "|" l)).

(** Some searched project directory has a file that matches the R2 pattern
    of the sample. *)
Definition has_r2 (W : World) (sid : string) (project_dirs : list string) : Prop :=
  ∃ p, p ∈ project_dirs
       ∧ glob W (path_join p ["**"; sid +:+ "_*R2*.fastq.gz"]) ≠ [].

#[global] Instance has_r2_dec (W : World) (sid : string) (project_dirs : list string) :
  Decision (has_r2 W sid project_dirs).
Proof.
  refine (cast_if (decide (Exists
    (λ p, glob W (path_join p ["**"; sid +:+ "_*R2*.fastq.gz"]) ≠ []) project_dirs)));
    unfold has_r2; by rewrite <-Exists_exists.
Defined.

(** [r] is a sample dictionary with a record for every sample of [ids],
    whose [paired_end] flag tells whether the sample has R2 files. *)
Definition paired_end_spec (W : World) (project_dirs : list string) (ids : list cell)
    (r : result (list (string * list (string * cell)))) : Prop :=
  ∃ sample_dict, r = Ok sample_dict
    ∧ ∀ sid, CStr sid ∈ ids →
        ∃ rec pe, dict_get sid sample_dict = Some rec
                  ∧ dict_get "paired_end" rec = Some (CInt pe)
                  ∧ (pe = 1 ↔ has_r2 W sid project_dirs)
                  ∧ (pe = 0 ↔ ¬ has_r2 W sid project_dirs).

(** The three errors of the input resolver. *)
Definition ambiguous_in_folder : error :=
  ValueError "runfolders contain more than one project folders. Use `--project-id` option to choose one.".


Definition project_not_found (pth : string) : error :=
  ValueError ("failed to identify any valid projects in runfolder: " +:+ pth).

(** The entries of a listing that are directories and whose names start
    with text of the form GCF-dddd-ddd: [re.match] tests the pattern at the
    start of the name, so that a name with more characters behind such text
    is one of them. *)
Definition matching_subdirs (W : World) (pth : string) (fns : list string) : list string :=
  filter (λ fn, isdir W (path_join pth [fn]) && bool_decide (is_Some (re_match gcf_patt fn)) = true)
         fns.




(** A sample dictionary as [find_samples] builds it: the record under a key
    names that key as its [Sample_ID]. *)
Definition wf_sample_dict (sample_dict : list (string * list (string * cell))) : Prop :=
  ∀ k rec, (k, rec) ∈ sample_dict → dict_get "Sample_ID" rec = Some (CStr k).

Definition add_log (ws : list log_entry) (st : state) : state :=
  mkState (files st) (log st ++ ws) (stdout st) (made_dirs st) (links st).

(** What [check_existence_of_samples] logs for the keys [samples] of the
    sample dictionary and the [Sample_ID] cells [ids] of a sheet. *)
Definition audit_warnings (samples : list string) (ids : list cell) : list log_entry :=
  (if decide (sheet_only samples ids ≠ ∅)
   then [WarnSheetOnly (elements (sheet_only samples ids))] else [])
  ++ (if decide (form_only samples ids ≠ ∅)
      then [WarnFormOnly (elements (form_only samples ids))] else []).

(** The part of [merge_samples_with_submission_form] that follows the
    audit: it reads and computes, and logs nothing. *)
Definition join_with_form (W : World) (book : string) (customer : DataFrame)
    (sample_dict : list (string * list (string * cell)))
  : result (list (string * list (string * cell))) :=
  lab ← lab_sheet W book;
  merge ← merged_form customer lab;
  sample_df ← pd_merge_inner "Sample_ID" (df_from_dict sample_dict) merge;
  index ← df_column "Sample_ID" sample_df;
  df_to_dict index (df_fillna sample_df).

(** The sample ids of a sheet, as text. *)
Definition form_ids (df : DataFrame) : list string :=
  match df_column "Sample_ID" df with
  | Ok ids => cell_str <$> ids
  | Err _ => []
  end.

(** A computation that leaves the contents of the files as they are,
    whether it returns or raises. *)
Definition keeps_files {A} (m : M A) : Prop := ∀ st, files (m st).1 = files st.

(** A computation that, when it raises, has left the files as they were. *)
Definition fails_clean {A} (m : M A) : Prop :=
  ∀ st st' e, m st = (st', Err e) → files st' = files st.

(** What the parsing of [--output] has done to the file store. *)
Definition output_opened (before after : gmap string string) (out : out_handle) : Prop :=
  match out with
  | OutFile name => after = <[name := EmptyString]> before
  | OutStdout => after = before
  end.

(** ** The vocabulary of the further properties *)

(** A line that [get_data_from_samplesheet] passes over while it has not
    seen the [[CustomOptions]] marker. *)
Definition header_line (line : string) : Prop :=
  line ≠ EmptyString
  ∧ startswith line "[Data]" = false
  ∧ startswith line "[CustomOptions]" = false.

(** A line that the function accepts after the [[CustomOptions]] marker:
    the marker again, or two fields around one comma. *)
Definition option_line (line : string) : Prop :=
  line ≠ EmptyString
  ∧ (startswith line "[CustomOptions]" = true ∨ length (split "," line) = 2%nat).

(** The values that the function stores: the boolean true, or a text that
    is not a spelling of [true]. *)
Definition normalized (v : value) : Prop :=
  v = VBool true ∨ ∃ s, v = VStr s ∧ lower s ≠ "true".

(** The cell of a row of [df] in the column [name], NaN without such a
    column. *)
Definition frame_cell (name : string) (df : DataFrame) (r : list cell) : cell :=
  match index_of name (columns df) with
  | Some i => row_get i r
  | None => CNaN
  end.

(** [sid] is the [Sample_ID], as text, of a row of the frame [df] whose
    [Sample_Project] is [project_id]. *)
Definition project_row (project_id : option string) (df : DataFrame) (sid : string) : Prop :=
  ∃ r, r ∈ rows df
       ∧ Some (frame_cell "Sample_Project" df r) = CStr <$> project_id
       ∧ sid = cell_str (frame_cell "Sample_ID" df r).

(** The frames of the [[Data]] sections of the sheets [ss]. *)
Definition sheet_frames (W : World) (st : state) (ss : list string)
    (dfs : list DataFrame) : Prop :=
  Forall2 (λ sheet df, ∃ text opts,
             files st !! sheet = Some text
             ∧ get_data_from_samplesheet W (readlines text) false [] = Ok (df, opts))
          ss dfs.

(** [df] is the table of the samples of the project: one column
    [Sample_ID] of distinct texts, the ids of the rows of the parsed sheets
    that belong to the project. *)
Definition project_table (W : World) (samplesheet : option string)
    (runfolders : list string) (project_id : option string) (st : state)
    (df : DataFrame) : Prop :=
  ∃ ss dfs ids,
    inspect_samplesheet W samplesheet runfolders = Ok ss
    ∧ sheet_frames W st ss dfs
    ∧ df = mkDF ["Sample_ID"] ((λ sid, [CStr sid]) <$> ids)
    ∧ NoDup ids
    ∧ ∀ sid, sid ∈ ids ↔ ∃ d, d ∈ dfs ∧ project_row project_id d sid.

(** The record of a sample for which no file was found. *)
Definition empty_record (sid : string) : list (string * cell) :=
  [("R1", CStr EmptyString); ("R2", CStr EmptyString);
   ("paired_end", CInt 0); ("Sample_ID", CStr sid)].

(** The two patterns that [match_fastq] hands to [glob]. *)
Definition r1_pattern (sample_name project_dir : string) : string :=
  path_join project_dir ["**"; sample_name +:+ "_*R1*.fastq.gz"].

Definition r2_pattern (sample_name project_dir : string) : string :=
  path_join project_dir ["**"; sample_name +:+ "_*R2*.fastq.gz"].

(** [sorted] lists the paths of [found] in order, and [relative] lists for
    each of them, at the same place, its path relative to the directory two
    levels above the project directory. *)
Definition sorted_and_aligned (W : World) (project_dir : string)
    (found sorted relative : list string) : Prop :=
  Sorted String.le sorted
  ∧ sorted ≡ₚ found
  ∧ zip sorted relative
    = (λ x, (x, relpath W x (dirname (dirname project_dir)))) <$> sorted.

(** The run folder [pth] lists an entry [pid] that is a directory. *)
Definition project_dir_present (W : World) (pid pth : string) : bool :=
  match listdir W pth with
  | Ok fns => bool_decide (pid ∈ fns) && isdir W (path_join pth [pid])
  | Err _ => false
  end.

Definition project_not_present (pid pth : string) : error :=
  ValueError (pid +:+ " is not present in run_folder: " +:+ pth).

(** [g] matches the pattern from its first character to its last. *)
Definition full_match (patt : pattern) (g : string) : Prop :=
  Forall2 (λ (p : ascii → bool) c, p c = true) patt (list_ascii_of_string g).

(** The read lengths that [Stats/Stats.json] of one run folder reports:
    the cycles of the reads of its first lane that are not index reads. *)
Definition folder_geometry (W : World) (fs : gmap string string) (fn : string)
  : result (list Z) :=
  match fs !! path_join fn ["Stats"; "Stats.json"] with
  | None => Err (OSError (path_join fn ["Stats"; "Stats.json"]))
  | Some text =>
      S ← json_load W text;
      match ReadInfosForLanes S !! 0%nat with
      | Some lane =>
          Ok (NumCycles <$> filter (λ read, IsIndexedRead read = false) (ReadInfos lane))
      | None => Err IndexError
      end
  end.

(** The text by which two run folders are compared. *)
Definition descriptor (read_geometry : list Z) : string :=
  join ":" (pretty <$> read_geometry).

(** The model name of a run folder: its base name is split at the
    underscores, the second field is looked up in [SEQUENCERS]; a folder
    whose base name has no second field has none. *)
Definition machine_of (pth : string) : option string :=
  code ← split "_" (basename pth) !! 1%nat;
  Some (default EmptyString (dict_get code SEQUENCERS)).

(** The base name of the folder has an underscore. *)
Definition has_underscore (pth : string) : Prop :=
  "_"%char ∈ list_ascii_of_string (basename pth).

(** The keys of the output document, in its order. *)
Definition config_keys (opts : list (string * value)) (args : Namespace)
    (project_id fastq_dir : option string) : list string :=
  (if truthy project_id then ["project_id"] else [])
  ++ (if bool_decide (is_Some (dict_get "Organism" opts) ∨ is_Some (args_organism args))
      then ["organism"] else [])
  ++ (if bool_decide (is_Some (dict_get "Libprep" opts) ∨ is_Some (args_libkit args))
      then ["libprepkit"] else [])
  ++ ["read_geometry"; "machine"]
  ++ (if truthy fastq_dir then ["fastq_dir"] else [])
  ++ ["samples"].

(** The cells of a [Sample_ID] column that are keys of the sample
    dictionary. *)
Definition ids_of_dict (sample_dict : list (string * list (string * cell)))
    (mids : list cell) : list cell :=
  filter (λ c, c ∈ CStr <$> dict_keys sample_dict) mids.

(** A computation that leaves a part [f] of the state as it was, whether
    it returns or raises. *)
Definition keeps {X A} (f : state → X) (m : M A) : Prop :=
  ∀ st, f (m st).1 = f st.

(** The directories and links that a run has created. *)
Definition tree (st : state) : list string * list (string * string) :=
  (made_dirs st, links st).

(** What a run has written: the contents of the files and the standard
    output. *)
Definition written (st : state) : gmap string string * string :=
  (files st, stdout st).

(** The arguments with another value of [--sample-submission-form]. *)
Definition with_ssub (args : Namespace) (ssub : option string) : Namespace :=
  {| args_project_id := args_project_id args;
     args_runfolders := args_runfolders args;
     args_samplesheet := args_samplesheet args;
     args_output := args_output args;
     args_ssub := ssub;
     args_organism := args_organism args;
     args_libkit := args_libkit args;
     args_machine := args_machine args;
     args_create_fastq_dir := args_create_fastq_dir args |}.

(** What [os.path.exists] looks at. *)
Definition paths (st : state) : gmap string string * list (string * string) :=
  (files st, links st).

(** The FASTQ files of a sample in a project directory, in the order in
    which the staging takes them: the sorted R1 files, then the sorted R2
    files. *)
Definition fastq_files (W : World) (sample_id project_dir : string) : list string :=
  merge_sort String.le (glob W (r1_pattern sample_id project_dir))
  ++ merge_sort String.le (glob W (r2_pattern sample_id project_dir)).

(** The links of the staging, source and destination, in its order: sample
    by sample, project directory by project directory. *)
Definition staged_links (W : World) (sample_ids project_dirs : list string)
  : list (string * string) :=
  sample_ids ≫= λ sample_id,
    project_dirs ≫= λ pid,
      (λ src, (src, path_join "data/raw/fastq"
                      [relpath W src (dirname (dirname pid))]))
      <$> fastq_files W sample_id pid.

(** The directory of a link is made, then the link. *)
Definition make_links (W : World) (l : list (string * string)) : M unit :=
  for_each l tt (λ _ '(src, dst), _ ← makedirs (dirname dst); symlink W src dst).


(** The [Sample_ID] column of the frame [merge] of the merger, for a
    customer sheet with the ids [cids]: the ids of the customer sheet, each
    as often as the lab sheet has a row of the same id, or once when the lab
    sheet is empty; all of them as text. *)
Definition merged_ids (cids : list cell) (lab : DataFrame) : list cell :=
  (λ c, CStr (cell_str c)) <$>
    (if df_empty lab then cids
     else match df_column "Sample_ID" lab with
          | Ok lids => cids ≫= λ c, filter (λ m, m = c) lids
          | Err _ => []
          end).

(** The sample [sid] is in the merged submission-form table: the customer
    sheet has a row of that id and, unless the lab sheet is empty, the lab
    sheet has a row of the same id. *)
Definition in_merged_form (sid : string) (cids : list cell) (lab : DataFrame) : Prop :=
  ∃ c, cell_str c = sid ∧ c ∈ cids
       ∧ (df_empty lab = false →
          ∃ lids, df_column "Sample_ID" lab = Ok lids ∧ c ∈ lids).


(** [out] is the state and the result of a merge that started in [st]: the
    merge has changed nothing but the log, which has grown by the audit
    against the customer sheet; no warning of it names [sid]; and the merge
    has returned a mapping, which lacks [sid]. *)
Definition dropped_without_warning (sid : string) (cids : list cell)
    (sample_dict : list (string * list (string * cell)))
    (st : state) (out : state * result (list (string * list (string * cell)))) : Prop :=
  let warnings := audit_warnings (dict_keys sample_dict) cids in
  out.1 = add_log warnings st
  ∧ (∀ names, WarnSheetOnly names ∈ warnings → sid ∉ names)
  ∧ (∀ names, WarnFormOnly names ∈ warnings → sid ∉ names)
  ∧ ∃ s_dict, out.2 = Ok s_dict ∧ sid ∉ dict_keys s_dict.

(** A computation that removes no directory and no link: those of the
    state it started in are the first ones of the state it ends in. *)
Definition grows {A} (m : M A) : Prop :=
  ∀ st, made_dirs st `prefix_of` made_dirs (m st).1
        ∧ links st `prefix_of` links (m st).1.

(** What a run that has failed leaves behind, [st] being the state before
    the arguments were parsed and [st2] the state at the failure.  The
    output file is empty and the contents of every other file are as they
    were; nothing has been written to the standard output; no directory
    and no link has been removed, and without [--create-fastq-dir] none
    has been created. *)
Definition output_emptied (st st2 : state) (args : Namespace) : Prop :=
  match args_output args with
  | OutFile name => files st2 = <[name := EmptyString]> (files st)
  | OutStdout => files st2 = files st
  end
  ∧ stdout st2 = stdout st
  ∧ made_dirs st `prefix_of` made_dirs st2
  ∧ links st `prefix_of` links st2
  ∧ (args_create_fastq_dir args = false →
     made_dirs st2 = made_dirs st ∧ links st2 = links st).

(** * Properties *)

(** ** Project identifiers *)

Lemma re_match_prefix (patt : pattern) (s g : string) :
  re_match patt s = Some g →
  ∃ rest, s = g +:+ rest ∧ String.length g = length patt.
Proof.
  revert s g. induction patt as [|p patt IH]; intros s g; simpl.
  - intros [= <-]. by exists s.
  - destruct s as [|c s]; [done|].
    destruct (p c); [|done].
    destruct (re_match patt s) as [g'|] eqn:E; simpl; [|done].
    intros [= <-]. destruct (IH _ _ E) as (rest & -> & Hlen).
    exists rest. split; [done|]. simpl. by rewrite Hlen.
Qed.

Lemma re_match_app (patt : pattern) (g rest : string) :
  re_match patt g = Some g → re_match patt (g +:+ rest) = Some g.
Proof.
  revert g. induction patt as [|p patt IH]; intros g; simpl.
  - by intros [= <-].
  - destruct g as [|c g]; [done|]. simpl.
    destruct (p c); [|done].
    destruct (re_match patt g) as [g'|] eqn:E; simpl; [|done].
    intros [= ->]. by rewrite (IH _ E).
Qed.

(** What the validation accepts is decided by the first twelve characters
    alone, and it is those that [re_match] hands back. *)
Lemma is_valid_gcf_id_ignores_tail (g rest : string) :
  re_match gcf_patt g = Some g →
  ∃ g', is_valid_gcf_id (Some (g +:+ rest)) gcf_patt = Ok (RetStr g')
        ∧ is_valid_gcf_id (Some g) gcf_patt = Ok (RetStr g').
Proof.
  intros Hg. exists (strip g). unfold is_valid_gcf_id.
  by rewrite (re_match_app _ _ rest Hg), Hg.
Qed.

(** C5: the validation of [--project-id] matches the pattern at the start of
    the string only.  The string GCF-2020-0011, which has one digit too many,
    is not rejected: it is accepted and turned into GCF-2020-001. *)
Theorem is_valid_gcf_id_accepts_trailing_characters :
  is_valid_gcf_id (Some "GCF-2020-0011") gcf_patt = Ok (RetStr "GCF-2020-001").
Proof. reflexivity. Qed.

(** ** The sample sheet reader *)

(** A sheet without a line that starts with the [[Data]] marker never gets
    to the [RuntimeError] that the function means to raise: it ends in the
    [NameError] of the message, or earlier in the [ValueError] of a
    custom-option line that does not have two fields. *)
Lemma get_data_from_samplesheet_without_marker (W : World) (fh : list string)
    (custom_opts : bool) (opts_d : list (string * value)) :
  Forall (λ line, startswith line "[Data]" = false) fh →
  ∃ e, get_data_from_samplesheet W fh custom_opts opts_d = Err e
       ∧ (e = NameError "s" ∨ ∃ msg, e = ValueError msg).
Proof.
  intros Hfh. revert custom_opts opts_d.
  induction Hfh as [|line fh Hline _ IH]; intros custom_opts opts_d; simpl.
  - eauto.
  - destruct line as [|c line]; [eauto|].
    rewrite Hline.
    destruct (startswith (String c line) "[CustomOptions]"); [apply IH|].
    destruct custom_opts; [|apply IH].
    destruct (rstrip <$> split "," (String c line)) as [|key [|val [|? ?]]]; eauto.
Qed.

(** C3: a sample sheet without a [[Data]] marker does not fail with the
    descriptive error about the missing section.  On the two-line sheet
    below the reader reaches the end of the file and fails with a
    [NameError] for the name [s], which the message is built from. *)
Theorem get_data_from_samplesheet_missing_data_is_NameError :
  get_data_from_samplesheet world1
    (readlines ("[Header]" +:+ nl +:+ "Investigator,Ann" +:+ nl)) false []
  = Err (NameError "s").
Proof. reflexivity. Qed.

(** ** Reasoning in the monad *)

Lemma bind_Ok {A B} (m : M A) (k : A → M B) (st st' : state) (b : B) :
  (m ≫= k) st = (st', Ok b) →
  ∃ a st1, m st = (st1, Ok a) ∧ k a st1 = (st', Ok b).
Proof.
  unfold mbind, M_bind. destruct (m st) as [st1 [a|e]]; [eauto|done].
Qed.

Lemma bind_run {A B} (m : M A) (k : A → M B) (st st1 : state) (a : A) :
  m st = (st1, Ok a) → (m ≫= k) st = k a st1.
Proof. unfold mbind, M_bind. by intros ->. Qed.

Lemma lift_Ok {A} (r : result A) (st st' : state) (a : A) :
  lift r st = (st', Ok a) → st' = st ∧ r = Ok a.
Proof. unfold lift. by intros [= -> ->]. Qed.

Lemma read_file_Ok (path : string) (st st' : state) (text : string) :
  read_file path st = (st', Ok text) → st' = st ∧ files st !! path = Some text.
Proof.
  unfold read_file. destruct (files st !! path); [|done]. by intros [= -> ->].
Qed.

Lemma rbind_Ok {A B} (r : result A) (k : A → result B) (b : B) :
  r ≫= k = Ok b → ∃ a, r = Ok a ∧ k a = Ok b.
Proof. destruct r as [a|e]; [eauto|done]. Qed.

Lemma list_find_cons {A} (P : A → Prop) `{∀ x, Decision (P x)} (x : A) (l : list A) :
  list_find P (x :: l)
  = if decide (P x) then Some (0%nat, x) else prod_map S id <$> list_find P l.
Proof. reflexivity. Qed.

Lemma for_each_r_cons {A B} (x : A) (l : list A) (b : B) (body : B → A → result B) :
  for_each_r (x :: l) b body = body b x ≫= λ b', for_each_r l b' body.
Proof. reflexivity. Qed.

Lemma for_each_cons {A B} (x : A) (l : list A) (b : B) (body : B → A → M B) :
  for_each (x :: l) b body = body b x ≫= λ b', for_each l b' body.
Proof. reflexivity. Qed.

(** ** The custom options of several sheets *)

Lemma read_sheet_Ok (W : World) acc sheet st st' acc' :
  read_sheet W acc sheet st = (st', Ok acc') →
  st' = st ∧ ∃ text data opts,
    files st !! sheet = Some text
    ∧ get_data_from_samplesheet W (readlines text) false [] = Ok (data, opts)
    ∧ acc' = (acc.1 ++ [data], Some opts).
Proof.
  unfold read_sheet. intros H.
  apply bind_Ok in H as (text & st1 & H1 & H).
  apply read_file_Ok in H1 as [-> Htext].
  apply bind_Ok in H as ([data opts] & st2 & H2 & H).
  apply lift_Ok in H2 as [-> Hdata].
  injection H as <- <-. eauto 10.
Qed.

Lemma read_sheets_last (W : World) (ss : list string) acc st st' df_list opts :
  for_each ss acc (read_sheet W) st = (st', Ok (df_list, opts)) →
  match last ss with
  | Some sheet =>
      ∃ text data o, files st !! sheet = Some text
        ∧ get_data_from_samplesheet W (readlines text) false [] = Ok (data, o)
        ∧ opts = Some o
  | None => opts = acc.2
  end.
Proof.
  revert acc st. induction ss as [|sheet ss IH]; intros acc st.
  - by intros [= _ ->].
  - simpl for_each. intros H. apply bind_Ok in H as (acc' & st1 & H1 & H).
    apply read_sheet_Ok in H1 as (-> & text & data & o & Htext & Hdata & ->).
    apply IH in H. rewrite last_cons.
    destruct (last ss); [exact H|]. simpl in H. eauto 10.
Qed.

(** C1 (amended): the options that the reader returns are those of the last
    sheet it parsed, whatever the sheets before it declared. *)
Theorem get_project_samples_options_of_last_sheet (W : World)
    (samplesheet : option string) (runfolders : list string)
    (project_id : option string) (st st' : state) (df : DataFrame)
    (opts : list (string * value)) :
  get_project_samples_from_samplesheet W samplesheet runfolders project_id st
    = (st', Ok (df, opts)) →
  last_sheet_options W samplesheet runfolders st opts.
Proof.
  unfold get_project_samples_from_samplesheet. intros H.
  apply bind_Ok in H as (ss & st1 & H1 & H). apply lift_Ok in H1 as [-> Hss].
  apply bind_Ok in H as ([df_list o] & st1 & Hloop & H).
  apply read_sheets_last in Hloop.
  do 4 (apply bind_Ok in H as (? & ? & _ & H)).
  destruct o as [o|]; [|done]. injection H as _ _ ->.
  destruct (last ss) as [sheet|] eqn:Hlast; [|done].
  destruct Hloop as (text & data & o' & ? & ? & [= ->]).
  by exists ss, sheet, text, data.
Qed.

Lemma get_project_samples_options_of_last_sheet_witness :
  last_sheet_options world2 None [run1; run2] (initial_state files2) [].
Proof.
  apply (get_project_samples_options_of_last_sheet world2 None [run1; run2]
           (Some "GCF-2020-001") (initial_state files2) (initial_state files2)
           (mkDF ["Sample_ID"] [[CStr "A"]; [CStr "B"]]) []).
  vm_compute. reflexivity.
Defined.

(** C1 (counterexample): the first of two sheets declares [Organism], the
    second declares no option; the mapping that is returned is empty, so the
    key of the earlier sheet is lost. *)
Lemma get_project_samples_drops_earlier_options :
  snd <$> get_data_from_samplesheet world2 (readlines sheet1) false []
    = Ok [("Organism", VStr "human")]
  ∧ snd <$> (get_project_samples_from_samplesheet world2 None [run1; run2]
               (Some "GCF-2020-001") (initial_state files2)).2
    = Ok [].
Proof. split; vm_compute; reflexivity. Qed.

(** ** Dictionaries *)

Lemma dict_get_set_eq {V} (k : string) (v : V) (d : list (string * V)) : dict_get k (dict_set k v d) = Some v.
Proof.
  induction d as [|[k' v'] d IH]; simpl.
  - by rewrite decide_True.
  - destruct (decide (k' = k)) as [->|Hne]; simpl.
    + by rewrite decide_True.
    + by rewrite decide_False.
Qed.

Lemma dict_get_set_ne {V} (k k' : string) (v : V) (d : list (string * V)) :
  k ≠ k' → dict_get k (dict_set k' v d) = dict_get k d.
Proof.
  intros Hne. induction d as [|[k0 v0] d IH]; simpl.
  - by rewrite decide_False.
  - destruct (decide (k0 = k')) as [->|Hne']; simpl.
    + by rewrite !decide_False.
    + destruct (decide (k0 = k)); [done|apply IH].
Qed.

Lemma dict_keys_set {V} (k : string) (v : V) (d : list (string * V)) (x : string) :
  x ∈ dict_keys (dict_set k v d) ↔ x = k ∨ x ∈ dict_keys d.
Proof.
  unfold dict_keys. induction d as [|[k' v'] d IH]; simpl.
  - rewrite list_elem_of_singleton, elem_of_nil. tauto.
  - destruct (decide (k' = k)) as [->|Hne]; simpl;
      rewrite !elem_of_cons, ?IH; tauto.
Qed.

Lemma dict_keys_of_list {V} (l : list (string * V)) (x : string) :
  x ∈ dict_keys (dict_of_list l) ↔ x ∈ l.*1.
Proof.
  unfold dict_of_list.
  assert (∀ d, x ∈ dict_keys (foldl (λ d kv, dict_set kv.1 kv.2 d) d l)
               ↔ x ∈ dict_keys d ∨ x ∈ l.*1) as Hgen.
  { induction l as [|[k v] l IH]; intros d; simpl.
    - rewrite elem_of_nil. tauto.
    - rewrite IH, dict_keys_set, elem_of_cons. simpl. tauto. }
  rewrite Hgen. unfold dict_keys. simpl. rewrite elem_of_nil. tauto.
Qed.

(** ** The config assembler *)

Lemma create_default_config_Ok (W : World) sample_dict opts args project_id fastq_dir
    (st st' : state) (config : list (string * value)) :
  create_default_config W sample_dict opts args project_id fastq_dir st = (st', Ok config) →
  ∃ read_geometry machine st1,
    find_read_geometry W (args_runfolders args) st = (st1, Ok read_geometry)
    ∧ (if truthy (args_machine args)
       then machine = default EmptyString (args_machine args) ∧ st' = st1
       else find_machine (args_runfolders args) st1 = (st', Ok machine))
    ∧ config = config_of sample_dict opts args project_id fastq_dir read_geometry machine.
Proof.
  unfold create_default_config. intros H.
  apply bind_Ok in H as (rg & st1 & Hrg & H).
  apply bind_Ok in H as (machine & st2 & Hm & H).
  injection H as <- <-.
  exists rg, machine, st1. split; [done|]. split; [|done].
  destruct (truthy (args_machine args)); [|done].
  by injection Hm as <- <-.
Qed.

Ltac dict_get_simpl :=
  repeat first
    [ rewrite dict_get_set_eq
    | rewrite dict_get_set_ne by discriminate
    | progress simpl dict_get ].



Lemma config_of_machine sample_dict opts args project_id fastq_dir rg machine :
  dict_get "machine" (config_of sample_dict opts args project_id fastq_dir rg machine)
  = Some (VStr machine).
Proof.
  unfold config_of. destruct (truthy fastq_dir); by dict_get_simpl.
Qed.



(** ** The machine field *)

Lemma machine_loop_elem (runfolders : list string) (acc matches : gset string) :
  for_each_r runfolders acc (λ matches pth,
    machine_code ← match split "_" (basename pth) !! 1%nat with
                   | Some code => Ok code
                   | None => Err IndexError
                   end;
    let machine := default EmptyString (dict_get machine_code SEQUENCERS) in
    Ok (matches ∪ {[machine]})) = Ok matches →
  ∀ name, name ∈ matches ↔ name ∈ acc ∨ ∃ pth, pth ∈ runfolders ∧ mapped_name pth name.
Proof.
  revert acc. induction runfolders as [|pth runfolders IH]; intros acc; simpl.
  - intros [= <-] name. split; [by left|]. intros [?|(? & []%elem_of_nil & _)]. done.
  - intros H name. apply rbind_Ok in H as (acc' & Hstep & H).
    apply rbind_Ok in Hstep as (code & Hcode & [= <-]).
    destruct (split "_" (basename pth) !! 1%nat) as [code'|] eqn:Hsplit; [|done].
    injection Hcode as ->.
    rewrite (IH _ H name), elem_of_union, elem_of_singleton. split.
    + intros [[?| ->]|(p & ? & ?)].
      * by left.
      * right. exists pth. split; [left|]. by exists code.
      * right. exists p. split; [by right|done].
    + intros [?|(p & [->|?]%elem_of_cons & Hp)].
      * by left; left.
      * left; right. destruct Hp as (c & Hc & ->).
        assert (c = code) as -> by congruence. reflexivity.
      * right. by exists p.
Qed.

Lemma machine_matches_elem (runfolders : list string) (matches : gset string) :
  machine_matches runfolders = Ok matches →
  ∀ name, name ∈ matches ↔ ∃ pth, pth ∈ runfolders ∧ mapped_name pth name.
Proof.
  intros H name. rewrite (machine_loop_elem _ _ _ H name).
  split; [intros [[]%not_elem_of_empty|?]; done|by right].
Qed.

Lemma find_machine_Ok (runfolders : list string) (st st' : state) (machine : string) :
  find_machine runfolders st = (st', Ok machine) →
  ∃ matches, machine_matches runfolders = Ok matches
             ∧ machine = join "|" (elements matches).
Proof.
  unfold find_machine. intros H.
  apply bind_Ok in H as (matches & st1 & Hm & H). apply lift_Ok in Hm as [-> Hm].
  apply bind_Ok in H as (? & st2 & _ & H). injection H as _ <-. eauto.
Qed.

Lemma find_machine_is_admitted_order (runfolders : list string) (st st' : state)
    (machine : string) :
  find_machine runfolders st = (st', Ok machine) →
  find_machine_may_return runfolders machine.
Proof.
  intros (matches & ? & ->)%find_machine_Ok. by exists matches, (elements matches).
Qed.

(** C2 (amended): without a machine override, the [machine] field is the
    pipe-join of the set of all the names that the run folders map to, and
    the empty string of an unknown code is one of them. *)
Theorem create_default_config_machine (W : World) sample_dict opts args
    project_id fastq_dir (st st' : state) (config : list (string * value)) :
  truthy (args_machine args) = false →
  create_default_config W sample_dict opts args project_id fastq_dir st = (st', Ok config) →
  machine_field_spec (args_runfolders args) config.
Proof.
  intros Hno H.
  apply create_default_config_Ok in H as (rg & machine & st1 & _ & Hm & ->).
  rewrite Hno in Hm. apply find_machine_Ok in Hm as (matches & Hmatches & ->).
  exists matches, (elements matches).
  split; [by apply machine_matches_elem|]. split; [done|apply config_of_machine].
Qed.

Lemma create_default_config_machine_witness :
  machine_field_spec [run1; run2]
    (config_of [] [] args2 (Some "GCF-2020-001") None [75; 75] "NextSeq 500|").
Proof.
  apply (create_default_config_machine world2 [] [] args2 (Some "GCF-2020-001") None
           (initial_state files2)
           (mkState (list_to_map files2) [WarnMultipleMachines] EmptyString [] [])).
  - reflexivity.
  - vm_compute. reflexivity.
Defined.

(** C2 (counterexample): one run on a NextSeq 500 and one on a machine that
    the table does not list.  The field has an empty component, in whatever
    order the set is listed; it is not the join of the non-empty names. *)
Lemma find_machine_keeps_the_empty_name :
  dict_get "machine" <$>
    (create_default_config world2 [] [] args2 (Some "GCF-2020-001") None
       (initial_state files2)).2
    = Ok (Some (VStr "NextSeq 500|"))
  ∧ ¬ find_machine_may_return [run1; run2] "NextSeq 500".
Proof.
  split; [vm_compute; reflexivity|].
  intros (matches & l & Hm & Hperm & Heq).
  assert (elements <$> machine_matches [run1; run2] = Ok ["NextSeq 500"; EmptyString])
    as Hc by (vm_compute; reflexivity).
  rewrite Hm in Hc. injection Hc as Hc. rewrite Hc in Hperm.
  symmetry in Hperm. apply Permutation_length_2_inv in Hperm as [-> | ->]; done.
Qed.

(** ** Data frames *)

Lemma elem_of_dedup_first {A} `{EqDecision A} (seen l : list A) (x : A) :
  x ∈ dedup_first seen l ↔ x ∈ l ∧ x ∉ seen.
Proof.
  revert seen. induction l as [|y l IH]; intros seen; simpl.
  - rewrite elem_of_nil. tauto.
  - destruct (decide (y ∈ seen)) as [Hy|Hy].
    + rewrite IH, elem_of_cons. split; [tauto|].
      intros [[->|?] ?]; [done|tauto].
    + rewrite !elem_of_cons, IH, elem_of_cons. split.
      * intros [->|[? ?]]; [tauto|]. split; [tauto|]. tauto.
      * intros [[->|?] ?]; [tauto|]. destruct (decide (x = y)); [tauto|]. tauto.
Qed.

Lemma elem_of_drop_duplicates {A} `{EqDecision A} (l : list A) (x : A) :
  x ∈ drop_duplicates l ↔ x ∈ l.
Proof.
  unfold drop_duplicates. rewrite elem_of_dedup_first, elem_of_nil. tauto.
Qed.

Lemma index_of_lookup (name : string) (l : list string) (i : nat) :
  index_of name l = Some i → l !! i = Some name.
Proof.
  revert i. induction l as [|x l IH]; intros i; simpl; [done|].
  destruct (decide (x = name)) as [->|Hne].
  - by intros [= <-].
  - destruct (index_of name l) as [j|]; simpl; [|done].
    intros [= <-]. by apply IH.
Qed.

Lemma index_of_lt (name : string) (l : list string) (i : nat) :
  index_of name l = Some i → (i < length l)%nat.
Proof. intros H. by eapply lookup_lt_Some, index_of_lookup. Qed.

Lemma length_fit (n : nat) (r : list cell) : length (fit n r) = n.
Proof. unfold fit. rewrite length_app, length_take, length_replicate. lia. Qed.

Lemma row_get_fit (n i : nat) (r : list cell) :
  (i < n)%nat → row_get i (fit n r) = row_get i r.
Proof.
  intros Hi. unfold row_get, fit.
  destruct (decide (i < length r)%nat) as [Hlt|Hge].
  - rewrite lookup_app_l by (rewrite length_take; lia).
    by rewrite lookup_take_lt by lia.
  - rewrite (lookup_ge_None_2 r i) by lia.
    rewrite lookup_app_r by (rewrite length_take; lia).
    rewrite length_take, lookup_replicate_2 by (rewrite ?length_take; lia). done.
Qed.

Lemma row_get_insert_fit (n i : nat) (c : cell) (r : list cell) :
  (i < n)%nat → row_get i (<[i := c]> (fit n r)) = c.
Proof.
  intros Hi. unfold row_get.
  by rewrite list_lookup_insert_eq by (rewrite length_fit; lia).
Qed.

Lemma row_get_app_l (i : nat) (l r : list cell) :
  (i < length l)%nat → row_get i (l ++ r) = row_get i l.
Proof. intros Hi. unfold row_get. by rewrite lookup_app_l. Qed.

Lemma row_get_fmap_columns (f : string → cell) (name : string) (cols : list string)
    (i : nat) :
  index_of name cols = Some i → row_get i (f <$> cols) = f name.
Proof.
  intros H%index_of_lookup. unfold row_get. by rewrite list_lookup_fmap, H.
Qed.

(** After [astype(str)] every cell of the column is text. *)
Lemma df_astype_str_column (name : string) (df df' : DataFrame) :
  df_astype_str name df = Ok df' →
  ∃ ids, df_column name df = Ok ids
         ∧ df_column name df' = Ok ((λ c, CStr (cell_str c)) <$> ids)
         ∧ columns df' = columns df.
Proof.
  unfold df_astype_str, df_column.
  destruct (index_of name (columns df)) as [i|] eqn:Hi; [|done].
  intros [= <-]. simpl. rewrite Hi. eexists. split; [done|]. split; [|done].
  f_equal. rewrite <-!list_fmap_compose. apply list_fmap_ext. intros _ r _. simpl.
  apply row_get_insert_fit. by eapply index_of_lt.
Qed.

(** ** The FASTQ matcher *)

Lemma length_bind_0 {A B} (f : A → list B) (l : list A) :
  length (l ≫= f) = 0%nat ↔ ∀ x, x ∈ l → f x = [].
Proof.
  induction l as [|x l IH].
  - split; [|done]. by intros _ ? ?%elem_of_nil.
  - rewrite bind_cons, length_app. split.
    + intros H y [->|Hy]%elem_of_cons.
      * apply length_zero_iff_nil. lia.
      * apply (proj1 IH); [lia|done].
    + intros H. rewrite (H x) by left. simpl. apply (proj2 IH).
      intros y Hy. apply H. by right.
Qed.

Lemma match_fastq_r2_nil (W : World) (sid p : string) :
  (match_fastq W sid p true).2 = []
  ↔ glob W (path_join p ["**"; sid +:+ "_*R2*.fastq.gz"]) = [].
Proof.
  unfold match_fastq. simpl. split.
  - intros H%fmap_nil_inv. apply Permutation_nil_r.
    rewrite <-H. by rewrite merge_sort_Permutation.
  - intros ->. done.
Qed.

Lemma sample_record_paired_end (W : World) (sid : string) (project_dirs : list string) :
  ∃ pe, dict_get "paired_end" (sample_record W sid project_dirs) = Some (CInt pe)
        ∧ (pe = 1 ↔ has_r2 W sid project_dirs)
        ∧ (pe = 0 ↔ ¬ has_r2 W sid project_dirs).
Proof.
  unfold sample_record. simpl dict_get.
  set (s_r2 := project_dirs ≫= _).
  assert (length s_r2 = 0%nat ↔ ¬ has_r2 W sid project_dirs) as Hlen.
  { unfold s_r2. rewrite length_bind_0. unfold has_r2. split.
    - intros H (p & Hp & Hglob). apply Hglob. apply match_fastq_r2_nil. by apply H.
    - intros H p Hp. apply match_fastq_r2_nil.
      destruct (glob W _) eqn:E; [done|]. exfalso. apply H. exists p. by rewrite E. }
  destruct (decide (length s_r2 = 0%nat)) as [H0|H0].
  - exists 0. split; [done|]. split; [|tauto]. split; [done|]. tauto.
  - exists 1. split; [done|]. split; [|split; [done|tauto]].
    split; [|done]. intros _.
    destruct (decide (has_r2 W sid project_dirs)) as [|Hn]; [done|]; tauto.
Qed.

Lemma find_samples_row_text (W : World) (df : DataFrame) (project_dirs : list string)
    (i : nat) (sid : string) sample_dict (row : list cell) :
  index_of "Sample_ID" (columns df) = Some i →
  row_get i row = CStr sid →
  find_samples_row W df project_dirs sample_dict row
  = Ok (dict_set sid (sample_record W sid project_dirs) sample_dict).
Proof. unfold find_samples_row. by intros -> ->. Qed.

Lemma find_samples_loop (W : World) (df : DataFrame) (project_dirs : list string)
    (i : nat) (rs : list (list cell)) (acc : list (string * list (string * cell))) :
  index_of "Sample_ID" (columns df) = Some i →
  Forall (λ c, ∃ sid, c = CStr sid) (row_get i <$> rs) →
  ∃ d, for_each_r rs acc (find_samples_row W df project_dirs) = Ok d
       ∧ ∀ sid, dict_get sid d
                = if decide (CStr sid ∈ row_get i <$> rs)
                  then Some (sample_record W sid project_dirs)
                  else dict_get sid acc.
Proof.
  intros Hi. revert acc. induction rs as [|r rs IH]; intros acc Hall.
  - exists acc. split; [done|]. intros sid. rewrite decide_False; [done|]. apply not_elem_of_nil.
  - rewrite fmap_cons in Hall. apply Forall_cons in Hall as [[s0 Hs0] Hall].
    simpl for_each_r. rewrite (find_samples_row_text _ _ _ _ _ _ _ Hi Hs0).
    change (Ok ?a ≫= ?k) with (k a). cbv beta.
    destruct (IH (dict_set s0 (sample_record W s0 project_dirs) acc) Hall) as (d & -> & Hd).
    exists d. split; [done|]. intros sid. rewrite Hd, fmap_cons, Hs0.
    destruct (decide (CStr sid ∈ row_get i <$> rs)) as [Hin|Hnin].
    + rewrite decide_True; [done|]. by right.
    + destruct (decide (sid = s0)) as [->|Hne].
      * rewrite decide_True by left. apply dict_get_set_eq.
      * rewrite decide_False.
        -- by apply dict_get_set_ne.
        -- intros [[= ?]|?]%elem_of_cons; done.
Qed.

Lemma find_samples_Ok (W : World) (df : DataFrame) (project_dirs : list string)
    (ids : list cell) :
  df_column "Sample_ID" df = Ok ids →
  Forall (λ c, ∃ sid, c = CStr sid) ids →
  ∃ sample_dict, find_samples W df project_dirs = Ok sample_dict
    ∧ ∀ sid, dict_get sid sample_dict
             = if decide (CStr sid ∈ ids)
               then Some (sample_record W sid project_dirs) else None.
Proof.
  unfold df_column, find_samples.
  destruct (index_of "Sample_ID" (columns df)) as [i|] eqn:Hi; [|done].
  intros [= <-] Hall.
  destruct (find_samples_loop W df project_dirs i (rows df) [] Hi Hall) as (d & Hd & Hget).
  exists d. split; [exact Hd|]. intros sid. by rewrite Hget.
Qed.

(** C6: on the sample table that the reader hands over (a [Sample_ID]
    column of text), [find_samples] returns a record for every sample, and
    the [paired_end] flag of the record is 1 exactly when some searched
    project directory has a file matching the R2 pattern of the sample, and
    0 exactly when none has.  The flag is a function of the sample, the
    directories and the files that [glob] sees, and of nothing else. *)
Theorem find_samples_paired_end (W : World) (df : DataFrame)
    (project_dirs : list string) (ids : list cell) :
  df_column "Sample_ID" df = Ok ids →
  Forall (λ c, ∃ sid, c = CStr sid) ids →
  paired_end_spec W project_dirs ids (find_samples W df project_dirs).
Proof.
  intros Hcol Hall.
  destruct (find_samples_Ok W df project_dirs ids Hcol Hall) as (d & Hd & Hget).
  exists d. split; [done|]. intros sid Hsid.
  destruct (sample_record_paired_end W sid project_dirs) as (pe & Hpe & H1 & H0).
  exists (sample_record W sid project_dirs), pe.
  rewrite Hget, decide_True by done. done.
Qed.

Lemma find_samples_paired_end_witness :
  paired_end_spec world1 [run1 +:+ "/GCF-2020-001"] [CStr "A"; CStr "B"]
    (find_samples world1 (mkDF ["Sample_ID"] [[CStr "A"]; [CStr "B"]])
       [run1 +:+ "/GCF-2020-001"]).
Proof.
  apply (find_samples_paired_end world1 (mkDF ["Sample_ID"] [[CStr "A"]; [CStr "B"]])
           [run1 +:+ "/GCF-2020-001"] [CStr "A"; CStr "B"]).
  - reflexivity.
  - repeat constructor; eexists; reflexivity.
Defined.

(** The example of the specification: A has R1 files only, B has both. *)
Example find_samples_world1 :
  (λ d, (dict_get "paired_end" <$> dict_get "A" d,
         dict_get "paired_end" <$> dict_get "B" d))
  <$> find_samples world1 (mkDF ["Sample_ID"] [[CStr "A"]; [CStr "B"]])
        [run1 +:+ "/GCF-2020-001"]
  = Ok (Some (Some (CInt 0)), Some (Some (CInt 1))).
Proof. vm_compute. reflexivity. Qed.

(** The table that the reader returns is such a table. *)
Lemma get_project_samples_frame (W : World) samplesheet runfolders project_id
    (st st' : state) (df : DataFrame) (opts : list (string * value)) :
  get_project_samples_from_samplesheet W samplesheet runfolders project_id st
    = (st', Ok (df, opts)) →
  ∃ ids, df_column "Sample_ID" df = Ok ids
         ∧ Forall (λ c, ∃ sid, c = CStr sid) ids.
Proof.
  unfold get_project_samples_from_samplesheet. intros H.
  apply bind_Ok in H as (ss & st1 & _ & H).
  apply bind_Ok in H as ([df_list o] & st2 & _ & H).
  apply bind_Ok in H as (df1 & st3 & _ & H).
  apply bind_Ok in H as (df2 & st4 & _ & H).
  apply bind_Ok in H as (df3 & st5 & [_ H3]%lift_Ok & H).
  apply bind_Ok in H as (df4 & st6 & [_ H4]%lift_Ok & H).
  destruct o as [o|]; [|done]. injection H as _ <- _.
  apply df_astype_str_column in H3 as (ids & _ & Hcol & _).
  unfold df_sample_ids in H4. rewrite Hcol in H4. simpl in H4. injection H4 as <-.
  eexists. split; [reflexivity|]. simpl rows.
  rewrite <-list_fmap_compose. apply Forall_fmap, Forall_forall.
  intros c Hc. simpl.
  apply elem_of_drop_duplicates, list_elem_of_fmap in Hc as (c0 & -> & _). by eexists.
Qed.

(** ** The input resolver *)

Lemma scan_project_dirs_cons (W : World) (pth fn : string) (fns : list string)
    (found : option (string * string)) :
  scan_project_dirs W pth (fn :: fns) found
  = if isdir W (path_join pth [fn]) && bool_decide (is_Some (re_match gcf_patt fn))
    then match found with
         | Some _ => Err ambiguous_in_folder
         | None => scan_project_dirs W pth fns (Some (path_join pth [fn], fn))
         end
    else scan_project_dirs W pth fns found.
Proof. reflexivity. Qed.

Lemma scan_project_dirs_spec (W : World) (pth : string) (fns : list string)
    (found : option (string * string)) :
  scan_project_dirs W pth fns found
  = match matching_subdirs W pth fns, found with
    | [], _ => Ok found
    | [fn], None => Ok (Some (path_join pth [fn], fn))
    | _, _ => Err ambiguous_in_folder
    end.
Proof.
  revert found. unfold matching_subdirs.
  induction fns as [|fn fns IH]; intros found; [done|].
  rewrite scan_project_dirs_cons, filter_cons.
  destruct (isdir W (path_join pth [fn]) && bool_decide (is_Some (re_match gcf_patt fn)))
    eqn:E.
  - rewrite decide_True by done. destruct found as [f|].
    + by repeat case_match.
    + rewrite IH. by repeat case_match.
  - rewrite decide_False by done. apply IH.
Qed.






(** ** Joins on [Sample_ID] *)

Lemma suffix_x_not_Sample_ID (c : string) : c +:+ "_x" ≠ "Sample_ID".
Proof.
  destruct c as [|c1 [|c2 [|c3 [|c4 [|c5 [|c6 [|c7 [|c8 c]]]]]]]];
    intros H; vm_compute in H; try discriminate H.
  injection H as _ _ _ _ _ _ _ _ H. revert H.
  change (String.append c "_x" ≠ "D").
  destruct c as [|a [|b c]]; discriminate.
Qed.

Lemma index_of_suffixed (key : string) (f : string → string) (cols more : list string)
    (i : nat) :
  (∀ c, c ≠ key → f c ≠ key) → f key = key →
  index_of key cols = Some i →
  index_of key ((f <$> cols) ++ more) = Some i.
Proof.
  intros Hne Hkey. revert i. induction cols as [|c cols IH]; intros i H; [done|].
  rewrite fmap_cons. cbn [app index_of] in *.
  destruct (decide (c = key)) as [->|Hc].
  - injection H as <-. by rewrite Hkey, decide_True.
  - rewrite decide_False by by apply Hne.
    destruct (index_of key cols) as [i'|]; [|done].
    injection H as <-. by rewrite (IH i').
Qed.

Lemma df_column_Ok (key : string) (df : DataFrame) (ids : list cell) :
  df_column key df = Ok ids ↔
  ∃ i, index_of key (columns df) = Some i ∧ ids = row_get i <$> rows df.
Proof.
  unfold df_column. destruct (index_of key (columns df)) as [i|].
  - split; [intros [= <-]; eauto|]. by intros (? & [= <-] & ->).
  - split; [done|]. by intros (? & ? & _).
Qed.

(** The key column of an inner join holds the cells that both key columns
    hold. *)
Lemma pd_merge_inner_ids (key : string) (left right joined : DataFrame)
    (lids rids : list cell) :
  (∀ c, c +:+ "_x" ≠ key) →
  pd_merge_inner key left right = Ok joined →
  df_column key left = Ok lids →
  df_column key right = Ok rids →
  ∃ jids, df_column key joined = Ok jids
          ∧ ∀ c, c ∈ jids ↔ c ∈ lids ∧ c ∈ rids.
Proof.
  intros Hkey Hjoin (i & Hi & ->)%df_column_Ok (j & Hj & ->)%df_column_Ok.
  unfold pd_merge_inner in Hjoin. rewrite Hi, Hj in Hjoin. injection Hjoin as <-.
  eexists. split.
  - apply df_column_Ok. exists i. split; [|reflexivity]. simpl.
    apply index_of_suffixed; [| |done].
    + intros c Hc. case_bool_decide; [apply Hkey|done].
    + rewrite bool_decide_false; [done|]. by intros [? _].
  - intros c. simpl. rewrite !list_elem_of_fmap. split.
    + intros (row & -> & Hrow).
      apply list_elem_of_bind in Hrow as (l & Hrow & Hl).
      apply list_elem_of_fmap in Hrow as (r & -> & Hr).
      apply list_elem_of_filter in Hr as [Heq Hr].
      rewrite row_get_app_l by (rewrite length_fit; by eapply index_of_lt).
      rewrite row_get_fit by by eapply index_of_lt.
      split; [by exists l|]. exists r. by rewrite Heq.
    + intros [(l & -> & Hl) (r & Heq & Hr)].
      eexists. split; [|apply list_elem_of_bind; exists l; split; [|done];
                        apply list_elem_of_fmap; exists r; split; [reflexivity|];
                        apply list_elem_of_filter; by split].
      rewrite row_get_app_l by (rewrite length_fit; by eapply index_of_lt).
      by rewrite row_get_fit by by eapply index_of_lt.
Qed.

Lemma df_to_dict_keys (index : list cell) (df : DataFrame)
    (d : list (string * list (string * cell))) :
  df_to_dict index df = Ok d →
  length index = length (rows df) →
  ∀ sid, sid ∈ dict_keys d ↔ sid ∈ cell_str <$> index.
Proof.
  unfold df_to_dict. intros H Hlen. destruct (decide (NoDup index)); [|done].
  injection H as <-. intros sid. rewrite dict_keys_of_list, fst_zip; [done|].
  rewrite !length_fmap. lia.
Qed.

Lemma df_from_dict_column (key : string)
    (sample_dict : list (string * list (string * cell))) (ids : list cell) :
  df_column key (df_from_dict sample_dict) = Ok ids →
  ids = (λ kv, default CNaN (dict_get key kv.2)) <$> sample_dict.
Proof.
  intros (i & Hi & ->)%df_column_Ok. simpl in *.
  rewrite <-list_fmap_compose. apply list_fmap_ext. intros _ kv _. simpl.
  by rewrite (row_get_fmap_columns _ key _ i Hi).
Qed.

Lemma wf_sample_dict_column (sample_dict : list (string * list (string * cell))) :
  wf_sample_dict sample_dict →
  (λ kv, default CNaN (dict_get "Sample_ID" kv.2)) <$> sample_dict
  = CStr <$> dict_keys sample_dict.
Proof.
  intros Hwf. unfold dict_keys. rewrite <-list_fmap_compose.
  apply list_fmap_ext. intros n [k rec] Hkv. simpl.
  by rewrite (Hwf k rec) by by eapply list_elem_of_lookup_2.
Qed.

(** ** The submission-form merger *)

Lemma check_existence_run (samples : list string) (df : DataFrame) (ids : list cell)
    (st : state) :
  df_column "Sample_ID" df = Ok ids →
  check_existence_of_samples samples df st
  = (add_log (audit_warnings samples ids) st, Ok tt).
Proof.
  intros Hids. unfold check_existence_of_samples, audit_warnings, add_log.
  rewrite Hids. destruct st as [fs lg out dirs lks].
  unfold mbind, M_bind, lift, warning, mret, M_ret. simpl.
  destruct (decide (sheet_only samples ids ≠ ∅)),
           (decide (form_only samples ids ≠ ∅)); simpl;
    by rewrite <-?app_assoc, ?app_nil_r.
Qed.

Lemma merge_samples_run (W : World) (ssub book : string) (customer : DataFrame)
    (cids : list cell) (sample_dict : list (string * list (string * cell)))
    (st : state) :
  files st !! ssub = Some book →
  customer_sheet W book = Ok customer →
  df_column "Sample_ID" customer = Ok cids →
  merge_samples_with_submission_form W ssub sample_dict st
  = (add_log (audit_warnings (dict_keys sample_dict) cids) st,
     join_with_form W book customer sample_dict).
Proof.
  intros Hbook Hcust Hcids. unfold merge_samples_with_submission_form.
  assert (∀ st', files st' = files st → read_file ssub st' = (st', Ok book)) as Hread.
  { intros st' Hfs. unfold read_file. by rewrite Hfs, Hbook. }
  rewrite (bind_run _ _ _ _ _ (Hread st eq_refl)), Hcust.
  rewrite (bind_run _ _ st st customer eq_refl).
  rewrite (bind_run _ _ _ _ _ (check_existence_run _ _ _ st Hcids)).
  rewrite (bind_run _ _ _ _ _
             (Hread (add_log (audit_warnings (dict_keys sample_dict) cids) st) eq_refl)).
  unfold join_with_form, mbind at 1 2 3 4, M_bind, lift.
  destruct (lab_sheet W book) as [lab|]; [|done]. simpl.
  destruct (merged_form customer lab) as [merge|]; [|done]. simpl.
  destruct (pd_merge_inner "Sample_ID" (df_from_dict sample_dict) merge)
    as [sample_df|]; [|done]. simpl.
  by destruct (df_column "Sample_ID" sample_df).
Qed.

Lemma pd_merge_inner_columns (key : string) (left right joined : DataFrame) :
  pd_merge_inner key left right = Ok joined →
  ∃ lids rids, df_column key left = Ok lids ∧ df_column key right = Ok rids.
Proof.
  unfold pd_merge_inner, df_column.
  destruct (index_of key (columns left)), (index_of key (columns right)); try done.
  eauto.
Qed.

(** The ids of the frame [merge] are text, and with a lab sheet that is not
    empty each of them is an id of the lab sheet. *)
Lemma merged_form_ids (customer lab merge : DataFrame) :
  merged_form customer lab = Ok merge →
  ∃ mids, df_column "Sample_ID" merge = Ok ((λ c, CStr (cell_str c)) <$> mids)
          ∧ (df_empty lab = false →
             ∀ lids, df_column "Sample_ID" lab = Ok lids → ∀ c, c ∈ mids → c ∈ lids).
Proof.
  unfold merged_form. intros H. apply rbind_Ok in H as (joined & Hjoined & H).
  apply df_astype_str_column in H as (mids & Hmids & Hcol & _).
  exists mids. split; [done|]. intros Hne lids Hlids c Hc.
  rewrite Hne in Hjoined. simpl in Hjoined.
  destruct (pd_merge_inner_columns _ _ _ _ Hjoined) as (cids & lids' & Hcids & Hlids').
  destruct (pd_merge_inner_ids _ _ _ _ _ _ suffix_x_not_Sample_ID Hjoined Hcids Hlids')
    as (jids & Hjids & Hiff).
  assert (jids = mids) as -> by congruence.
  assert (lids' = lids) as -> by congruence.
  by apply Hiff.
Qed.

(** The keys of the result: the [Sample_ID] of a record of the sample
    dictionary that is an id of the frame [merge]. *)
Lemma join_with_form_keys (W : World) (book : string) (customer : DataFrame)
    (sample_dict s_dict : list (string * list (string * cell))) :
  join_with_form W book customer sample_dict = Ok s_dict →
  ∃ lab merge,
    lab_sheet W book = Ok lab
    ∧ merged_form customer lab = Ok merge
    ∧ ∀ sid, sid ∈ dict_keys s_dict ↔
        CStr sid ∈ ((λ kv, default CNaN (dict_get "Sample_ID" kv.2)) <$> sample_dict)
        ∧ sid ∈ form_ids merge.
Proof.
  unfold join_with_form. intros H.
  apply rbind_Ok in H as (lab & Hlab & H).
  apply rbind_Ok in H as (merge & Hmerge & H).
  apply rbind_Ok in H as (joined & Hjoined & H).
  apply rbind_Ok in H as (index & Hindex & H).
  exists lab, merge. split; [done|]. split; [done|].
  destruct (pd_merge_inner_columns _ _ _ _ Hjoined) as (lids & rids & Hlids & Hrids).
  destruct (pd_merge_inner_ids _ _ _ _ _ _ suffix_x_not_Sample_ID Hjoined Hlids Hrids)
    as (jids & Hjids & Hiff).
  assert (jids = index) as -> by congruence.
  assert (∀ sid, sid ∈ dict_keys s_dict ↔ sid ∈ cell_str <$> index) as Hkeys.
  { apply (df_to_dict_keys _ _ _ H).
    apply df_column_Ok in Hindex as (i & _ & ->). simpl. by rewrite !length_fmap. }
  apply df_from_dict_column in Hlids as ->.
  destruct (merged_form_ids _ _ _ Hmerge) as (mids & Hmids & _).
  assert (rids = (λ c, CStr (cell_str c)) <$> mids) as -> by congruence.
  unfold form_ids. rewrite Hmids.
  intros sid. rewrite Hkeys. rewrite <-!list_fmap_compose.
  rewrite (list_elem_of_fmap _ index sid), (list_elem_of_fmap _ mids sid). split.
  - intros (c & -> & [Hl (m & -> & Hm)%list_elem_of_fmap]%Hiff).
    simpl. split; [done|]. by exists m.
  - intros [Hl (m & -> & Hm)].
    exists (CStr (cell_str m)). split; [done|]. apply Hiff. split; [done|].
    apply list_elem_of_fmap. by exists m.
Qed.

#[global] Instance CStr_inj : Inj (=) (=) CStr.
Proof. by intros ?? [= ->]. Qed.

Lemma elem_of_sheet_only (samples : list string) (ids : list cell) (sid : string) :
  sid ∈ sheet_only samples ids ↔ sid ∈ samples ∧ sid ∉ cell_str <$> ids.
Proof.
  unfold sheet_only. by rewrite elem_of_difference, !elem_of_list_to_set.
Qed.

Lemma elem_of_form_only (samples : list string) (ids : list cell) (sid : string) :
  sid ∈ form_only samples ids ↔ sid ∈ cell_str <$> ids ∧ sid ∉ samples.
Proof.
  unfold form_only. by rewrite elem_of_difference, !elem_of_list_to_set.
Qed.

Lemma audit_warnings_sheet_only (samples : list string) (ids : list cell)
    (names : list string) :
  WarnSheetOnly names ∈ audit_warnings samples ids →
  names = elements (sheet_only samples ids).
Proof.
  unfold audit_warnings. intros [H|H]%elem_of_app.
  - destruct (decide _); [|by apply elem_of_nil in H].
    apply list_elem_of_singleton in H. by injection H.
  - destruct (decide _); [|by apply elem_of_nil in H].
    by apply list_elem_of_singleton in H.
Qed.

Lemma audit_warnings_form_only (samples : list string) (ids : list cell)
    (names : list string) :
  WarnFormOnly names ∈ audit_warnings samples ids →
  names = elements (form_only samples ids).
Proof.
  unfold audit_warnings. intros [H|H]%elem_of_app.
  - destruct (decide _); [|by apply elem_of_nil in H].
    by apply list_elem_of_singleton in H.
  - destruct (decide _); [|by apply elem_of_nil in H].
    apply list_elem_of_singleton in H. by injection H.
Qed.



(** The example of the specification: samples A and B in the sample
    dictionary, B and C in the form. *)
Example merge_samples_A_B_with_form_B_C :
  let out := merge_samples_with_submission_form world4 "form1.xlsx" samples_A_B
               (initial_state files4) in
  (log out.1, dict_keys <$> out.2)
  = ([WarnSheetOnly ["A"]; WarnFormOnly ["C"]], Ok ["B"]).
Proof. vm_compute. reflexivity. Qed.

(** On the second form, whose lab sheet lists B alone, A is dropped
    although no warning was logged. *)
Example merge_samples_A_B_with_lab_B :
  let out := merge_samples_with_submission_form world4 "form2.xlsx" samples_A_B
               (initial_state files4) in
  (log out.1, dict_keys <$> out.2) = ([], Ok ["B"]).
Proof. vm_compute. reflexivity. Qed.

(** The dictionary of [find_samples] is well formed. *)
Lemma find_samples_wf (W : World) (df : DataFrame) (project_dirs : list string)
    (sample_dict : list (string * list (string * cell))) :
  find_samples W df project_dirs = Ok sample_dict → wf_sample_dict sample_dict.
Proof.
  unfold find_samples.
  assert (∀ rs acc, wf_sample_dict acc →
            for_each_r rs acc (find_samples_row W df project_dirs) = Ok sample_dict →
            wf_sample_dict sample_dict) as Hloop.
  { induction rs as [|r rs IH]; intros acc Hacc.
    - by intros [= <-].
    - rewrite for_each_r_cons. intros (acc' & Hrow & H)%rbind_Ok.
      apply (IH acc'); [|done]. unfold find_samples_row in Hrow.
      destruct (index_of "Sample_ID" (columns df)) as [i|]; [|done].
      destruct (row_get i r) as [sid| |]; try done. injection Hrow as <-.
      clear -Hacc. intros k rec. induction acc as [|[k' rec'] acc IHacc]; simpl.
      + intros [= -> ->]%list_elem_of_singleton. reflexivity.
      + destruct (decide (k' = sid)) as [->|Hne].
        * intros [[= -> ->]|Hin]%elem_of_cons; [reflexivity|].
          apply Hacc. by right.
        * intros [[= -> ->]|Hin]%elem_of_cons.
          -- apply Hacc. left.
          -- apply IHacc; [|done]. intros k0 rec0 H0. apply Hacc. by right. }
  apply Hloop. by intros k rec ?%elem_of_nil.
Qed.

(** ** What a run writes *)

Lemma keeps_files_ret {A} (a : A) : keeps_files (mret a).
Proof. done. Qed.

Lemma keeps_files_raise {A} (e : error) : keeps_files (@raise A e).
Proof. done. Qed.

Lemma keeps_files_lift {A} (r : result A) : keeps_files (lift r).
Proof. done. Qed.

Lemma keeps_files_read_file (path : string) : keeps_files (read_file path).
Proof. intros st. unfold read_file. by destruct (files st !! path). Qed.

Lemma keeps_files_warning (w : log_entry) : keeps_files (warning w).
Proof. done. Qed.

Lemma keeps_files_bind {A B} (m : M A) (k : A → M B) :
  keeps_files m → (∀ a, keeps_files (k a)) → keeps_files (m ≫= k).
Proof.
  intros Hm Hk st. unfold mbind, M_bind. specialize (Hm st).
  destruct (m st) as [st1 [a|e]]; simpl in *; [|done].
  by rewrite (Hk a st1).
Qed.

Lemma keeps_files_for_each {A B} (l : list A) (b : B) (body : B → A → M B) :
  (∀ b x, keeps_files (body b x)) → keeps_files (for_each l b body).
Proof.
  intros Hbody. revert b. induction l as [|x l IH]; intros b; [done|].
  rewrite for_each_cons. apply keeps_files_bind; [apply Hbody|apply IH].
Qed.

Lemma keeps_files_path_exists (W : World) (path : string) :
  keeps_files (path_exists W path).
Proof. done. Qed.

Lemma keeps_files_makedirs (path : string) : keeps_files (makedirs path).
Proof. intros st. unfold makedirs. by destruct (files st !! path). Qed.

Lemma keeps_files_symlink (W : World) (src dst : string) :
  keeps_files (symlink W src dst).
Proof.
  unfold symlink. apply keeps_files_bind; [apply keeps_files_path_exists|].
  by intros [].
Qed.

Lemma keeps_files_FileType_r (path : string) : keeps_files (FileType_r path).
Proof.
  intros st. unfold FileType_r. destruct (decide _); [done|].
  by destruct (files st !! path).
Qed.

Ltac keeps_files :=
  repeat first
    [ apply keeps_files_ret
    | apply keeps_files_raise
    | apply keeps_files_lift
    | apply keeps_files_read_file
    | apply keeps_files_warning
    | apply keeps_files_path_exists
    | apply keeps_files_makedirs
    | apply keeps_files_symlink
    | apply keeps_files_FileType_r
    | apply keeps_files_bind; [|intros]
    | apply keeps_files_for_each; intros
    | match goal with
      | |- keeps_files (match ?x with _ => _ end) => destruct x
      | |- keeps_files ((match ?x with _ => _ end) _) => destruct x; cbv beta
      end ].

Lemma keeps_files_get_project_samples (W : World) samplesheet runfolders project_id :
  keeps_files (get_project_samples_from_samplesheet W samplesheet runfolders project_id).
Proof. unfold get_project_samples_from_samplesheet, read_sheet. keeps_files. Qed.

Lemma keeps_files_merge_samples (W : World) ssub sample_dict :
  keeps_files (merge_samples_with_submission_form W ssub sample_dict).
Proof.
  unfold merge_samples_with_submission_form. keeps_files.
Qed.

Lemma keeps_files_create_default_config (W : World) sample_dict opts args
    project_id fastq_dir :
  keeps_files (create_default_config W sample_dict opts args project_id fastq_dir).
Proof.
  unfold create_default_config. keeps_files.
Qed.

Lemma keeps_files_create_fastq_dir (W : World) sample_ids project_dirs :
  keeps_files (create_fastq_dir W sample_ids project_dirs).
Proof. unfold create_fastq_dir, link_all. keeps_files. Qed.

Lemma fails_clean_bind {A B} (m : M A) (k : A → M B) :
  keeps_files m → (∀ a, fails_clean (k a)) → fails_clean (m ≫= k).
Proof.
  intros Hm Hk st st' e. unfold mbind, M_bind. specialize (Hm st).
  destruct (m st) as [st1 [a|e1]]; simpl in *.
  - intros H%Hk. congruence.
  - intros [= <- _]. done.
Qed.

Lemma fails_clean_dump (W : World) config out : fails_clean (dump W config out).
Proof. intros st st' e. unfold dump. by destruct out. Qed.

Lemma run_fails_clean (W : World) (args : Namespace) : fails_clean (run W args).
Proof.
  unfold run.
  apply fails_clean_bind; [keeps_files|intros [project_dirs project_id]].
  apply fails_clean_bind;
    [apply keeps_files_get_project_samples|intros [s_df opts]].
  apply fails_clean_bind; [keeps_files|intros sample_dict].
  apply fails_clean_bind; [keeps_files|intros ssub].
  apply fails_clean_bind;
    [destruct ssub; [apply keeps_files_merge_samples|keeps_files]|intros sample_dict'].
  apply fails_clean_bind.
  { destruct (args_create_fastq_dir args); [|keeps_files].
    apply keeps_files_bind; [apply keeps_files_create_fastq_dir|keeps_files]. }
  intros fastq_dir.
  apply fails_clean_bind; [apply keeps_files_create_default_config|intros config].
  apply fails_clean_dump.
Qed.

Lemma keeps_files_Ok {A} (m : M A) (st st' : state) (a : A) :
  keeps_files m → m st = (st', Ok a) → files st' = files st.
Proof. intros Hm H. specialize (Hm st). by rewrite H in Hm. Qed.

Lemma keeps_files_opt_arg {A} (o : option string) (type : string → M A) :
  (∀ s, keeps_files (type s)) → keeps_files (opt_arg o type).
Proof. intros Htype. unfold opt_arg. destruct o; keeps_files. apply Htype. Qed.

Lemma parse_args_opens_output (W : World) (c : cli) (st st1 : state) (args : Namespace) :
  parse_args W c st = (st1, Ok args) →
  output_opened (files st) (files st1) (args_output args).
Proof.
  unfold parse_args. intros H.
  apply bind_Ok in H as (project_id & s1 & H1 & H).
  apply keeps_files_Ok in H1; [|apply keeps_files_opt_arg; intros; keeps_files].
  apply bind_Ok in H as (? & s2 & H2 & H).
  apply keeps_files_Ok in H2; [|keeps_files].
  apply bind_Ok in H as (runfolders & s3 & H3 & H).
  apply keeps_files_Ok in H3; [|keeps_files].
  apply bind_Ok in H as (samplesheet & s4 & H4 & H).
  apply keeps_files_Ok in H4; [|apply keeps_files_opt_arg, keeps_files_FileType_r].
  apply bind_Ok in H as (output & s5 & H5 & H).
  apply bind_Ok in H as (ssub & s6 & H6 & H).
  apply keeps_files_Ok in H6; [|apply keeps_files_opt_arg, keeps_files_FileType_r].
  injection H as <- <-. simpl. rewrite H6.
  assert (files s4 = files st) as Hs4 by congruence.
  unfold FileType_w in H5. destruct (decide _).
  - injection H5 as <- <-. done.
  - destruct (writable W _); [|done]. injection H5 as <- <-. simpl. by rewrite Hs4.
Qed.

(** C4 (counterexample): the run folder has no project directory, so the
    run fails in the input resolver; the configuration that [config.yaml]
    held before the run is lost all the same. *)
Lemma fatal_error_truncates_existing_output :
  let before := initial_state files3 in
  let after := main world3 cli3 before in
  files before !! "config.yaml" = Some "project_id: GCF-2019-999"
  ∧ after.2 = Err (project_not_found run3)
  ∧ files after.1 !! "config.yaml" = Some EmptyString.
Proof. repeat split; vm_compute; reflexivity. Qed.

(** ** Whole runs *)

(** A run on one run folder without a submission form: the document that
    ends up in [config.yaml]. *)
Example main_world1 :
  let out := main world1 cli1 (initial_state files1) in
  out.2 = Ok tt
  ∧ files out.1 !! "config.yaml"
    = Some ("project_id: GCF-2020-001" +:+ nl +:+
            "organism: human" +:+ nl +:+
            "read_geometry: [75, 75]" +:+ nl +:+
            "machine: NextSeq 500" +:+ nl +:+
            "samples: {A, B}" +:+ nl).
Proof. split; vm_compute; reflexivity. Qed.

(** The text of the two warnings of the audit for samples A and B against a
    form with B and C. *)
Example merge_samples_rendered_warnings :
  render <$> log (merge_samples_with_submission_form world4 "form1.xlsx" samples_A_B
                    (initial_state files4)).1
  = ["WARNING: Samples A are contained in SampleSheet, but not in sample submission form!";
     "WARNING: Samples C are contained in sample submission form, but not in SampleSheet!"].
Proof. vm_compute. reflexivity. Qed.

(** * Further properties *)

(** ** More on the sample sheet reader *)

Lemma get_data_from_samplesheet_cons (W : World) (line : string) (fh : list string)
    (custom_opts : bool) (opts_d : list (string * value)) :
  line ≠ EmptyString →
  get_data_from_samplesheet W (line :: fh) custom_opts opts_d
  = if startswith line "[Data]" then
      df ← read_csv W fh; Ok (df, opts_d)
    else if startswith line "[CustomOptions]" then
      get_data_from_samplesheet W fh true opts_d
    else if custom_opts then
      match rstrip <$> split "," line with
      | [key; val] =>
          let val := if decide (lower val = "true") then VBool true else VStr val in
          get_data_from_samplesheet W fh custom_opts (dict_set key val opts_d)
      | [] | [_] => Err (ValueError "not enough values to unpack")
      | _ => Err (ValueError "too many values to unpack")
      end
    else get_data_from_samplesheet W fh custom_opts opts_d.
Proof. destruct line; [done|reflexivity]. Qed.

(** X1: when the reader returns, the table is what [read_csv] makes of the
    lines that follow the first line starting with [[Data]], and no line
    before that one starts with the marker; nothing after that line is
    looked at for options: with any other lines in their place the reader
    hands these lines to [read_csv] and returns the same options. *)
Theorem get_data_from_samplesheet_reads_after_marker (W : World) (fh : list string)
    (custom_opts : bool) (opts_d opts : list (string * value)) (df : DataFrame) :
  get_data_from_samplesheet W fh custom_opts opts_d = Ok (df, opts) →
  ∃ pre marker rest,
    fh = pre ++ marker :: rest
    ∧ startswith marker "[Data]" = true
    ∧ Forall (λ line, startswith line "[Data]" = false) pre
    ∧ read_csv W rest = Ok df
    ∧ ∀ rest',
        get_data_from_samplesheet W (pre ++ marker :: rest') custom_opts opts_d
        = (df' ← read_csv W rest'; Ok (df', opts)).
Proof.
  revert custom_opts opts_d. induction fh as [|line fh IH]; intros custom_opts opts_d; [done|].
  destruct (decide (line = EmptyString)) as [->|Hline]; [done|].
  rewrite get_data_from_samplesheet_cons by done.
  destruct (startswith line "[Data]") eqn:Hdata.
  - intros (df' & Hcsv & [= -> ->])%rbind_Ok.
    exists [], line, fh. repeat split; [done..|].
    intros rest'. rewrite app_nil_l, get_data_from_samplesheet_cons by done.
    by rewrite Hdata.
  - assert (∀ b o,
              (∀ fh', get_data_from_samplesheet W (line :: fh') custom_opts opts_d
                      = get_data_from_samplesheet W fh' b o) →
              get_data_from_samplesheet W fh b o = Ok (df, opts) →
              ∃ pre marker rest, line :: fh = pre ++ marker :: rest
                ∧ startswith marker "[Data]" = true
                ∧ Forall (λ line, startswith line "[Data]" = false) pre
                ∧ read_csv W rest = Ok df
                ∧ ∀ rest',
                    get_data_from_samplesheet W (pre ++ marker :: rest')
                      custom_opts opts_d
                    = (df' ← read_csv W rest'; Ok (df', opts))) as Hstep.
    { intros b o Hline' (pre & marker & rest & -> & ? & ? & ? & Hrest)%IH.
      exists (line :: pre), marker, rest. repeat split; [done| |done|].
      - by constructor.
      - intros rest'. rewrite <- app_comm_cons, Hline'. apply Hrest. }
    destruct (startswith line "[CustomOptions]") eqn:Hopts.
    { apply Hstep. intros fh'.
      rewrite get_data_from_samplesheet_cons by done. by rewrite Hdata, Hopts. }
    destruct custom_opts.
    2: { apply Hstep. intros fh'.
         rewrite get_data_from_samplesheet_cons by done. by rewrite Hdata, Hopts. }
    destruct (rstrip <$> split "," line) as [|key [|val [|? ?]]] eqn:Hsplit; try done.
    apply Hstep. intros fh'.
    rewrite get_data_from_samplesheet_cons by done. by rewrite Hdata, Hopts, Hsplit.
Qed.

Lemma get_data_from_samplesheet_reads_after_marker_witness :
  ∃ pre marker rest,
    readlines sheet1 = pre ++ marker :: rest
    ∧ startswith marker "[Data]" = true
    ∧ Forall (λ line, startswith line "[Data]" = false) pre
    ∧ read_csv world1 rest
      = Ok (mkDF ["Sample_ID"; "Sample_Project"]
                 [[CStr "A"; CStr "GCF-2020-001"]; [CStr "B"; CStr "GCF-2020-001"]])
    ∧ ∀ rest',
        get_data_from_samplesheet world1 (pre ++ marker :: rest') false []
        = (df' ← read_csv world1 rest'; Ok (df', [("Organism", VStr "human")])).
Proof.
  apply (get_data_from_samplesheet_reads_after_marker world1 (readlines sheet1) false []
           [("Organism", VStr "human")]).
  vm_compute. reflexivity.
Defined.

(** Lines of options after the marker are rows of the table, not options. *)
Example get_data_from_samplesheet_options_after_data :
  snd <$> get_data_from_samplesheet world1
            (readlines ("[Data]" +:+ nl +:+ "Sample_ID,Sample_Project" +:+ nl +:+
                        "[CustomOptions]" +:+ nl +:+ "Organism,human" +:+ nl))
            false []
  = Ok [].
Proof. vm_compute. reflexivity. Qed.

(** A sheet whose lines end in carriage returns is read like one whose
    lines end in line feeds. *)
Example readlines_carriage_return :
  readlines ("[Header]" +:+ String "013" ("[Data]" +:+ String "013" (String "010" "A,B")))
  = ["[Header]" +:+ nl; "[Data]" +:+ nl; "A,B"].
Proof. vm_compute. reflexivity. Qed.

(** X2: the lines in front of the [[CustomOptions]] marker, whatever they
    hold, have no effect on what the reader returns. *)
Theorem get_data_from_samplesheet_skips_header (W : World) (pre rest : list string)
    (opts_d : list (string * value)) :
  Forall header_line pre →
  get_data_from_samplesheet W (pre ++ rest) false opts_d
  = get_data_from_samplesheet W rest false opts_d.
Proof.
  induction 1 as [|line pre (Hne & Hdata & Hopts) _ IH]; [done|].
  rewrite <-app_comm_cons, get_data_from_samplesheet_cons by done.
  by rewrite Hdata, Hopts.
Qed.

Lemma get_data_from_samplesheet_skips_header_witness :
  get_data_from_samplesheet world1
    (["[Header]" +:+ nl; "Investigator,Ann,Lab 3" +:+ nl] ++ ["[Data]" +:+ nl; "Sample_ID" +:+ nl])
    false []
  = get_data_from_samplesheet world1 ["[Data]" +:+ nl; "Sample_ID" +:+ nl] false [].
Proof.
  apply (get_data_from_samplesheet_skips_header world1).
  repeat constructor; discriminate.
Defined.

(** X3: once the [[CustomOptions]] marker has been read, every line up to
    the first line that starts with [[Data]] has to be the marker again or
    a line of exactly two comma-separated fields, or the reader does not
    return: an empty line, a line without a comma and a line with two
    commas in that block are fatal. *)
Theorem get_data_from_samplesheet_option_lines (W : World) (fh : list string)
    (opts_d opts : list (string * value)) (df : DataFrame) :
  get_data_from_samplesheet W fh true opts_d = Ok (df, opts) →
  ∃ pre marker rest,
    fh = pre ++ marker :: rest
    ∧ startswith marker "[Data]" = true
    ∧ Forall (λ line, startswith line "[Data]" = false) pre
    ∧ Forall option_line pre.
Proof.
  revert opts_d. induction fh as [|line fh IH]; intros opts_d; [done|].
  destruct (decide (line = EmptyString)) as [->|Hline]; [done|].
  rewrite get_data_from_samplesheet_cons by done.
  destruct (startswith line "[Data]") eqn:Hdata.
  - intros _. exists [], line, fh. by repeat split.
  - assert (option_line line →
            ∀ o, get_data_from_samplesheet W fh true o = Ok (df, opts) →
              ∃ pre marker rest, line :: fh = pre ++ marker :: rest
                ∧ startswith marker "[Data]" = true
                ∧ Forall (λ line, startswith line "[Data]" = false) pre
                ∧ Forall option_line pre) as Hstep.
    { intros Hopt o (pre & marker & rest & -> & ? & ? & ?)%IH.
      exists (line :: pre), marker, rest. repeat split; [done| |]; by constructor. }
    destruct (startswith line "[CustomOptions]") eqn:Hopts.
    { apply Hstep. split; [done|by left]. }
    assert (length (rstrip <$> split "," line) = length (split "," line)) as Hlen
      by apply length_fmap.
    destruct (rstrip <$> split "," line) as [|key [|val [|? ?]]]; try done.
    apply Hstep. split; [done|]. right. by rewrite <-Hlen.
Qed.

Lemma get_data_from_samplesheet_option_lines_witness :
  ∃ pre marker rest,
    ["Organism,human" +:+ nl; "Libprep,TruSeq" +:+ nl; "[Data]" +:+ nl; "Sample_ID" +:+ nl]
      = pre ++ marker :: rest
    ∧ startswith marker "[Data]" = true
    ∧ Forall (λ line, startswith line "[Data]" = false) pre
    ∧ Forall option_line pre.
Proof.
  apply (get_data_from_samplesheet_option_lines world1 _ []
           [("Organism", VStr "human"); ("Libprep", VStr "TruSeq")]
           (mkDF ["Sample_ID"] [])).
  vm_compute. reflexivity.
Defined.

(** What the two fields of a line of options are is not looked at.  The
    marker of another section in the block of options is fatal when it
    stands alone; with one comma behind it, it is an option of that name. *)
Example get_data_from_samplesheet_section_in_options :
  get_data_from_samplesheet world1
    ["[CustomOptions]" +:+ nl; "[Settings]" +:+ nl; "[Data]" +:+ nl; "Sample_ID" +:+ nl]
    false []
  = Err (ValueError "not enough values to unpack")
  ∧ snd <$> get_data_from_samplesheet world1
              ["[CustomOptions]" +:+ nl; "[Settings]," +:+ nl; "[Data]" +:+ nl;
               "Sample_ID" +:+ nl]
              false []
    = Ok [("[Settings]", VStr EmptyString)].
Proof. split; vm_compute; reflexivity. Qed.

Lemma dict_set_Forall {V} (P : V → Prop) (k : string) (v : V) (d : list (string * V)) :
  Forall (λ kv, P kv.2) d → P v → Forall (λ kv, P kv.2) (dict_set k v d).
Proof.
  intros Hd Hv. induction Hd as [|[k' v'] d Hv' Hd IH]; simpl.
  - by repeat constructor.
  - destruct (decide (k' = k)); by constructor.
Qed.

(** X4: the values of the options that the reader returns are the boolean
    true or a text that is not [true] in any capitalisation; the reader makes
    no boolean false, and a [false] in the sheet stays a text. *)
Theorem get_data_from_samplesheet_values_normalized (W : World) (fh : list string)
    (custom_opts : bool) (opts_d opts : list (string * value)) (df : DataFrame) :
  Forall (λ kv, normalized kv.2) opts_d →
  get_data_from_samplesheet W fh custom_opts opts_d = Ok (df, opts) →
  Forall (λ kv, normalized kv.2) opts.
Proof.
  revert custom_opts opts_d. induction fh as [|line fh IH]; intros custom_opts opts_d Hd; [done|].
  destruct (decide (line = EmptyString)) as [->|Hline]; [done|].
  rewrite get_data_from_samplesheet_cons by done.
  destruct (startswith line "[Data]").
  { by intros (df' & _ & [= _ <-])%rbind_Ok. }
  destruct (startswith line "[CustomOptions]"); [by apply IH|].
  destruct custom_opts; [|by apply IH].
  destruct (rstrip <$> split "," line) as [|key [|val [|? ?]]]; try done.
  apply IH. apply dict_set_Forall; [done|].
  destruct (decide (lower val = "true")); [by left|right; by exists val].
Qed.

Lemma get_data_from_samplesheet_values_normalized_witness :
  Forall (λ kv : string * value, normalized kv.2)
    [("Organism", VStr "human"); ("Trim", VBool true); ("Dedup", VStr "false")].
Proof.
  apply (get_data_from_samplesheet_values_normalized world1
           ["[CustomOptions]" +:+ nl; "Organism,human" +:+ nl; "Trim,TRUE" +:+ nl;
            "Dedup,false" +:+ nl; "[Data]" +:+ nl; "Sample_ID" +:+ nl]
           false [] _ (mkDF ["Sample_ID"] [])).
  - constructor.
  - vm_compute. reflexivity.
Defined.

(** X5: without [--sample-sheet], the search for sheets fails exactly when
    no run folder has a [SampleSheet.csv]; a run folder without one is passed
    over when another has one. *)
Theorem inspect_samplesheet_not_found_iff (W : World) (runfolders : list string) :
  inspect_samplesheet W None runfolders
  = if decide (Forall (λ pth, glob W (path_join pth ["SampleSheet.csv"]) = []) runfolders)
    then Err (RuntimeError ("Cannot find SampleSheet.csv in " +:+ join ", " runfolders))
    else Ok (runfolders ≫= _match_samplesheet W).
Proof.
  unfold inspect_samplesheet.
  destruct (decide (length (runfolders ≫= _match_samplesheet W) = 0%nat)) as [H0|H0];
    rewrite length_bind_0 in H0.
  - rewrite decide_True; [done|]. apply Forall_forall. intros pth Hpth. by apply H0.
  - rewrite decide_False; [done|]. intros Hall. apply H0. intros pth Hpth.
    by apply (proj1 (Forall_forall _ _) Hall).
Qed.

(** ** The table of the samples of the project *)

Lemma NoDup_dedup_first {A} `{EqDecision A} (seen l : list A) :
  NoDup (dedup_first seen l).
Proof.
  revert seen. induction l as [|x l IH]; intros seen; simpl; [constructor|].
  destruct (decide (x ∈ seen)); [apply IH|].
  constructor; [|apply IH]. rewrite elem_of_dedup_first. intros [_ Hx]. apply Hx. left.
Qed.

Lemma index_of_None (name : string) (l : list string) :
  index_of name l = None ↔ name ∉ l.
Proof.
  induction l as [|x l IH]; simpl.
  - split; [intros _; apply not_elem_of_nil|done].
  - rewrite not_elem_of_cons. destruct (decide (x = name)) as [->|Hne].
    + split; [done|]. by intros [? _].
    + destruct (index_of name l); simpl.
      * split; [done|]. intros [_ Hn]. by apply IH in Hn.
      * split; [|done]. intros _. split; [done|]. by apply IH.
Qed.

Lemma read_sheets_frames (W : World) (ss : list string) acc st st' df_list opts :
  for_each ss acc (read_sheet W) st = (st', Ok (df_list, opts)) →
  st' = st ∧ ∃ dfs, df_list = acc.1 ++ dfs ∧ sheet_frames W st ss dfs.
Proof.
  revert acc. induction ss as [|sheet ss IH]; intros acc.
  - intros [= -> ->]. split; [done|]. exists []. split; [by rewrite app_nil_r|constructor].
  - rewrite for_each_cons. intros H. apply bind_Ok in H as (acc' & st1 & H1 & H).
    apply read_sheet_Ok in H1 as (-> & text & data & o & Htext & Hdata & ->).
    apply IH in H as (-> & dfs & -> & Hdfs). split; [done|].
    exists (data :: dfs). split; [simpl; by rewrite <-app_assoc|].
    constructor; [by exists text, o|done].
Qed.

Lemma pd_concat_Ok (dfs : list DataFrame) (big : DataFrame) :
  pd_concat dfs = Ok big →
  columns big = drop_duplicates (dfs ≫= columns)
  ∧ rows big = dfs ≫= λ df,
      (λ r, (λ c, frame_cell c df r) <$> drop_duplicates (dfs ≫= columns)) <$> rows df.
Proof. unfold pd_concat. destruct dfs; [done|]. by intros [= <-]. Qed.

(** The rows of a concatenation are the rows of its frames, and hold for
    every column name the cell that the row held in its frame. *)
Lemma pd_concat_rows (dfs : list DataFrame) (big : DataFrame) :
  pd_concat dfs = Ok big →
  ∀ r', r' ∈ rows big →
    ∃ d r, d ∈ dfs ∧ r ∈ rows d
           ∧ ∀ name, frame_cell name big r' = frame_cell name d r.
Proof.
  intros [Hcols Hrows]%pd_concat_Ok r' Hr'. rewrite Hrows in Hr'.
  apply list_elem_of_bind in Hr' as (d & Hr' & Hd).
  apply list_elem_of_fmap in Hr' as (r & -> & Hr).
  exists d, r. split; [done|]. split; [done|]. intros name.
  unfold frame_cell at 1. rewrite Hcols.
  destruct (index_of name (drop_duplicates (dfs ≫= columns))) as [i|] eqn:Hi.
  - by rewrite (row_get_fmap_columns _ name _ i Hi).
  - unfold frame_cell. apply index_of_None in Hi.
    destruct (index_of name (columns d)) as [j|] eqn:Hj; [|done].
    exfalso. apply Hi. apply elem_of_drop_duplicates, list_elem_of_bind.
    exists d. split; [|done]. by eapply list_elem_of_lookup_2, index_of_lookup.
Qed.

Lemma pd_concat_rows_2 (dfs : list DataFrame) (big : DataFrame) (d : DataFrame)
    (r : list cell) :
  pd_concat dfs = Ok big → d ∈ dfs → r ∈ rows d →
  ∃ r', r' ∈ rows big ∧ ∀ name, frame_cell name big r' = frame_cell name d r.
Proof.
  intros [Hcols Hrows]%pd_concat_Ok Hd Hr.
  exists ((λ c, frame_cell c d r) <$> columns big). split.
  - rewrite Hrows, Hcols. apply list_elem_of_bind. exists d. split; [|done].
    apply list_elem_of_fmap. by exists r.
  - intros name. unfold frame_cell at 1.
    destruct (index_of name (columns big)) as [i|] eqn:Hi.
    + by rewrite (row_get_fmap_columns _ name _ i Hi).
    + unfold frame_cell. apply index_of_None in Hi.
      destruct (index_of name (columns d)) as [j|] eqn:Hj; [|done].
      exfalso. apply Hi. rewrite Hcols.
      apply elem_of_drop_duplicates, list_elem_of_bind.
      exists d. split; [|done]. by eapply list_elem_of_lookup_2, index_of_lookup.
Qed.

Lemma df_filter_project_rows (project_id : option string) (big big2 : DataFrame) :
  df_filter_project project_id big = Ok big2 →
  columns big2 = columns big
  ∧ ∀ r, r ∈ rows big2 ↔
         r ∈ rows big ∧ Some (frame_cell "Sample_Project" big r) = CStr <$> project_id.
Proof.
  unfold df_filter_project, frame_cell.
  destruct (index_of "Sample_Project" (columns big)) as [i|]; [|done].
  intros [= <-]. split; [done|]. intros r. simpl. rewrite list_elem_of_filter. tauto.
Qed.

(** X6: the table that the reader returns has the single column
    [Sample_ID], holds every id once, and holds exactly the ids, as text, of
    the rows of the parsed sheets whose [Sample_Project] is the project id;
    the rows of other projects are left out. *)
Theorem get_project_samples_table (W : World) (samplesheet : option string)
    (runfolders : list string) (project_id : option string) (st st' : state)
    (df : DataFrame) (opts : list (string * value)) :
  get_project_samples_from_samplesheet W samplesheet runfolders project_id st
    = (st', Ok (df, opts)) →
  project_table W samplesheet runfolders project_id st df.
Proof.
  unfold get_project_samples_from_samplesheet. intros H.
  apply bind_Ok in H as (ss & st1 & [-> Hss]%lift_Ok & H).
  apply bind_Ok in H as ([df_list o] & st2 & Hloop & H).
  apply read_sheets_frames in Hloop as (-> & dfs & -> & Hdfs). simpl in H.
  apply bind_Ok in H as (big & st3 & [-> Hbig]%lift_Ok & H).
  apply bind_Ok in H as (big2 & st4 & [-> Hbig2]%lift_Ok & H).
  apply bind_Ok in H as (df3 & st5 & [-> Hdf3]%lift_Ok & H).
  apply bind_Ok in H as (df4 & st6 & [-> Hdf4]%lift_Ok & H).
  destruct o as [o|]; [|done]. injection H as _ <- _.
  apply df_filter_project_rows in Hbig2 as [Hcols2 Hrows2].
  apply df_astype_str_column in Hdf3 as (ids2 & Hids2 & Hcol3 & _).
  unfold df_sample_ids in Hdf4. rewrite Hcol3 in Hdf4. injection Hdf4 as <-.
  set (dd := drop_duplicates ((λ c, CStr (cell_str c)) <$> ids2)).
  assert (∀ c, c ∈ dd → CStr (cell_str c) = c) as Htext.
  { intros c (c0 & -> & _)%elem_of_drop_duplicates%list_elem_of_fmap. done. }
  exists ss, dfs, (cell_str <$> dd). split; [done|]. split; [done|]. split.
  { f_equal. rewrite <-list_fmap_compose. apply list_fmap_ext.
    intros i c Hc. simpl. f_equal. symmetry. apply Htext.
    by eapply list_elem_of_lookup_2. }
  split.
  { apply NoDup_fmap_2_strong; [|apply NoDup_dedup_first].
    intros c1 c2 H1 H2 Heq. rewrite <-(Htext c1 H1), <-(Htext c2 H2). by rewrite Heq. }
  apply df_column_Ok in Hids2 as (j & Hj & ->).
  assert (∀ r, frame_cell "Sample_ID" big r = row_get j r) as Hid.
  { intros r. unfold frame_cell. by rewrite <-Hcols2, Hj. }
  intros sid. rewrite list_elem_of_fmap. split.
  - intros (c & -> & Hc). unfold dd in Hc.
    apply elem_of_drop_duplicates, list_elem_of_fmap in Hc as (c0 & -> & Hc0).
    apply list_elem_of_fmap in Hc0 as (r' & -> & Hr').
    apply Hrows2 in Hr' as [Hr' Hproject].
    destruct (pd_concat_rows _ _ Hbig r' Hr') as (d & r & Hd & Hr & Hcell).
    exists d. split; [done|]. exists r. split; [done|].
    rewrite <-!Hcell. split; [done|]. simpl. by rewrite Hid.
  - intros (d & Hd & r & Hr & Hproject & ->).
    destruct (pd_concat_rows_2 _ _ _ _ Hbig Hd Hr) as (r' & Hr' & Hcell).
    exists (CStr (cell_str (row_get j r'))). split.
    + simpl. by rewrite <-Hid, Hcell.
    + apply elem_of_drop_duplicates, list_elem_of_fmap. exists (row_get j r').
      split; [done|]. apply list_elem_of_fmap. exists r'. split; [done|].
      apply Hrows2. split; [done|]. by rewrite Hcell.
Qed.

Lemma get_project_samples_table_witness :
  project_table world2 None [run1; run2] (Some "GCF-2020-001") (initial_state files2)
    (mkDF ["Sample_ID"] [[CStr "A"]; [CStr "B"]]).
Proof.
  apply (get_project_samples_table world2 None [run1; run2] (Some "GCF-2020-001")
           (initial_state files2) (initial_state files2) _ []).
  vm_compute. reflexivity.
Defined.

(** ** More on the FASTQ matcher *)

Lemma zip_fmap_r_same {A B} (f : A → B) (l : list A) :
  zip l (f <$> l) = (λ x, (x, f x)) <$> l.
Proof. induction l as [|x l IH]; [done|]. rewrite !fmap_cons. simpl. by rewrite IH. Qed.

(** X7: [match_fastq] returns the files that [glob] finds in lexicographic
    order, nothing lost and nothing added, and its relative paths stand at
    the same places as the absolute ones: pairing the two lists, as the
    staging of the FASTQ files does, pairs every file with its own relative
    path. *)
Theorem match_fastq_sorted_and_aligned (W : World) (sample_name project_dir : string) :
  sorted_and_aligned W project_dir (glob W (r1_pattern sample_name project_dir))
    (match_fastq W sample_name project_dir false).1
    (match_fastq W sample_name project_dir true).1
  ∧ sorted_and_aligned W project_dir (glob W (r2_pattern sample_name project_dir))
      (match_fastq W sample_name project_dir false).2
      (match_fastq W sample_name project_dir true).2.
Proof.
  unfold sorted_and_aligned, match_fastq, r1_pattern, r2_pattern. simpl.
  repeat split;
    first [ apply (Sorted_merge_sort String.le)
          | apply merge_sort_Permutation
          | apply zip_fmap_r_same ].
Qed.

Lemma bind_nil_all {A B} (f : A → list B) (l : list A) :
  (∀ x, x ∈ l → f x = []) → l ≫= f = [].
Proof. intros H. apply length_zero_iff_nil, length_bind_0, H. Qed.

(** X8: that no file matches a sample is no error: [find_samples] returns,
    and the record of the sample has empty [R1] and [R2] and the flag 0. *)
Theorem find_samples_without_files (W : World) (df : DataFrame)
    (project_dirs : list string) (ids : list cell) (sid : string) :
  df_column "Sample_ID" df = Ok ids →
  Forall (λ c, ∃ sid, c = CStr sid) ids →
  CStr sid ∈ ids →
  (∀ p, p ∈ project_dirs →
        glob W (r1_pattern sid p) = [] ∧ glob W (r2_pattern sid p) = []) →
  ∃ sample_dict, find_samples W df project_dirs = Ok sample_dict
                 ∧ dict_get sid sample_dict = Some (empty_record sid).
Proof.
  intros Hcol Hall Hsid Hglob.
  destruct (find_samples_Ok W df project_dirs ids Hcol Hall) as (d & Hd & Hget).
  exists d. split; [done|]. rewrite Hget, decide_True by done. f_equal.
  unfold sample_record, empty_record.
  assert ((project_dirs ≫= λ p_pth, (match_fastq W sid p_pth true).1) = []) as ->.
  { apply bind_nil_all. intros p Hp. destruct (Hglob p Hp) as [H1 _].
    unfold match_fastq, r1_pattern in *. cbv beta zeta iota. cbn [fst]. by rewrite H1. }
  assert ((project_dirs ≫= λ p_pth, (match_fastq W sid p_pth true).2) = []) as ->.
  { apply bind_nil_all. intros p Hp. destruct (Hglob p Hp) as [_ H2].
    unfold match_fastq, r2_pattern in *. cbv beta zeta iota. cbn [snd]. by rewrite H2. }
  done.
Qed.

Lemma find_samples_without_files_witness :
  ∃ sample_dict,
    find_samples world2 (mkDF ["Sample_ID"] [[CStr "A"]; [CStr "B"]])
      [run1 +:+ "/GCF-2020-001"; run2 +:+ "/GCF-2020-001"] = Ok sample_dict
    ∧ dict_get "A" sample_dict = Some (empty_record "A").
Proof.
  apply (find_samples_without_files world2 (mkDF ["Sample_ID"] [[CStr "A"]; [CStr "B"]])
           _ [CStr "A"; CStr "B"]).
  - reflexivity.
  - repeat constructor; eexists; reflexivity.
  - left.
  - intros p Hp. apply elem_of_cons in Hp as [->|Hp]; [split; reflexivity|].
    apply list_elem_of_singleton in Hp as ->. split; reflexivity.
Defined.

Lemma dict_keys_set_eq {V} (k : string) (v : V) (d : list (string * V)) :
  dict_keys (dict_set k v d)
  = if decide (k ∈ dict_keys d) then dict_keys d else dict_keys d ++ [k].
Proof.
  unfold dict_keys. induction d as [|[k' v'] d IH].
  - by rewrite decide_False by apply not_elem_of_nil.
  - cbn [dict_set]. destruct (decide (k' = k)) as [->|Hne]; rewrite !fmap_cons; cbn [fst].
    + rewrite decide_True; [done|left].
    + rewrite IH. destruct (decide (k ∈ d.*1)) as [Hin|Hnin].
      * rewrite decide_True; [done|by right].
      * rewrite decide_False; [done|]. intros [->|?]%elem_of_cons; done.
Qed.

Lemma dedup_first_seen {A} `{EqDecision A} (seen1 seen2 l : list A) :
  (∀ x, x ∈ seen1 ↔ x ∈ seen2) → dedup_first seen1 l = dedup_first seen2 l.
Proof.
  revert seen1 seen2. induction l as [|x l IH]; intros seen1 seen2 Hseen; simpl; [done|].
  destruct (decide (x ∈ seen1)) as [H1|H1].
  - rewrite decide_True by by apply Hseen. by apply IH.
  - rewrite decide_False by (intros ?; by apply H1, Hseen). f_equal. apply IH.
    intros y. rewrite !elem_of_cons, Hseen. done.
Qed.

Lemma find_samples_loop_keys (W : World) (df : DataFrame) (project_dirs : list string)
    (i : nat) (rs : list (list cell)) (sids : list string)
    (acc d : list (string * list (string * cell))) :
  index_of "Sample_ID" (columns df) = Some i →
  row_get i <$> rs = CStr <$> sids →
  for_each_r rs acc (find_samples_row W df project_dirs) = Ok d →
  dict_keys d = dict_keys acc ++ dedup_first (dict_keys acc) sids.
Proof.
  intros Hi. revert sids acc. induction rs as [|r rs IH]; intros sids acc Hrs.
  - destruct sids; [|done]. intros [= <-]. simpl. by rewrite app_nil_r.
  - destruct sids as [|sid sids]; [done|]. rewrite !fmap_cons in Hrs.
    injection Hrs as Hr Hrs. rewrite for_each_r_cons.
    rewrite (find_samples_row_text _ _ _ _ _ _ _ Hi Hr).
    change (Ok ?a ≫= ?k) with (k a). cbv beta. intros Hd.
    rewrite (IH sids _ Hrs Hd), dict_keys_set_eq. simpl.
    destruct (decide (sid ∈ dict_keys acc)) as [Hin|Hnin]; [done|].
    rewrite <-app_assoc. simpl. f_equal. f_equal. apply dedup_first_seen.
    intros x. rewrite elem_of_app, !elem_of_cons, elem_of_nil. tauto.
Qed.

(** X9: on a table of text ids, [find_samples] returns a dictionary whose
    keys are the ids in the order of the table, each once, and whose record
    under a key names that key as its [Sample_ID]. *)
Theorem find_samples_keys (W : World) (df : DataFrame) (project_dirs : list string)
    (sids : list string) :
  df_column "Sample_ID" df = Ok (CStr <$> sids) →
  ∃ sample_dict,
    find_samples W df project_dirs = Ok sample_dict
    ∧ dict_keys sample_dict = drop_duplicates sids
    ∧ wf_sample_dict sample_dict.
Proof.
  intros Hcol.
  assert (Forall (λ c, ∃ sid, c = CStr sid) (CStr <$> sids)) as Hall.
  { apply Forall_fmap, Forall_forall. intros s _. by exists s. }
  destruct (find_samples_Ok W df project_dirs _ Hcol Hall) as (d & Hd & _).
  exists d. split; [done|]. split; [|by eapply find_samples_wf].
  apply df_column_Ok in Hcol as (i & Hi & Hrs).
  unfold find_samples in Hd.
  by rewrite (find_samples_loop_keys W df project_dirs i (rows df) sids [] d Hi).
Qed.

Lemma find_samples_keys_witness :
  ∃ sample_dict,
    find_samples world1 (mkDF ["Sample_ID"] [[CStr "B"]; [CStr "A"]; [CStr "B"]])
      [run1 +:+ "/GCF-2020-001"] = Ok sample_dict
    ∧ dict_keys sample_dict = ["B"; "A"]
    ∧ wf_sample_dict sample_dict.
Proof.
  apply (find_samples_keys world1 (mkDF ["Sample_ID"] [[CStr "B"]; [CStr "A"]; [CStr "B"]])
           [run1 +:+ "/GCF-2020-001"] ["B"; "A"; "B"]).
  reflexivity.
Defined.

(** ** The input resolver with a given project id *)

Lemma truthy_Some (s : string) : s ≠ EmptyString → truthy (Some s) = true.
Proof. by destruct s. Qed.

Lemma match_project_dir_given_eq (W : World) (pth pid : string) (fns : list string) :
  pid ≠ EmptyString →
  listdir W pth = Ok fns →
  _match_project_dir W pth (Some pid)
  = if project_dir_present W pid pth
    then Ok (path_join pth [pid], pid)
    else Err (project_not_present pid pth).
Proof.
  intros Hpid Hfns. unfold _match_project_dir, project_dir_present. rewrite Hfns.
  change (Ok fns ≫= ?k) with (k fns). cbv beta. rewrite (truthy_Some pid Hpid).
  cbv iota. cbn [default from_option id].
  destruct (list_find _ fns) as [[i fn]|] eqn:Hfind.
  - apply list_find_Some in Hfind as (Hi & [Hdir ->] & _).
    apply list_elem_of_lookup_2 in Hi.
    by rewrite bool_decide_true, Hdir by done.
  - apply list_find_None in Hfind.
    destruct (bool_decide (pid ∈ fns) && isdir W (path_join pth [pid])) eqn:E; [|done].
    apply andb_true_iff in E as [Hin%bool_decide_eq_true Hdir].
    exfalso. by apply (proj1 (Forall_forall _ _) Hfind pid Hin).
Qed.

(** X10: with a project id, a run folder resolves to its subdirectory of
    exactly that name, whatever other directories it holds and whether or
    not they match the pattern, and it is an error when the run folder has no
    directory of that name. *)
Theorem match_project_dir_given (W : World) (pth pid : string) (fns : list string) :
  pid ≠ EmptyString →
  listdir W pth = Ok fns →
  _match_project_dir W pth (Some pid)
  = if project_dir_present W pid pth
    then Ok (path_join pth [pid], pid)
    else Err (project_not_present pid pth).
Proof. apply match_project_dir_given_eq. Qed.

Lemma inspect_dir_given (W : World) (pth pid : string) (fns : list string)
    (acc : list string * gset string) :
  pid ≠ EmptyString →
  listdir W pth = Ok fns →
  inspect_dir W (Some pid) acc pth
  = if project_dir_present W pid pth
    then Ok (acc.1 ++ [path_join pth [pid]], acc.2 ∪ {[pid]})
    else Err (project_not_present pid pth).
Proof.
  intros Hpid Hfns. unfold inspect_dir.
  rewrite (match_project_dir_given_eq W pth pid fns Hpid Hfns).
  by destruct (project_dir_present W pid pth).
Qed.

Lemma match_project_dir_given_witness :
  _match_project_dir world3 run4 (Some "GCF-2020-002")
  = if project_dir_present world3 "GCF-2020-002" run4
    then Ok (path_join run4 ["GCF-2020-002"], "GCF-2020-002")
    else Err (project_not_present "GCF-2020-002" run4).
Proof.
  apply (match_project_dir_given world3 run4 "GCF-2020-002"
           ["GCF-2020-001"; "GCF-2020-002"; "Stats"]).
  - discriminate.
  - reflexivity.
Defined.

Lemma list_to_set_const (pid : string) (l : list string) :
  l ≠ [] → list_to_set ((λ _, pid) <$> l) =@{gset string} {[pid]}.
Proof.
  induction l as [|x [|y l] IH]; [done| |]; intros _.
  - simpl. by rewrite (right_id_L ∅ (∪)).
  - rewrite fmap_cons, list_to_set_cons, IH by done. by rewrite (idemp_L (∪)).
Qed.

Lemma inspect_dirs_loop_given (W : World) (pid : string) (runfolders : list string)
    (acc : list string * gset string) :
  pid ≠ EmptyString →
  Forall (λ pth, is_Ok (listdir W pth)) runfolders →
  for_each_r runfolders acc (inspect_dir W (Some pid))
  = match list_find (λ pth, project_dir_present W pid pth = false) runfolders with
    | Some (_, pth) => Err (project_not_present pid pth)
    | None =>
        Ok (acc.1 ++ ((λ pth, path_join pth [pid]) <$> runfolders),
            acc.2 ∪ list_to_set ((λ _, pid) <$> runfolders))
    end.
Proof.
  intros Hpid Hall. revert acc. induction Hall as [|pth runfolders Hls _ IH]; intros acc.
  - destruct acc as [dirs ids]. simpl. f_equal. f_equal.
    + by rewrite app_nil_r.
    + by rewrite (right_id_L ∅ (∪)).
  - rewrite for_each_r_cons, list_find_cons.
    destruct (listdir W pth) as [fns|] eqn:Hfns; [|done].
    rewrite (inspect_dir_given W pth pid fns acc Hpid Hfns).
    destruct (project_dir_present W pid pth) eqn:Hpresent.
    + rewrite decide_False by done.
      change (Ok ?a ≫= ?k) with (k a). cbv beta. rewrite IH.
      destruct (list_find _ runfolders) as [[j p]|]; [done|].
      cbn [fmap option_fmap option_map fst snd]. rewrite !fmap_cons.
      f_equal. f_equal.
      * by rewrite <-app_assoc.
      * rewrite list_to_set_cons. by rewrite (assoc_L (∪)).
    + by rewrite decide_True.
Qed.

(** X11: with a project id, [inspect_dirs] returns for every run folder, in
    order, its subdirectory of that name, and the id itself; it fails at the
    first run folder that has no such directory, and the ambiguity error
    cannot occur. *)
Theorem inspect_dirs_given (W : World) (runfolders : list string) (pid : string) :
  pid ≠ EmptyString →
  Forall (λ pth, is_Ok (listdir W pth)) runfolders →
  inspect_dirs W runfolders (Some pid)
  = match list_find (λ pth, project_dir_present W pid pth = false) runfolders with
    | Some (_, pth) => Err (project_not_present pid pth)
    | None => Ok ((λ pth, path_join pth [pid]) <$> runfolders, Some pid)
    end.
Proof.
  intros Hpid Hall. unfold inspect_dirs.
  rewrite (inspect_dirs_loop_given W pid runfolders _ Hpid Hall).
  destruct (list_find _ runfolders) as [[j pth]|]; [done|].
  change (Ok ?a ≫= ?k) with (k a). cbv beta iota. cbn [fst snd app].
  rewrite (left_id_L ∅ (∪)).
  destruct runfolders as [|pth runfolders]; [done|].
  rewrite list_to_set_const by done.
  rewrite size_singleton, decide_False by lia.
  rewrite decide_True by done. by rewrite elements_singleton.
Qed.

Lemma inspect_dirs_given_witness :
  inspect_dirs world3 [run4] (Some "GCF-2020-002")
  = match list_find (λ pth, project_dir_present world3 "GCF-2020-002" pth = false) [run4] with
    | Some (_, pth) => Err (project_not_present "GCF-2020-002" pth)
    | None => Ok ((λ pth, path_join pth ["GCF-2020-002"]) <$> [run4], Some "GCF-2020-002")
    end.
Proof.
  apply (inspect_dirs_given world3 [run4] "GCF-2020-002").
  - discriminate.
  - repeat constructor.
Defined.

(** The run folder with two project directories, which cannot be resolved
    without a project id, is resolved with one. *)
Example inspect_dirs_world3_given :
  inspect_dirs world3 [run4] None = Err ambiguous_in_folder
  ∧ inspect_dirs world3 [run4] (Some "GCF-2020-002")
    = Ok ([run4 +:+ "/GCF-2020-002"], Some "GCF-2020-002").
Proof. split; vm_compute; reflexivity. Qed.

(** ** More on project identifiers *)

Lemma re_match_Some (patt : pattern) (s g : string) :
  re_match patt s = Some g ↔ ∃ rest, s = g +:+ rest ∧ full_match patt g.
Proof.
  unfold full_match. revert s g. induction patt as [|p patt IH]; intros s g; simpl.
  - split.
    + intros [= <-]. exists s. split; [done|constructor].
    + intros (rest & -> & Hg). apply Forall2_nil_inv_l in Hg.
      by destruct g.
  - destruct s as [|c s].
    + split; [done|]. intros (rest & Hs & Hg).
      apply Forall2_cons_inv_l in Hg as (c & k & _ & _ & Hk).
      destruct g; [done|]. discriminate Hs.
    + split.
      * destruct (p c) eqn:Hp; [|done].
        destruct (re_match patt s) as [g'|] eqn:E; [|done].
        intros [= <-]. apply IH in E as (rest & -> & Hg').
        exists rest. split; [done|]. simpl. by constructor.
      * intros (rest & Hs & Hg).
        apply Forall2_cons_inv_l in Hg as (c' & k & Hp & Hk & Hchars).
        destruct g as [|c'' g]; [done|]. simpl in Hchars. injection Hchars as -> <-.
        injection Hs as -> ->. rewrite Hp.
        assert (re_match patt (g +:+ rest) = Some g) as -> by (apply IH; eauto).
        done.
Qed.

Lemma rstrip_last_nonspace (s : string) (c : ascii) :
  is_space c = false →
  rstrip (s +:+ String c EmptyString) = s +:+ String c EmptyString.
Proof.
  intros Hc. induction s as [|a s IH].
  - change (rstrip (String c EmptyString) = String c EmptyString). simpl. by rewrite Hc.
  - change (rstrip (String a (s +:+ String c EmptyString))
            = String a (s +:+ String c EmptyString)).
    simpl. rewrite IH. by destruct s.
Qed.

Lemma is_digit_not_space (c : ascii) : is_digit c = true → is_space c = false.
Proof. destruct c as [[] [] [] [] [] [] [] []]; by vm_compute. Qed.

Lemma full_match_gcf_strip (g : string) : full_match gcf_patt g → strip g = g.
Proof.
  unfold full_match, gcf_patt. intros H.
  rewrite <- (string_of_list_ascii_of_string g).
  generalize dependent (list_ascii_of_string g). intros l H.
  repeat match type of H with
         | Forall2 _ (_ :: _) _ =>
             let c := fresh "c" in let k := fresh "k" in
             let Hc := fresh "Hc" in
             apply Forall2_cons_inv_l in H as (c & k & Hc & H & ->)
         end.
  apply Forall2_nil_inv_l in H as ->.
  repeat match goal with
         | Hl : lit _ _ = true |- _ => apply bool_decide_eq_true in Hl; subst
         end.
  unfold strip.
  match goal with
  | |- context [ [_; _; _; _; ?a5; ?a6; ?a7; ?a8; _; ?a10; ?a11; ?a12] ] =>
      change (string_of_list_ascii
                ["G"; "C"; "F"; "-"; a5; a6; a7; a8; "-"; a10; a11; a12]%char)
        with (string_of_list_ascii
                ["G"; "C"; "F"; "-"; a5; a6; a7; a8; "-"; a10; a11]%char
              +:+ String a12 EmptyString);
      rewrite (rstrip_last_nonspace _ a12) by by apply is_digit_not_space
  end.
  reflexivity.
Qed.

Lemma is_valid_gcf_id_accepts (s : string) (r : gcf_id_ret) :
  is_valid_gcf_id (Some s) gcf_patt = Ok r →
  ∃ g rest, r = RetStr g ∧ s = g +:+ rest ∧ full_match gcf_patt g.
Proof.
  unfold is_valid_gcf_id.
  destruct (re_match gcf_patt s) as [g|] eqn:E; [|done].
  apply re_match_Some in E as (rest & -> & Hg).
  intros [= <-]. exists g, rest. by rewrite (full_match_gcf_strip g Hg).
Qed.

(** X12: the validation of a project id accepts a string exactly when the
    string starts with twelve characters of the form GCF-dddd-ddd, and what
    it returns is those twelve characters; a string is never returned as it
    was given unless it is such an id and nothing more, and white space in
    front of the id is not accepted. *)
Theorem is_valid_gcf_id_accepts_iff (s : string) (r : gcf_id_ret) :
  is_valid_gcf_id (Some s) gcf_patt = Ok r
  ↔ ∃ g rest, r = RetStr g ∧ s = g +:+ rest ∧ full_match gcf_patt g.
Proof.
  unfold is_valid_gcf_id. split.
  - destruct (re_match gcf_patt s) as [g|] eqn:E; [|done].
    apply re_match_Some in E as (rest & -> & Hg).
    intros [= <-]. exists g, rest. by rewrite (full_match_gcf_strip g Hg).
  - intros (g & rest & -> & -> & Hg).
    assert (re_match gcf_patt (g +:+ rest) = Some g) as ->
      by (apply re_match_Some; eauto).
    by rewrite (full_match_gcf_strip g Hg).
Qed.

(** Every rejection carries the message of the function. *)
Lemma is_valid_gcf_id_rejects (s : string) (e : error) :
  is_valid_gcf_id (Some s) gcf_patt = Err e →
  e = ArgumentTypeError (s +:+ " is not a valid GCF number (format: GCF-YYYY-NNN)").
Proof.
  unfold is_valid_gcf_id. destruct (re_match gcf_patt s); [done|]. by intros [= <-].
Qed.

(** ** Read lengths and sequencer *)

Lemma size_le_1_iff (X : gset string) :
  ¬ (1 < size X)%nat ↔ ∀ x y, x ∈ X → y ∈ X → x = y.
Proof.
  split.
  - intros Hs x y Hx Hy. destruct (decide (x = y)) as [|Hne]; [done|].
    exfalso. apply Hs.
    assert (({[x]} ∪ {[y]} : gset string) ⊆ X) as Hsub.
    { intros z. rewrite elem_of_union, !elem_of_singleton. by intros [->| ->]. }
    apply subseteq_size in Hsub.
    rewrite size_union in Hsub
      by (intros z; rewrite !elem_of_singleton; congruence).
    rewrite !size_singleton in Hsub. lia.
  - intros Hall Hs.
    destruct (set_choose_or_empty X) as [[x Hx]|HX].
    + assert (X = {[x]}) as ->.
      { apply set_eq. intros y. rewrite elem_of_singleton. split; [|by intros ->].
        intros Hy. by apply Hall. }
      rewrite size_singleton in Hs. lia.
    + apply size_empty_iff in HX. lia.
Qed.

Lemma find_read_geometry_round (W : World) (fn : string) (st : state) (g : list Z)
    (all : gset string) (rg : option (list Z)) :
  folder_geometry W (files st) fn = Ok g →
  (let stats_fn := path_join fn ["Stats"; "Stats.json"] in
   text ← read_file stats_fn;
   S ← lift (json_load W text);
   lane ← lift (match ReadInfosForLanes S !! 0%nat with
                | Some lane => Ok lane
                | None => Err IndexError
                end);
   let read_geometry :=
     NumCycles <$> filter (λ read, IsIndexedRead read = false) (ReadInfos lane) in
   mret (all ∪ {[join ":" (pretty <$> read_geometry)]}, Some read_geometry)) st
  = (st, Ok (all ∪ {[descriptor g]}, Some g)).
Proof.
  unfold folder_geometry, descriptor. intros Hg. cbv zeta.
  unfold mbind, M_bind, read_file, lift, mret, M_ret.
  destruct (files st !! path_join fn ["Stats"; "Stats.json"]) as [text|]; [|done].
  change (Ok text ≫= ?k) with (k text) in Hg. cbv beta in Hg.
  destruct (json_load W text) as [S|]; [|done].
  change (Ok S ≫= ?k) with (k S) in Hg. cbv beta in Hg.
  destruct (ReadInfosForLanes S !! 0%nat); [|done].
  by injection Hg as <-.
Qed.

Ltac run_round Hr :=
  unfold mbind at 1, M_bind at 1;
  match type of Hr with
  | ?l = _ =>
      match goal with
      | |- match ?x with _ => _ end = _ => change x with l
      end
  end;
  rewrite Hr.

Lemma find_read_geometry_loop (W : World) (runfolders : list string) (st : state)
    (geoms : list (list Z)) (all : gset string) (rg : option (list Z)) :
  Forall2 (λ fn g, folder_geometry W (files st) fn = Ok g) runfolders geoms →
  for_each runfolders (all, rg) (λ '(all, _) fn,
      let stats_fn := path_join fn ["Stats"; "Stats.json"] in
      text ← read_file stats_fn;
      S ← lift (json_load W text);
      lane ← lift (match ReadInfosForLanes S !! 0%nat with
                   | Some lane => Ok lane
                   | None => Err IndexError
                   end);
      let read_geometry :=
        NumCycles <$> filter (λ read, IsIndexedRead read = false) (ReadInfos lane) in
      mret (all ∪ {[join ":" (pretty <$> read_geometry)]}, Some read_geometry)) st
  = (st, Ok (all ∪ list_to_set (descriptor <$> geoms),
             match last geoms with Some g => Some g | None => rg end)).
Proof.
  intros H. revert all rg. induction H as [|fn g runfolders geoms Hg _ IH]; intros all rg.
  - simpl. by rewrite (right_id_L ∅ (∪)).
  - rewrite for_each_cons.
    pose proof (find_read_geometry_round W fn st g all rg Hg) as Hr.
    run_round Hr.
    rewrite IH. rewrite fmap_cons, list_to_set_cons, last_cons.
    rewrite (assoc_L (∪)). by destruct (last geoms).
Qed.

Lemma find_read_geometry_loop_fails (W : World) (pre post : list string) (fn : string)
    (st : state) (geoms : list (list Z)) (e : error)
    (all : gset string) (rg : option (list Z)) :
  Forall2 (λ fn g, folder_geometry W (files st) fn = Ok g) pre geoms →
  folder_geometry W (files st) fn = Err e →
  for_each (pre ++ fn :: post) (all, rg) (λ '(all, _) fn,
      let stats_fn := path_join fn ["Stats"; "Stats.json"] in
      text ← read_file stats_fn;
      S ← lift (json_load W text);
      lane ← lift (match ReadInfosForLanes S !! 0%nat with
                   | Some lane => Ok lane
                   | None => Err IndexError
                   end);
      let read_geometry :=
        NumCycles <$> filter (λ read, IsIndexedRead read = false) (ReadInfos lane) in
      mret (all ∪ {[join ":" (pretty <$> read_geometry)]}, Some read_geometry)) st
  = (st, Err e).
Proof.
  intros H He. revert all rg. induction H as [|fn' g pre geoms Hg _ IH]; intros all rg.
  - rewrite app_nil_l, for_each_cons. clear -He.
    unfold folder_geometry in He. cbv zeta.
    unfold mbind, M_bind, read_file, lift, mret, M_ret.
    destruct (files st !! path_join fn ["Stats"; "Stats.json"]) as [text|];
      [|by injection He as <-].
    change (Ok text ≫= ?k) with (k text) in He. cbv beta in He.
    destruct (json_load W text) as [S|]; [|by injection He as <-].
    change (Ok S ≫= ?k) with (k S) in He. cbv beta in He.
    destruct (ReadInfosForLanes S !! 0%nat); [done|]. by injection He as <-.
  - rewrite <- app_comm_cons, for_each_cons.
    pose proof (find_read_geometry_round W fn' st g all rg Hg) as Hr.
    run_round Hr. apply IH.
Qed.

Lemma find_read_geometry_run (W : World) (runfolders : list string) (st : state)
    (geoms : list (list Z)) (g : list Z) :
  Forall2 (λ fn g, folder_geometry W (files st) fn = Ok g) runfolders geoms →
  last geoms = Some g →
  find_read_geometry W runfolders st
  = (st, if decide (1 < size (list_to_set (descriptor <$> geoms) : gset string))%nat
         then Err (ValueError "Read geometry mismatch between runfolders. Check Stats.json!")
         else Ok g).
Proof.
  intros H Hlast. unfold find_read_geometry.
  unfold mbind at 1, M_bind at 1.
  rewrite (find_read_geometry_loop W runfolders st geoms ∅ None H), Hlast.
  rewrite (left_id_L ∅ (∪)). cbv beta iota.
  by destruct (decide (1 < size (list_to_set (descriptor <$> geoms) : gset string))%nat).
Qed.

(** X13: when every run folder has a readable [Stats/Stats.json], the read
    geometry is decided by the descriptors of the folders: if two folders
    differ the function fails with the mismatch error; if all agree it
    returns the read lengths of the last folder, and changes nothing. *)
Theorem find_read_geometry_result (W : World) (runfolders : list string) (st : state)
    (geoms : list (list Z)) (g : list Z) :
  Forall2 (λ fn g, folder_geometry W (files st) fn = Ok g) runfolders geoms →
  last geoms = Some g →
  ((∀ g', g' ∈ geoms → descriptor g' = descriptor g) →
   find_read_geometry W runfolders st = (st, Ok g))
  ∧ ((∃ g', g' ∈ geoms ∧ descriptor g' ≠ descriptor g) →
     find_read_geometry W runfolders st
     = (st, Err (ValueError "Read geometry mismatch between runfolders. Check Stats.json!"))).
Proof.
  intros H Hlast.
  rewrite (find_read_geometry_run W runfolders st geoms g H Hlast).
  assert (g ∈ geoms) as Hin.
  { apply last_Some in Hlast as [l' ->]. rewrite elem_of_app, list_elem_of_singleton. tauto. }
  destruct (decide (1 < size (list_to_set (descriptor <$> geoms) : gset string))%nat)
    as [Hs|Hs].
  - split; [|done]. intros Hall. exfalso. revert Hs.
    apply size_le_1_iff. intros x y.
    rewrite !elem_of_list_to_set, !list_elem_of_fmap.
    intros (gx & -> & Hx) (gy & -> & Hy). by rewrite (Hall gx Hx), (Hall gy Hy).
  - split; [done|]. intros (g' & Hg' & Hne).
    exfalso. apply Hne. apply (proj1 (size_le_1_iff _) Hs);
      rewrite elem_of_list_to_set, list_elem_of_fmap; eauto.
Qed.

(** X14: a run folder whose [Stats/Stats.json] cannot be read makes the
    function fail with the error of that folder, whatever the folders
    before it report: the descriptors are compared only after every folder
    has been read. *)
Theorem find_read_geometry_unreadable (W : World) (pre post : list string) (fn : string)
    (st : state) (e : error) :
  Forall (λ fn, is_Ok (folder_geometry W (files st) fn)) pre →
  folder_geometry W (files st) fn = Err e →
  find_read_geometry W (pre ++ fn :: post) st = (st, Err e).
Proof.
  intros Hpre He.
  assert (∃ geoms, Forall2 (λ fn g, folder_geometry W (files st) fn = Ok g) pre geoms)
    as [geoms Hgeoms].
  { clear -Hpre. induction Hpre as [|fn' pre Hg _ [geoms IH]].
    - exists []. constructor.
    - destruct (folder_geometry W (files st) fn') as [g|] eqn:E; [|done].
      exists (g :: geoms). by constructor. }
  unfold find_read_geometry.
  unfold mbind at 1, M_bind at 1.
  by rewrite (find_read_geometry_loop_fails W pre post fn st geoms e ∅ None Hgeoms He).
Qed.

(** Without run folders the function has no value to return. *)
Lemma find_read_geometry_nil (W : World) (st : state) :
  find_read_geometry W [] st = (st, Err (UnboundLocalError "read_geometry")).
Proof. reflexivity. Qed.

Lemma find_read_geometry_result_witness :
  find_read_geometry world5 [run1; run2] (initial_state files5)
  = (initial_state files5,
     Err (ValueError "Read geometry mismatch between runfolders. Check Stats.json!")).
Proof.
  refine (proj2 (find_read_geometry_result world5 [run1; run2] (initial_state files5)
                   [[75; 75]; [150]] [150] _ _) _).
  - repeat (constructor; [reflexivity|]). constructor.
  - reflexivity.
  - exists [75; 75]. split.
    + apply list_elem_of_here.
    + vm_compute. discriminate.
Defined.

Example find_read_geometry_world2 :
  find_read_geometry world2 [run1; run2] (initial_state files2)
  = (initial_state files2, Ok [75; 75]).
Proof. reflexivity. Qed.

Lemma find_read_geometry_unreadable_witness :
  find_read_geometry world5 [run1; run2; run3; run4] (initial_state files5)
  = (initial_state files5, Err (OSError (run3 +:+ "/Stats/Stats.json"))).
Proof.
  apply (find_read_geometry_unreadable world5 [run1; run2] [run4] run3
           (initial_state files5)).
  - repeat (constructor; [exact I|]). constructor.
  - reflexivity.
Defined.

Lemma split_second (sep : ascii) (s : string) :
  is_Some (split sep s !! 1%nat) ↔ sep ∈ list_ascii_of_string s.
Proof.
  induction s as [|c s IH].
  - simpl. rewrite elem_of_nil. split; [intros [? H]; discriminate H|intros []].
  - cbn [split list_ascii_of_string]. rewrite elem_of_cons.
    assert (is_Some (split sep s !! 0%nat)) as H0.
    { clear. destruct s as [|c' s]; simpl; [by eexists|].
      destruct (decide (c' = sep)); [by eexists|].
      destruct (split sep s); by eexists. }
    destruct (decide (c = sep)) as [->|Hne].
    + simpl. split; [by left|done].
    + destruct (split sep s) as [|w ws] eqn:E.
      * by destruct H0 as [? [=]].
      * simpl in *. rewrite IH. split; [by right|]. by intros [?|?].
Qed.

Lemma machine_of_is_Some (pth : string) : is_Some (machine_of pth) ↔ has_underscore pth.
Proof.
  unfold machine_of, has_underscore. rewrite <- split_second.
  destruct (split "_" (basename pth) !! 1%nat); simpl; split; intros [? ?]; eauto; done.
Qed.

Lemma machine_loop (runfolders : list string) (acc : gset string) :
  for_each_r runfolders acc (λ matches pth,
    machine_code ← match split "_" (basename pth) !! 1%nat with
                   | Some code => Ok code
                   | None => Err IndexError
                   end;
    let machine := default EmptyString (dict_get machine_code SEQUENCERS) in
    Ok (matches ∪ {[machine]}))
  = match mapM machine_of runfolders with
    | Some names => Ok (acc ∪ list_to_set names)
    | None => Err IndexError
    end.
Proof.
  revert acc. induction runfolders as [|pth runfolders IH]; intros acc.
  - simpl. by rewrite (right_id_L ∅ (∪)).
  - rewrite for_each_r_cons. cbn [mapM].
    destruct (split "_" (basename pth) !! 1%nat) as [code|] eqn:E.
    + assert (machine_of pth = Some (default EmptyString (dict_get code SEQUENCERS)))
        as -> by (unfold machine_of; by rewrite E).
      change (Ok code ≫= ?k) with (k code). cbv beta zeta.
      change (Ok ?a ≫= ?k) with (k a). cbv beta.
      rewrite IH. cbn [mbind option_bind].
      destruct (mapM machine_of runfolders) as [names|]; [|done].
      cbn [mbind option_bind mret option_ret]. rewrite list_to_set_cons.
      by rewrite (assoc_L (∪)).
    + assert (machine_of pth = None) as -> by (unfold machine_of; by rewrite E).
      reflexivity.
Qed.

Lemma machine_matches_mapM (runfolders : list string) :
  machine_matches runfolders
  = match mapM machine_of runfolders with
    | Some names => Ok (list_to_set names)
    | None => Err IndexError
    end.
Proof.
  unfold machine_matches. rewrite machine_loop.
  destruct (mapM machine_of runfolders); [|done]. by rewrite (left_id_L ∅ (∪)).
Qed.

(** X15: the sequencer lookup fails exactly when the base name of some run
    folder has no underscore, and then with [IndexError] and nothing
    logged; when every base name has one it returns a name. *)
Theorem find_machine_fails_iff (runfolders : list string) (st : state) :
  (Exists (λ pth, ¬ has_underscore pth) runfolders
   ∧ find_machine runfolders st = (st, Err IndexError))
  ∨ (Forall has_underscore runfolders
     ∧ is_Ok (find_machine runfolders st).2).
Proof.
  unfold find_machine. rewrite machine_matches_mapM.
  destruct (mapM machine_of runfolders) as [names|] eqn:E.
  - right. split.
    + apply mapM_Some in E. apply Forall_forall. intros pth Hin.
      apply machine_of_is_Some.
      apply list_elem_of_lookup in Hin as [i Hi].
      destruct (Forall2_lookup_l _ _ _ _ _ E Hi) as (n & _ & ->). by eexists.
    + unfold mbind, M_bind, lift, warning, mret, M_ret.
      by destruct (decide (1 < size (list_to_set names : gset string))%nat).
  - left. split; [|done].
    assert (∀ pth, Decision (has_underscore pth)) as Hdec
      by (intros pth; unfold has_underscore; apply _).
    apply (not_Forall_Exists has_underscore). intros Hall. apply mapM_None in E. revert E. apply Forall_Exists_neg.
    eapply Forall_impl; [exact Hall|]. intros pth H.
    apply machine_of_is_Some in H as [n ->]. by intros [=].
Qed.

Lemma find_machine_run (runfolders names : list string) (st : state) :
  mapM machine_of runfolders = Some names →
  find_machine runfolders st
  = (if decide (1 < size (list_to_set names : gset string))%nat
     then add_log [WarnMultipleMachines] st else st,
     Ok (join "|" (elements (list_to_set names : gset string)))).
Proof.
  intros E. unfold find_machine. rewrite machine_matches_mapM, E.
  unfold mbind, M_bind, lift, warning, mret, M_ret, add_log.
  by destruct (decide (1 < size (list_to_set names : gset string))%nat).
Qed.

(** X16: when every run folder has a model name, the lookup logs its
    warning exactly when two run folders have different names, and logs it
    once; run folders that all have the same name give that name with
    nothing logged, also when the name is the empty one of machines that
    the table does not list. *)
Theorem find_machine_warning (runfolders names : list string) (name : string)
    (st : state) :
  mapM machine_of runfolders = Some names →
  name ∈ names →
  ((∀ n, n ∈ names → n = name) → find_machine runfolders st = (st, Ok name))
  ∧ ((∃ n, n ∈ names ∧ n ≠ name) →
     ∃ machine, find_machine runfolders st
                = (add_log [WarnMultipleMachines] st, Ok machine)).
Proof.
  intros E Hin. rewrite (find_machine_run runfolders names st E).
  destruct (decide (1 < size (list_to_set names : gset string))%nat) as [Hs|Hs].
  - split; [|by eauto]. intros Hall. exfalso. revert Hs.
    apply size_le_1_iff. intros x y. rewrite !elem_of_list_to_set.
    intros Hx Hy. by rewrite (Hall x Hx), (Hall y Hy).
  - split.
    + intros Hall.
      assert ((list_to_set names : gset string) = {[name]}) as ->.
      { apply set_eq. intros x. rewrite elem_of_list_to_set, elem_of_singleton.
        split; [by apply Hall|by intros ->]. }
      by rewrite elements_singleton.
    + intros (n & Hn & Hne). exfalso. apply Hne.
      apply (proj1 (size_le_1_iff _) Hs); by rewrite elem_of_list_to_set.
Qed.

Lemma find_machine_warning_witness :
  ∃ machine, find_machine [run1; run2] (initial_state files2)
             = (add_log [WarnMultipleMachines] (initial_state files2), Ok machine).
Proof.
  refine (proj2 (find_machine_warning [run1; run2] ["NextSeq 500"; EmptyString]
                   "NextSeq 500" (initial_state files2) _ _) _).
  - reflexivity.
  - apply list_elem_of_here.
  - exists EmptyString. split; [|discriminate].
    apply list_elem_of_further, list_elem_of_here.
Defined.

(** Two machines that the table does not list count as one name. *)
Example find_machine_two_unknown :
  find_machine ["/seq/200102_X99999_0002_BXX"; "/seq/200105_Y11111_0005_EXX"]
    (initial_state [])
  = (initial_state [], Ok EmptyString).
Proof. vm_compute. reflexivity. Qed.

(** ** The output document *)

Lemma find_machine_no_code (runfolders : list string) (st : state) :
  Exists (λ pth, ¬ has_underscore pth) runfolders →
  find_machine runfolders st = (st, Err IndexError).
Proof.
  intros Hbad. unfold find_machine. rewrite machine_matches_mapM.
  assert (mapM machine_of runfolders = None) as ->; [|done].
  apply mapM_None. eapply Exists_impl; [exact Hbad|].
  intros pth Hno. destruct (machine_of pth) eqn:E; [|done].
  exfalso. apply Hno, machine_of_is_Some. by eexists.
Qed.

(** X17: a non-empty [--machine] replaces the lookup altogether: on run
    folders whose names have no machine code the document is built, with
    the given name and nothing logged, where without the option (or with
    an empty one) the run fails with [IndexError]. *)
Theorem create_default_config_machine_override (W : World) sample_dict opts args
    project_id fastq_dir (st : state) (rg : list Z) :
  find_read_geometry W (args_runfolders args) st = (st, Ok rg) →
  Exists (λ pth, ¬ has_underscore pth) (args_runfolders args) →
  match args_machine args with
  | Some (String c m) =>
      ∃ config,
        create_default_config W sample_dict opts args project_id fastq_dir st
        = (st, Ok config)
        ∧ dict_get "machine" config = Some (VStr (String c m))
  | _ =>
      create_default_config W sample_dict opts args project_id fastq_dir st
      = (st, Err IndexError)
  end.
Proof.
  intros Hrg Hbad.
  pose proof (find_machine_no_code (args_runfolders args) st Hbad) as Hm.
  unfold create_default_config.
  rewrite (bind_run _ _ _ _ _ Hrg).
  destruct (args_machine args) as [[|c m]|]; cbn [truthy].
  - unfold mbind at 1, M_bind at 1. by rewrite Hm.
  - eexists. split; [reflexivity|]. cbn [default from_option id]. apply config_of_machine.
  - unfold mbind at 1, M_bind at 1. by rewrite Hm.
Qed.

Lemma create_default_config_machine_override_witness :
  ∃ config,
    create_default_config world5 [] [] args6 (Some "GCF-2020-001") None
      (initial_state files6)
    = (initial_state files6, Ok config)
    ∧ dict_get "machine" config = Some (VStr "NovaSeq 6000").
Proof.
  apply (create_default_config_machine_override world5 [] [] args6
           (Some "GCF-2020-001") None (initial_state files6) [75; 75]).
  - reflexivity.
  - apply Exists_cons_hd. apply (bool_decide_unpack _). vm_compute. exact I.
Defined.

(** X18: the keys of the document come in a fixed order: [project_id],
    [organism], [libprepkit], [read_geometry], [machine], [fastq_dir],
    [samples]; the three of them that are always written are
    [read_geometry], [machine] and [samples], and a key that both the
    sample sheet and the command line set is written once, at its place. *)
Theorem create_default_config_keys (W : World) sample_dict opts args
    project_id fastq_dir (st st' : state) (config : list (string * value)) :
  create_default_config W sample_dict opts args project_id fastq_dir st = (st', Ok config) →
  dict_keys config = config_keys opts args project_id fastq_dir.
Proof.
  intros H. apply create_default_config_Ok in H as (rg & machine & st1 & _ & _ & ->).
  unfold config_of, config_keys.
  destruct (truthy project_id), (dict_get "Organism" opts), (args_organism args),
    (dict_get "Libprep" opts), (args_libkit args), (truthy fastq_dir);
    reflexivity.
Qed.

Lemma create_default_config_keys_witness :
  dict_keys (config_of [] [("Organism", VStr "human")] args1 (Some "GCF-2020-001")
               None [75; 75] "NextSeq 500")
  = ["project_id"; "organism"; "read_geometry"; "machine"; "samples"].
Proof.
  apply (create_default_config_keys world1 [] [("Organism", VStr "human")] args1
           (Some "GCF-2020-001") None (initial_state files1) (initial_state files1)).
  vm_compute. reflexivity.
Defined.

(** ** The submission form *)

Lemma add_log_nil (st : state) : add_log [] st = st.
Proof. destruct st. unfold add_log. simpl. by rewrite app_nil_r. Qed.

Lemma add_log_eq (ws : list log_entry) (st : state) : add_log ws st = st → ws = [].
Proof.
  intros H. apply (f_equal log) in H. simpl in H.
  apply (f_equal length) in H. rewrite length_app in H.
  destruct ws; [done|]. simpl in H. lia.
Qed.

Lemma audit_warnings_nil (samples : list string) (ids : list cell) :
  audit_warnings samples ids = []
  ↔ ∀ sid, sid ∈ samples ↔ sid ∈ cell_str <$> ids.
Proof.
  unfold audit_warnings, sheet_only, form_only. split.
  - intros H. apply app_eq_nil in H as [H1 H2].
    destruct (decide (list_to_set samples ∖ list_to_set (cell_str <$> ids)
                      ≠ (∅ : gset string))) as [|E1%dec_stable]; [done|].
    destruct (decide (list_to_set (cell_str <$> ids) ∖ list_to_set samples
                      ≠ (∅ : gset string))) as [|E2%dec_stable]; [done|].
    intros sid. split; intros Hin.
    + destruct (decide (sid ∈ cell_str <$> ids)) as [|Hno]; [done|].
      exfalso. apply (not_elem_of_empty (C:=gset string) sid). rewrite <- E1.
      apply elem_of_difference. by rewrite !elem_of_list_to_set.
    + destruct (decide (sid ∈ samples)) as [|Hno]; [done|].
      exfalso. apply (not_elem_of_empty (C:=gset string) sid). rewrite <- E2.
      apply elem_of_difference. by rewrite !elem_of_list_to_set.
  - intros Hiff.
    rewrite !decide_False; [done| |].
    + intros Hne. apply Hne. apply set_eq. intros sid.
      rewrite elem_of_difference, !elem_of_list_to_set, Hiff.
      split; [tauto|]. intros []%not_elem_of_empty.
    + intros Hne. apply Hne. apply set_eq. intros sid.
      rewrite elem_of_difference, !elem_of_list_to_set, Hiff.
      split; [tauto|]. intros []%not_elem_of_empty.
Qed.

(** X19: the audit is silent exactly when the sample dictionary and the
    sheet name the same samples, whatever their order and however often
    the sheet names one; it never fails on a sheet that has the column
    [Sample_ID]. *)
Theorem check_existence_of_samples_silent_iff (samples : list string) (df : DataFrame)
    (ids : list cell) (st : state) :
  df_column "Sample_ID" df = Ok ids →
  (check_existence_of_samples samples df st).2 = Ok tt
  ∧ ((check_existence_of_samples samples df st).1 = st
     ↔ ∀ sid, sid ∈ samples ↔ sid ∈ cell_str <$> ids).
Proof.
  intros Hids. rewrite (check_existence_run samples df ids st Hids).
  split; [done|]. cbn [fst]. rewrite <- audit_warnings_nil. split.
  - apply add_log_eq.
  - intros ->. apply add_log_nil.
Qed.

Lemma check_existence_of_samples_silent_iff_witness :
  (check_existence_of_samples ["B"; "A"] (mkDF ["Sample_ID"] [[CStr "A"]; [CStr "B"]; [CStr "A"]])
     (initial_state [])).1 = initial_state [].
Proof.
  apply (proj2 (check_existence_of_samples_silent_iff ["B"; "A"]
                  (mkDF ["Sample_ID"] [[CStr "A"]; [CStr "B"]; [CStr "A"]])
                  [CStr "A"; CStr "B"; CStr "A"] (initial_state []) eq_refl)).
  intros sid. cbn [fmap list_fmap cell_str].
  rewrite !elem_of_cons, !elem_of_nil. tauto.
Defined.

(** A sheet without the column makes the audit fail before it logs. *)
Lemma check_existence_of_samples_no_column (samples : list string) (df : DataFrame)
    (st : state) :
  "Sample_ID" ∉ columns df →
  check_existence_of_samples samples df st = (st, Err (KeyError "Sample_ID")).
Proof.
  intros Hno. unfold check_existence_of_samples, df_column.
  by rewrite (proj2 (index_of_None _ _) Hno).
Qed.

Lemma merged_form_Err (customer lab : DataFrame) (e : error) :
  merged_form customer lab = Err e → e = KeyError "Sample_ID".
Proof.
  unfold merged_form, pd_merge_inner, df_astype_str.
  destruct (negb (df_empty lab)).
  - destruct (index_of "Sample_ID" (columns customer)),
             (index_of "Sample_ID" (columns lab));
      try (by intros [= <-]).
    change (Ok ?a ≫= ?k) with (k a). cbv beta.
    match goal with
    | |- match index_of _ ?c with _ => _ end = _ → _ => destruct (index_of "Sample_ID" c)
    end; [done|by intros [= <-]].
  - change (Ok ?a ≫= ?k) with (k a). cbv beta.
    destruct (index_of "Sample_ID" (columns customer)); [done|by intros [= <-]].
Qed.

(** X20: with an empty sample dictionary (no sample of the project in the
    sample sheet) the merger with a readable submission form fails with
    [KeyError] on [Sample_ID]: the frame of an empty dictionary has no
    columns to join on. *)
Theorem merge_samples_empty_dict (W : World) (ssub book : string)
    (customer lab : DataFrame) (cids : list cell) (st : state) :
  files st !! ssub = Some book →
  customer_sheet W book = Ok customer →
  df_column "Sample_ID" customer = Ok cids →
  lab_sheet W book = Ok lab →
  (merge_samples_with_submission_form W ssub [] st).2 = Err (KeyError "Sample_ID").
Proof.
  intros Hbook Hcust Hcids Hlab.
  rewrite (merge_samples_run W ssub book customer cids [] st Hbook Hcust Hcids).
  cbn [snd]. unfold join_with_form. rewrite Hlab.
  change (Ok lab ≫= ?k) with (k lab). cbv beta.
  destruct (merged_form customer lab) as [merge|e] eqn:E.
  - reflexivity.
  - by rewrite (merged_form_Err _ _ _ E).
Qed.

Lemma merge_samples_empty_dict_witness :
  (merge_samples_with_submission_form world4 "form1.xlsx" [] (initial_state files4)).2
  = Err (KeyError "Sample_ID").
Proof.
  eapply (merge_samples_empty_dict world4 "form1.xlsx" "form B C").
  - reflexivity.
  - vm_compute. reflexivity.
  - vm_compute. reflexivity.
  - vm_compute. reflexivity.
Defined.

Lemma filter_elem_of_perm (lids rids : list cell) :
  NoDup lids →
  filter (λ m, m ∈ lids) rids ≡ₚ lids ≫= λ c, filter (λ m, m = c) rids.
Proof.
  induction 1 as [|c lids Hc _ IH].
  - simpl. induction rids as [|m rids IHr]; [done|].
    rewrite filter_cons_False; [done|]. apply not_elem_of_nil.
  - rewrite bind_cons, <- IH. clear IH.
    induction rids as [|m rids IHr]; [done|].
    rewrite !(filter_cons _ m).
    destruct (decide (m = c)) as [->|Hne].
    + rewrite decide_True by left. rewrite (decide_False (P:=c ∈ lids)) by done.
      simpl. by rewrite IHr.
    + destruct (decide (m ∈ lids)) as [Hin|Hno].
      * rewrite decide_True by by right. rewrite IHr. apply Permutation_middle.
      * rewrite decide_False; [done|]. rewrite elem_of_cons. tauto.
Qed.

Lemma dict_get_Some_keys {V} (k : string) (v : V) (d : list (string * V)) :
  dict_get k d = Some v → k ∈ dict_keys d.
Proof.
  unfold dict_keys. induction d as [|[k' v'] d IH]; simpl; [done|].
  destruct (decide (k' = k)) as [->|]; [left|right; auto].
Qed.

Lemma df_from_dict_key_column (sample_dict : list (string * list (string * cell))) :
  wf_sample_dict sample_dict → sample_dict ≠ [] →
  df_column "Sample_ID" (df_from_dict sample_dict) = Ok (CStr <$> dict_keys sample_dict).
Proof.
  intros Hwf Hne.
  destruct (df_column "Sample_ID" (df_from_dict sample_dict)) as [ids|e] eqn:E.
  - apply df_from_dict_column in E as ->. by rewrite wf_sample_dict_column.
  - exfalso. unfold df_column in E.
    destruct (index_of "Sample_ID" (columns (df_from_dict sample_dict))) eqn:Hi; [done|].
    apply index_of_None in Hi. apply Hi. simpl.
    apply elem_of_drop_duplicates.
    destruct sample_dict as [|[k rec] sd]; [done|].
    rewrite bind_cons, elem_of_app. left. simpl.
    apply (dict_get_Some_keys _ (CStr k)). apply (Hwf k rec). left.
Qed.

Lemma pd_merge_inner_key_column (key : string) (left right : DataFrame)
    (lids rids : list cell) :
  (∀ c, c +:+ "_x" ≠ key) →
  df_column key left = Ok lids →
  df_column key right = Ok rids →
  ∃ joined, pd_merge_inner key left right = Ok joined
            ∧ df_column key joined = Ok (lids ≫= λ c, filter (λ m, m = c) rids).
Proof.
  intros Hkey (i & Hi & ->)%df_column_Ok (j & Hj & ->)%df_column_Ok.
  unfold pd_merge_inner. rewrite Hi, Hj. eexists. split; [reflexivity|].
  apply df_column_Ok. exists i. split.
  - simpl. apply index_of_suffixed; [| |done].
    + intros c Hc. case_bool_decide; [apply Hkey|done].
    + rewrite bool_decide_false; [done|]. by intros [? _].
  - simpl. induction (rows left) as [|l ls IH]; [done|].
    rewrite fmap_cons, !bind_cons, fmap_app, <- IH. f_equal. clear IH.
    induction (rows right) as [|r rs IHr]; [done|].
    rewrite fmap_cons, (filter_cons _ r rs), (filter_cons _ (row_get j r)).
    destruct (decide (row_get j r = row_get i l)) as [Heq|Hne]; [|apply IHr].
    rewrite !fmap_cons, <- IHr. f_equal.
    rewrite row_get_app_l by (rewrite length_fit; by eapply index_of_lt).
    by rewrite row_get_fit by by eapply index_of_lt.
Qed.

(** X21: the merger succeeds exactly when the submission form names no
    sample of the dictionary twice; a sample that it names twice makes the
    merger fail with the error of [to_dict] about an index that is not
    unique. *)
Theorem merge_samples_duplicate_ids (W : World) (ssub book : string)
    (customer lab merge : DataFrame) (cids mids : list cell)
    (sample_dict : list (string * list (string * cell))) (st : state) :
  files st !! ssub = Some book →
  customer_sheet W book = Ok customer →
  df_column "Sample_ID" customer = Ok cids →
  lab_sheet W book = Ok lab →
  merged_form customer lab = Ok merge →
  df_column "Sample_ID" merge = Ok mids →
  wf_sample_dict sample_dict →
  NoDup (dict_keys sample_dict) →
  sample_dict ≠ [] →
  (NoDup (ids_of_dict sample_dict mids)
   ∧ is_Ok (merge_samples_with_submission_form W ssub sample_dict st).2)
  ∨ (¬ NoDup (ids_of_dict sample_dict mids)
     ∧ (merge_samples_with_submission_form W ssub sample_dict st).2
       = Err (ValueError "DataFrame index must be unique for orient='index'.")).
Proof.
  intros Hbook Hcust Hcids Hlab Hmerge Hmids Hwf Hnodup Hne.
  rewrite (merge_samples_run W ssub book customer cids sample_dict st Hbook Hcust Hcids).
  cbn [snd]. unfold join_with_form. rewrite Hlab.
  change (Ok lab ≫= ?k) with (k lab). cbv beta. rewrite Hmerge.
  change (Ok merge ≫= ?k) with (k merge). cbv beta.
  destruct (pd_merge_inner_key_column "Sample_ID" (df_from_dict sample_dict) merge
              _ _ suffix_x_not_Sample_ID
              (df_from_dict_key_column sample_dict Hwf Hne) Hmids)
    as (joined & -> & Hindex).
  change (Ok joined ≫= ?k) with (k joined). cbv beta. rewrite Hindex.
  change (Ok ?a ≫= ?k) with (k a). cbv beta.
  unfold df_to_dict, ids_of_dict.
  assert (NoDup (CStr <$> dict_keys sample_dict)) as Hl
    by (apply (NoDup_fmap_2 _); done).
  pose proof (filter_elem_of_perm _ mids Hl) as Hperm.
  destruct (decide (NoDup ((CStr <$> dict_keys sample_dict)
                           ≫= λ c, filter (λ m, m = c) mids))) as [Hnd|Hnd].
  - left. split; [by rewrite Hperm|done].
  - right. split; [by rewrite Hperm|done].
Qed.

Lemma merge_samples_duplicate_ids_witness :
  (merge_samples_with_submission_form world7 "form3.xlsx" samples_A_B
     (initial_state files7)).2
  = Err (ValueError "DataFrame index must be unique for orient='index'.").
Proof.
  destruct (merge_samples_duplicate_ids world7 "form3.xlsx" "form B B"
              (mkDF ["Sample_ID"; "External_ID"; "Sample_Group"; "Customer_Comment";
                     "Sample_Biosource"; "Project_ID"]
                    [[CStr "B"; CNaN; CNaN; CNaN; CNaN; CNaN];
                     [CStr "B"; CNaN; CNaN; CNaN; CNaN; CNaN]])
              (mkDF ["Sample_ID"; "Concentration"; "Lab_Comment"] [])
              (mkDF ["Sample_ID"; "External_ID"; "Sample_Group"; "Customer_Comment";
                     "Sample_Biosource"; "Project_ID"]
                    [[CStr "B"; CNaN; CNaN; CNaN; CNaN; CNaN];
                     [CStr "B"; CNaN; CNaN; CNaN; CNaN; CNaN]])
              [CStr "B"; CStr "B"] [CStr "B"; CStr "B"]
              samples_A_B (initial_state files7))
    as [[_ H]|[_ H]].
  - reflexivity.
  - vm_compute. reflexivity.
  - reflexivity.
  - vm_compute. reflexivity.
  - vm_compute. reflexivity.
  - reflexivity.
  - intros k rec Hin. unfold samples_A_B in Hin.
    apply elem_of_cons in Hin as [[= -> ->]|Hin]; [reflexivity|].
    apply list_elem_of_singleton in Hin as [= -> ->]. reflexivity.
  - apply (bool_decide_unpack _). vm_compute. exact I.
  - discriminate.
  - vm_compute in H. destruct H.
  - exact H.
Defined.

(** ** What a run creates *)

Lemma keeps_ret {X A} (f : state → X) (a : A) : keeps f (mret a).
Proof. done. Qed.

Lemma keeps_raise {X A} (f : state → X) (e : error) : keeps f (@raise A e).
Proof. done. Qed.

Lemma keeps_lift {X A} (f : state → X) (r : result A) : keeps f (lift r).
Proof. done. Qed.

Lemma keeps_read_file {X} (f : state → X) (path : string) : keeps f (read_file path).
Proof. intros st. unfold read_file. by destruct (files st !! path). Qed.

Lemma keeps_path_exists {X} (f : state → X) (W : World) (path : string) :
  keeps f (path_exists W path).
Proof. done. Qed.

Lemma keeps_bind {X A B} (f : state → X) (m : M A) (k : A → M B) :
  keeps f m → (∀ a, keeps f (k a)) → keeps f (m ≫= k).
Proof.
  intros Hm Hk st. unfold mbind, M_bind. specialize (Hm st).
  destruct (m st) as [st1 [a|e]]; simpl in *; [|done].
  by rewrite (Hk a st1).
Qed.

Lemma keeps_for_each {X A B} (f : state → X) (l : list A) (b : B) (body : B → A → M B) :
  (∀ b x, keeps f (body b x)) → keeps f (for_each l b body).
Proof.
  intros Hbody. revert b. induction l as [|x l IH]; intros b; [done|].
  rewrite for_each_cons. apply keeps_bind; [apply Hbody|apply IH].
Qed.

Lemma keeps_tree_warning (w : log_entry) : keeps tree (warning w).
Proof. done. Qed.

Lemma keeps_tree_dump (W : World) config out : keeps tree (dump W config out).
Proof. intros st. unfold dump. by destruct out. Qed.

Ltac keeps :=
  repeat first
    [ apply keeps_ret
    | apply keeps_raise
    | apply keeps_lift
    | apply keeps_read_file
    | apply keeps_path_exists
    | apply keeps_tree_warning
    | apply keeps_tree_dump
    | apply keeps_bind; [|intros]
    | apply keeps_for_each; intros
    | match goal with
      | |- keeps _ (match ?x with _ => _ end) => destruct x
      | |- keeps _ ((match ?x with _ => _ end) _) => destruct x; cbv beta
      end ].

Lemma keeps_tree_find_machine (runfolders : list string) :
  keeps tree (find_machine runfolders).
Proof. unfold find_machine. keeps. Qed.

(** X22: without [--create-fastq-dir] a run creates no directory and no
    link, whether it succeeds or fails. *)
Theorem run_without_staging (W : World) (args : Namespace) (st : state) :
  args_create_fastq_dir args = false →
  made_dirs (run W args st).1 = made_dirs st
  ∧ links (run W args st).1 = links st.
Proof.
  intros Hflag.
  assert (keeps tree (run W args)) as H.
  { unfold run. rewrite Hflag.
    unfold get_project_samples_from_samplesheet, read_sheet,
      merge_samples_with_submission_form, check_existence_of_samples,
      create_default_config, find_read_geometry.
    keeps; apply keeps_tree_find_machine. }
  specialize (H st). unfold tree in H. by injection H.
Qed.

Lemma run_without_staging_witness :
  made_dirs (run world1 args1 (initial_state files1)).1 = []
  ∧ links (run world1 args1 (initial_state files1)).1 = [].
Proof. apply (run_without_staging world1 args1 (initial_state files1)). reflexivity. Defined.

(** ** What a successful run writes *)

Lemma keeps_written_warning (w : log_entry) : keeps written (warning w).
Proof. done. Qed.

Lemma keeps_written_makedirs (path : string) : keeps written (makedirs path).
Proof. intros st. unfold makedirs. by destruct (files st !! path). Qed.

Lemma keeps_written_symlink (W : World) (src dst : string) :
  keeps written (symlink W src dst).
Proof.
  unfold symlink. apply keeps_bind; [apply keeps_path_exists|]. by intros [].
Qed.

Lemma keeps_stdout_FileType_r (path : string) : keeps stdout (FileType_r path).
Proof.
  intros st. unfold FileType_r. destruct (decide _); [done|].
  by destruct (files st !! path).
Qed.

Lemma keeps_stdout_FileType_w (W : World) (path : string) :
  keeps stdout (FileType_w W path).
Proof.
  intros st. unfold FileType_w. destruct (decide _); [done|].
  by destruct (writable W path).
Qed.

Lemma keeps_opt_arg {X A} (f : state → X) (o : option string) (type : string → M A) :
  (∀ s, keeps f (type s)) → keeps f (opt_arg o type).
Proof.
  intros Htype. unfold opt_arg. destruct o; [|apply keeps_ret].
  apply keeps_bind; [apply Htype|intros; apply keeps_ret].
Qed.

Lemma keeps_run {X A} (f : state → X) (m : M A) (st st' : state) (r : result A) :
  keeps f m → m st = (st', r) → f st' = f st.
Proof. intros Hm H. specialize (Hm st). by rewrite H in Hm. Qed.

Ltac keeps_written :=
  repeat first
    [ apply keeps_ret
    | apply keeps_raise
    | apply keeps_lift
    | apply keeps_read_file
    | apply keeps_path_exists
    | apply keeps_written_warning
    | apply keeps_written_makedirs
    | apply keeps_written_symlink
    | apply keeps_bind; [|intros]
    | apply keeps_for_each; intros
    | match goal with
      | |- keeps _ (match ?x with _ => _ end) => destruct x
      | |- keeps _ ((match ?x with _ => _ end) _) => destruct x; cbv beta
      end ].

Lemma keeps_stdout_parse_args (W : World) (c : cli) : keeps stdout (parse_args W c).
Proof.
  unfold parse_args.
  repeat first
    [ apply keeps_ret
    | apply keeps_raise
    | apply keeps_lift
    | apply keeps_stdout_FileType_w
    | apply keeps_opt_arg; intros
    | apply keeps_stdout_FileType_r
    | apply keeps_bind; [|intros]
    | match goal with
      | |- keeps _ (match ?x with _ => _ end) => destruct x
      end ].
Qed.

(** X23: a run that succeeds leaves in the output file exactly the dump of
    the document that [create_default_config] has built, nothing of what
    the file held before, and changes no other file; with [-o -] the dump
    is appended to the standard output and no file is changed. *)
Theorem main_writes_the_document (W : World) (c : cli) (args : Namespace)
    (st st1 st2 : state) :
  parse_args W c st = (st1, Ok args) →
  run W args st1 = (st2, Ok tt) →
  ∃ sample_dict opts project_id fastq_dir sta stb config,
    create_default_config W sample_dict opts args project_id fastq_dir sta
    = (stb, Ok config)
    ∧ match args_output args with
      | OutFile name =>
          files st2 = <[name := yaml_dump W config]> (files st)
          ∧ stdout st2 = stdout st
      | OutStdout =>
          files st2 = files st
          ∧ stdout st2 = stdout st +:+ yaml_dump W config
      end.
Proof.
  intros Hparse Hrun.
  pose proof (parse_args_opens_output W c st st1 args Hparse) as Hopen.
  pose proof (keeps_run stdout _ _ _ _ (keeps_stdout_parse_args W c) Hparse) as Hout.
  unfold run in Hrun.
  apply bind_Ok in Hrun as ([project_dirs project_id] & s1 & H1 & Hrun).
  apply (keeps_run written) in H1; [|keeps_written].
  apply bind_Ok in Hrun as ([s_df opts] & s2 & H2 & Hrun).
  apply (keeps_run written) in H2;
    [|unfold get_project_samples_from_samplesheet, read_sheet; keeps_written].
  apply bind_Ok in Hrun as (sample_dict & s3 & H3 & Hrun).
  apply (keeps_run written) in H3; [|keeps_written].
  apply bind_Ok in Hrun as (ssub & s4 & H4 & Hrun).
  apply (keeps_run written) in H4; [|keeps_written].
  apply bind_Ok in Hrun as (sample_dict' & s5 & H5 & Hrun).
  apply (keeps_run written) in H5;
    [|unfold merge_samples_with_submission_form, check_existence_of_samples;
      keeps_written].
  apply bind_Ok in Hrun as (fastq_dir & s6 & H6 & Hrun).
  apply (keeps_run written) in H6;
    [|unfold create_fastq_dir, link_all; keeps_written].
  apply bind_Ok in Hrun as (config & s7 & H7 & Hrun).
  exists sample_dict', opts, project_id, fastq_dir, s6, s7, config.
  split; [exact H7|].
  apply (keeps_run written) in H7;
    [|unfold create_default_config, find_read_geometry, find_machine; keeps_written].
  assert (written s7 = written st1) as Hw by congruence.
  unfold written in Hw. injection Hw as Hfiles Hstdout.
  unfold dump in Hrun. unfold output_opened in Hopen.
  destruct (args_output args) as [name|]; injection Hrun as <-; cbn [files stdout].
  - rewrite Hfiles, Hopen, lookup_insert_eq, insert_insert_eq. cbn [default from_option id].
    split; [done|congruence].
  - split; congruence.
Qed.

Lemma main_writes_the_document_witness :
  ∃ sample_dict opts project_id fastq_dir sta stb config,
    create_default_config world1 sample_dict opts args_of_cli1 project_id fastq_dir sta
    = (stb, Ok config)
    ∧ files (run world1 args_of_cli1 parsed_state1).1
      = <["config.yaml" := yaml_dump world1 config]> (files (initial_state files1))
    ∧ stdout (run world1 args_of_cli1 parsed_state1).1 = stdout (initial_state files1).
Proof.
  apply (main_writes_the_document world1 cli1 args_of_cli1 (initial_state files1)
           parsed_state1 (run world1 args_of_cli1 parsed_state1).1).
  - vm_compute. reflexivity.
  - vm_compute. reflexivity.
Defined.

(** ** The submission form of a run on several run folders *)

Lemma bind_not_Ok {A B} (m : M A) (k : A → M B) (st : state) :
  (∀ a st', ¬ is_Ok (k a st').2) → ¬ is_Ok ((m ≫= k) st).2.
Proof.
  intros Hk. unfold mbind, M_bind. destruct (m st) as [st1 [a|e]]; [apply Hk|].
  simpl. tauto.
Qed.

(** X24: without [--sample-submission-form] a run on several run folders
    never succeeds.  The error that says so is raised only after the run
    folders have been inspected, the sample sheets read and the FASTQ files
    matched: when one of these stages fails, the run fails with the error
    of that stage, and only when all three succeed with the error about the
    missing option. *)
Theorem run_needs_submission_form (W : World) (args : Namespace) (st : state) :
  args_ssub args = None →
  length (args_runfolders args) ≠ 1%nat →
  ¬ is_Ok (run W args st).2
  ∧ (∀ e, inspect_dirs W (args_runfolders args) (args_project_id args) = Err e →
          run W args st = (st, Err e))
  ∧ (∀ project_dirs project_id,
       inspect_dirs W (args_runfolders args) (args_project_id args)
       = Ok (project_dirs, project_id) →
       (∀ st1 e,
          get_project_samples_from_samplesheet W (args_samplesheet args)
            (args_runfolders args) project_id st = (st1, Err e) →
          run W args st = (st1, Err e))
       ∧ (∀ s_df opts st1,
            get_project_samples_from_samplesheet W (args_samplesheet args)
              (args_runfolders args) project_id st = (st1, Ok (s_df, opts)) →
            (∀ e, find_samples W s_df project_dirs = Err e →
                  run W args st = (st1, Err e))
            ∧ (∀ sample_dict, find_samples W s_df project_dirs = Ok sample_dict →
                 run W args st
                 = (st1, Err (ValueError "`--sample-submission-form` option is required with multiple runfolders."))))).
Proof.
  intros Hssub Hlen.
  assert (∀ (k : string → M (option string)),
            match args_runfolders args with
            | [runfolder] => k runfolder
            | _ => raise (ValueError "`--sample-submission-form` option is required with multiple runfolders.")
            end
            = raise (ValueError "`--sample-submission-form` option is required with multiple runfolders."))
    as Hraise.
  { intros k. by destruct (args_runfolders args) as [|? [|? ?]]. }
  split; [|split].
  - unfold run. rewrite Hssub, Hraise.
    apply bind_not_Ok. intros [project_dirs project_id] s1.
    apply bind_not_Ok. intros [s_df opts] s2.
    apply bind_not_Ok. intros sample_dict s3.
    unfold mbind, M_bind, raise. simpl. tauto.
  - intros e H1. unfold run. by rewrite H1.
  - intros project_dirs project_id H1. split.
    + intros st1 e H2. unfold run. rewrite H1.
      rewrite (bind_run _ _ st st (project_dirs, project_id) eq_refl).
      unfold mbind at 1, M_bind at 1. by rewrite H2.
    + intros s_df opts st1 H2. split.
      * intros e H3. unfold run. rewrite H1.
        rewrite (bind_run _ _ st st (project_dirs, project_id) eq_refl).
        rewrite (bind_run _ _ _ _ _ H2), H3. reflexivity.
      * intros sample_dict H3. unfold run. rewrite Hssub, Hraise, H1.
        rewrite (bind_run _ _ st st (project_dirs, project_id) eq_refl).
        rewrite (bind_run _ _ _ _ _ H2), H3.
        rewrite (bind_run _ _ st1 st1 sample_dict eq_refl).
        reflexivity.
Qed.

(** The run on the two run folders of the third world fails in the first
    stage, with the error of that stage and not with the one about the
    option. *)
Lemma run_needs_submission_form_witness :
  run world3 args34 (initial_state files3)
  = (initial_state files3, Err (project_not_found run3)).
Proof.
  apply (run_needs_submission_form world3 args34 (initial_state files3)).
  - reflexivity.
  - simpl. lia.
  - vm_compute. reflexivity.
Defined.

(** On the second world every stage succeeds, and the run ends with the
    error about the option. *)
Example run_world2_needs_submission_form :
  (run world2 args2 (initial_state files2)).2
  = Err (ValueError "`--sample-submission-form` option is required with multiple runfolders.").
Proof. vm_compute. reflexivity. Qed.

Lemma bind_ext_keeps {X A B} (f : state → X) (m : M A) (k1 k2 : A → M B) (st : state) :
  keeps f m →
  (∀ a st', f st' = f st → k1 a st' = k2 a st') →
  (m ≫= k1) st = (m ≫= k2) st.
Proof.
  intros Hm Hk. unfold mbind, M_bind. specialize (Hm st).
  destruct (m st) as [st1 [a|e]]; [|done]. by apply Hk.
Qed.

Lemma path_exists_run (W : World) (path : string) (st st' : state) (b : bool) :
  paths st' = paths st →
  (path_exists W path st).2 = Ok b →
  path_exists W path st' = (st', Ok b).
Proof.
  unfold path_exists, paths. intros [= -> ->] H. cbn [snd] in H. by rewrite H.
Qed.

(** X25: on a single run folder and without [--sample-submission-form],
    a file [Sample-Submission-Form.xlsx] that exists in the run folder is
    used as if it had been given with the option. *)
Theorem run_finds_submission_form (W : World) (args : Namespace) (runfolder : string)
    (st : state) :
  args_ssub args = None →
  args_runfolders args = [runfolder] →
  (path_exists W (path_join runfolder ["Sample-Submission-Form.xlsx"]) st).2 = Ok true →
  run W args st
  = run W (with_ssub args (Some (path_join runfolder ["Sample-Submission-Form.xlsx"]))) st.
Proof.
  intros Hssub Hrf Hthere. unfold run, with_ssub, create_default_config.
  cbn [args_project_id args_runfolders args_samplesheet args_output args_ssub
       args_organism args_libkit args_machine args_create_fastq_dir].
  rewrite Hssub, Hrf.
  apply (bind_ext_keeps paths); [apply keeps_lift|].
  intros [project_dirs project_id] s1 Hs1.
  apply (bind_ext_keeps paths).
  { unfold get_project_samples_from_samplesheet, read_sheet.
    repeat first
      [ apply keeps_ret | apply keeps_raise | apply keeps_lift | apply keeps_read_file
      | apply keeps_bind; [|intros] | apply keeps_for_each; intros
      | match goal with
        | |- keeps _ (match ?x with _ => _ end) => destruct x
        | |- keeps _ ((match ?x with _ => _ end) _) => destruct x; cbv beta
        end ]. }
  intros [s_df opts] s2 Hs2.
  apply (bind_ext_keeps paths); [apply keeps_lift|].
  intros sample_dict s3 Hs3.
  assert (paths s3 = paths st) as Hp by congruence.
  assert ((there ← path_exists W (path_join runfolder ["Sample-Submission-Form.xlsx"]);
           mret (if (there : bool)
                 then Some (path_join runfolder ["Sample-Submission-Form.xlsx"])
                 else None)) s3
          = (s3, Ok (Some (path_join runfolder ["Sample-Submission-Form.xlsx"])))) as Hex.
  { unfold mbind, M_bind. by rewrite (path_exists_run W _ st s3 true Hp Hthere). }
  rewrite (bind_run _ _ _ _ _ Hex).
  by rewrite (bind_run _ _ s3 s3 (Some (path_join runfolder ["Sample-Submission-Form.xlsx"]))
                eq_refl).
Qed.

Lemma run_finds_submission_form_witness :
  run world8 args_of_cli1 (initial_state files8)
  = run world8 (with_ssub args_of_cli1 (Some (run1 +:+ "/Sample-Submission-Form.xlsx")))
      (initial_state files8).
Proof.
  apply (run_finds_submission_form world8 args_of_cli1 run1 (initial_state files8)).
  - reflexivity.
  - reflexivity.
  - vm_compute. reflexivity.
Defined.

(** The run on the eighth world: sample A is audited and dropped, B is
    merged with its row of the lab sheet. *)
Example run_world8 :
  let out := run world8 args_of_cli1 (initial_state files8) in
  out.2 = Ok tt ∧ log out.1 = [].
Proof. split; vm_compute; reflexivity. Qed.

(** ** The staging of the FASTQ files *)

Lemma M_bind_assoc {A B C} (m : M A) (k : A → M B) (h : B → M C) (st : state) :
  ((m ≫= k) ≫= h) st = (m ≫= λ a, k a ≫= h) st.
Proof. unfold mbind, M_bind. by destruct (m st) as [st1 [a|e]]. Qed.

Lemma M_bind_cong {A B} (m : M A) (k1 k2 : A → M B) (st : state) :
  (∀ a st', k1 a st' = k2 a st') → (m ≫= k1) st = (m ≫= k2) st.
Proof. intros Hk. unfold mbind, M_bind. by destruct (m st) as [st1 [a|e]]. Qed.

Lemma for_each_unit_app {A} (l1 l2 : list A) (body : unit → A → M unit) (st : state) :
  for_each (l1 ++ l2) tt body st
  = (_ ← for_each l1 tt body; for_each l2 tt body) st.
Proof.
  revert st. induction l1 as [|x l1 IH]; intros st; [done|].
  rewrite <- app_comm_cons, !for_each_cons, M_bind_assoc.
  apply M_bind_cong. intros [] st'. apply IH.
Qed.

Lemma for_each_unit_bind {A B} (l : list A) (f : A → list B)
    (body : unit → B → M unit) (st : state) :
  for_each l tt (λ _ x, for_each (f x) tt body) st
  = for_each (l ≫= f) tt body st.
Proof.
  revert st. induction l as [|x l IH]; intros st; [done|].
  rewrite bind_cons, for_each_unit_app, for_each_cons.
  apply M_bind_cong. intros [] st'. apply IH.
Qed.

Lemma link_all_make_links (W : World) (d : string) (srcs : list string)
    (f : string → string) (st : state) :
  link_all W d srcs (f <$> srcs) st
  = make_links W ((λ src, (src, path_join d [f src])) <$> srcs) st.
Proof.
  unfold link_all, make_links. rewrite zip_fmap_r_same.
  revert st. induction srcs as [|src srcs IH]; intros st; [done|].
  rewrite !fmap_cons, !for_each_cons.
  apply M_bind_cong. intros [] st'. apply IH.
Qed.

Lemma make_links_app (W : World) (l1 l2 : list (string * string)) (st : state) :
  make_links W (l1 ++ l2) st = (_ ← make_links W l1; make_links W l2) st.
Proof. apply for_each_unit_app. Qed.

Lemma M_bind_assoc_cong_l {A B} (m1 m2 : M A) (k : A → M B) (st : state) :
  (∀ st', m1 st' = m2 st') → (m1 ≫= k) st = (m2 ≫= k) st.
Proof. intros Hm. unfold mbind, M_bind. by rewrite Hm. Qed.

Lemma M_bind_cong2 {A B} (m1 m2 : M A) (k1 k2 : A → M B) (st : state) :
  (∀ st', m1 st' = m2 st') → (∀ a st', k1 a st' = k2 a st') →
  (m1 ≫= k1) st = (m2 ≫= k2) st.
Proof.
  intros Hm Hk. unfold mbind, M_bind. rewrite Hm.
  by destruct (m2 st) as [st1 [a|e]].
Qed.

Lemma for_each_unit_ext {A} (l : list A) (body1 body2 : unit → A → M unit) (st : state) :
  (∀ x st', body1 tt x st' = body2 tt x st') →
  for_each l tt body1 st = for_each l tt body2 st.
Proof.
  intros Hbody. revert st. induction l as [|x l IH]; intros st; [done|].
  rewrite !for_each_cons. unfold mbind, M_bind. rewrite Hbody.
  destruct (body2 tt x st) as [st1 [[]|e]]; [apply IH|done].
Qed.

(** The staging is one pass over [staged_links]. *)
Lemma create_fastq_dir_flat (W : World) (sample_ids project_dirs : list string)
    (st : state) :
  create_fastq_dir W sample_ids project_dirs st
  = (_ ← makedirs "data/raw/fastq";
     _ ← make_links W (staged_links W sample_ids project_dirs);
     mret "data/raw/fastq") st.
Proof.
  unfold create_fastq_dir. cbv zeta.
  apply M_bind_cong. intros _ st1.
  apply (M_bind_assoc_cong_l _ _ _ st1). clear st1. intros st1.
  unfold staged_links, make_links.
  rewrite <- for_each_unit_bind. apply for_each_unit_ext. intros sid st2.
  rewrite <- for_each_unit_bind. apply for_each_unit_ext. intros pid st3.
  unfold match_fastq, fastq_files, r1_pattern, r2_pattern.
  cbv beta iota zeta. rewrite fmap_app.
  change (for_each (?a ++ ?b) tt ?body st3) with (make_links W (a ++ b) st3).
  rewrite make_links_app.
  apply M_bind_cong2.
  - intros st4. apply link_all_make_links.
  - intros [] st4. apply link_all_make_links.
Qed.

Lemma bind_unfold {A B} (m : M A) (k : A → M B) (st : state) :
  (m ≫= k) st
  = match m st with
    | (st', Ok a) => k a st'
    | (st', Err e) => (st', Err e)
    end.
Proof. reflexivity. Qed.

Lemma makedirs_Ok (path : string) (st st' : state) :
  makedirs path st = (st', Ok tt) ↔
  files st !! path = None
  ∧ st' = mkState (files st) (log st) (stdout st) (made_dirs st ++ [path]) (links st).
Proof.
  unfold makedirs. destruct (files st !! path); split.
  - intros [=].
  - by intros [[=] _].
  - by intros [= <-].
  - by intros [_ ->].
Qed.

Lemma make_links_cons (W : World) (src dst : string) (l : list (string * string))
    (st : state) :
  make_links W ((src, dst) :: l) st
  = (_ ← (_ ← makedirs (dirname dst); symlink W src dst); make_links W l) st.
Proof.
  unfold make_links. rewrite for_each_cons. apply M_bind_cong. by intros [] st'.
Qed.

(** One link: its directory, then the link itself, unless there is
    something at its place. *)
Lemma link_step (W : World) (src dst : string) (st : state) :
  let out := (_ ← makedirs (dirname dst); symlink W src dst) st in
  files out.1 = files st
  ∧ match out.2 with
    | Ok _ => links out.1 = links st ++ [(src, dst)]
    | Err _ => links out.1 = links st
    end.
Proof.
  cbv zeta. unfold makedirs, symlink, path_exists, raise. unfold mbind, M_bind.
  destruct (files st !! dirname dst); [done|]. cbn [files links].
  destruct (bool_decide (is_Some (files st !! dst)) || isdir W dst
            || bool_decide (dst ∈ (links st).*2)); done.
Qed.

Lemma make_links_links (W : World) (l : list (string * string)) (st : state) :
  ∃ k, links (make_links W l st).1 = links st ++ take k l
       ∧ (is_Ok (make_links W l st).2 → k = length l).
Proof.
  revert st. induction l as [|[src dst] l IH]; intros st.
  - exists 0%nat. simpl. by rewrite app_nil_r.
  - rewrite make_links_cons.
    destruct (link_step W src dst st) as [_ Hstep].
    rewrite (bind_unfold (_ ← makedirs (dirname dst); symlink W src dst)).
    destruct ((_ ← makedirs (dirname dst); symlink W src dst) st) as [st1 [[]|e]];
      cbn [fst snd] in Hstep.
    + destruct (IH st1) as (k & Hk & Hlen). exists (S k). split.
      * rewrite Hk, Hstep, <- app_assoc. done.
      * intros Hok. simpl. f_equal. exact (Hlen Hok).
    + exists 0%nat. split; [by rewrite app_nil_r|]. intros [].
Qed.

Lemma create_fastq_dir_links_run (W : World) (sample_ids project_dirs : list string)
    (st : state) :
  (∃ k, links (create_fastq_dir W sample_ids project_dirs st).1
        = links st ++ take k (staged_links W sample_ids project_dirs))
  ∧ (is_Ok (create_fastq_dir W sample_ids project_dirs st).2 →
     (create_fastq_dir W sample_ids project_dirs st).2 = Ok "data/raw/fastq"
     ∧ links (create_fastq_dir W sample_ids project_dirs st).1
       = links st ++ staged_links W sample_ids project_dirs).
Proof.
  rewrite create_fastq_dir_flat, (bind_unfold (makedirs "data/raw/fastq")).
  destruct (makedirs "data/raw/fastq" st) as [st1 [[]|e]] eqn:Hmk.
  - apply makedirs_Ok in Hmk as [_ Hst1].
    assert (links st1 = links st) as <- by by rewrite Hst1.
    clear Hst1.
    destruct (make_links_links W (staged_links W sample_ids project_dirs) st1)
      as (k & Hk & Hlen).
    rewrite (bind_unfold (make_links W _)).
    destruct (make_links W (staged_links W sample_ids project_dirs) st1)
      as [st2 [[]|e]]; cbn [fst snd] in *.
    + split; [by exists k|]. intros _. split; [done|].
      cbn [fst mret M_ret]. rewrite Hk, (Hlen I). by rewrite firstn_all.
    + split; [by exists k|]. intros [].
  - assert (st1 = st) as ->.
    { unfold makedirs in Hmk. destruct (files st !! "data/raw/fastq"); by injection Hmk. }
    split; [|intros []]. exists 0%nat. simpl. by rewrite app_nil_r.
Qed.

(** X26: the staging creates the links of [staged_links], in that order:
    for every sample and every project directory, each matched FASTQ file
    is linked at [data/raw/fastq] joined with its path relative to the
    directory two levels above the project directory.  A staging that succeeds has created all of them and
    returns [data/raw/fastq]; one that fails has created the first ones. *)
Theorem create_fastq_dir_links (W : World) (sample_ids project_dirs : list string)
    (st : state) :
  (∃ k, links (create_fastq_dir W sample_ids project_dirs st).1
        = links st ++ take k (staged_links W sample_ids project_dirs))
  ∧ (is_Ok (create_fastq_dir W sample_ids project_dirs st).2 →
     (create_fastq_dir W sample_ids project_dirs st).2 = Ok "data/raw/fastq"
     ∧ links (create_fastq_dir W sample_ids project_dirs st).1
       = links st ++ staged_links W sample_ids project_dirs).
Proof. apply create_fastq_dir_links_run. Qed.

(** X27: the staging cannot be repeated: after a staging that has created
    links, a second one of the same samples in the same place fails at its
    first link, whose destination is there already. *)
Theorem create_fastq_dir_twice (W : World) (sample_ids project_dirs : list string)
    (st st' : state) (d src dst : string) (rest : list (string * string)) :
  create_fastq_dir W sample_ids project_dirs st = (st', Ok d) →
  staged_links W sample_ids project_dirs = (src, dst) :: rest →
  (create_fastq_dir W sample_ids project_dirs st').2 = Err (OSError dst).
Proof.
  intros Hrun Hstaged.
  pose proof (keeps_files_create_fastq_dir W sample_ids project_dirs st) as Hfiles.
  destruct (create_fastq_dir_links_run W sample_ids project_dirs st) as [_ Hlinks].
  rewrite Hrun in Hfiles, Hlinks. cbn [fst snd] in Hfiles, Hlinks.
  destruct (Hlinks I) as [_ Hl]. clear Hlinks.
  rewrite create_fastq_dir_flat in Hrun.
  apply bind_Ok in Hrun as ([] & s1 & Hmk & Hrun).
  apply makedirs_Ok in Hmk as [Hd Hs1].
  apply bind_Ok in Hrun as ([] & s2 & Hmake & _).
  rewrite Hstaged, make_links_cons in Hmake.
  apply bind_Ok in Hmake as ([] & s3 & Hstep & _).
  apply bind_Ok in Hstep as ([] & s4 & Hmk2 & _).
  apply makedirs_Ok in Hmk2 as [Hdd _].
  assert (files s1 = files st) as Hfs1 by by rewrite Hs1.
  rewrite Hfs1 in Hdd. clear Hs1 Hfs1 s1 s2 s3 s4.
  rewrite create_fastq_dir_flat, Hstaged, (bind_unfold (makedirs "data/raw/fastq")).
  unfold makedirs at 1. rewrite Hfiles, Hd.
  rewrite (bind_unfold (make_links W _)), make_links_cons.
  rewrite (bind_unfold (_ ← makedirs (dirname dst); symlink W src dst)).
  rewrite (bind_unfold (makedirs (dirname dst))).
  unfold makedirs at 1. cbn [files]. rewrite Hdd.
  unfold symlink. rewrite (bind_unfold (path_exists W dst)).
  unfold path_exists at 1. cbn [links].
  assert (bool_decide (dst ∈ (links st').*2) = true) as ->.
  { apply bool_decide_eq_true. rewrite Hl, Hstaged, fmap_app, fmap_cons.
    apply elem_of_app. right. left. }
  by rewrite orb_true_r.
Qed.

Lemma create_fastq_dir_twice_witness :
  (create_fastq_dir world1 ["A"; "B"] [run1 +:+ "/GCF-2020-001"]
     (create_fastq_dir world1 ["A"; "B"] [run1 +:+ "/GCF-2020-001"]
        (initial_state files1)).1).2
  = Err (OSError "data/raw/fastq/200101_NB501038_0001_AXX/GCF-2020-001/A_S1_R1_001.fastq.gz").
Proof.
  eapply (create_fastq_dir_twice world1 ["A"; "B"] [run1 +:+ "/GCF-2020-001"]
            (initial_state files1) _ "data/raw/fastq"
            (run1 +:+ "/GCF-2020-001/A_S1_R1_001.fastq.gz")).
  - vm_compute. reflexivity.
  - vm_compute. reflexivity.
Defined.

(** The links of the staging on the first world. *)
Example create_fastq_dir_world1 :
  let out := create_fastq_dir world1 ["A"; "B"] [run1 +:+ "/GCF-2020-001"]
               (initial_state files1) in
  out.2 = Ok "data/raw/fastq"
  ∧ (links out.1).*2
    = ["data/raw/fastq/200101_NB501038_0001_AXX/GCF-2020-001/A_S1_R1_001.fastq.gz";
       "data/raw/fastq/200101_NB501038_0001_AXX/GCF-2020-001/B_S2_R1_001.fastq.gz";
       "data/raw/fastq/200101_NB501038_0001_AXX/GCF-2020-001/B_S2_R2_001.fastq.gz"].
Proof. split; vm_compute; reflexivity. Qed.

(** ** Missing cells of the merged samples *)

Lemma dict_of_list_Forall {V} (P : V → Prop) (l : list (string * V)) :
  Forall (λ kv, P kv.2) l → Forall (λ kv, P kv.2) (dict_of_list l).
Proof.
  unfold dict_of_list.
  assert (∀ d, Forall (λ kv, P kv.2) d → Forall (λ kv, P kv.2) l →
               Forall (λ kv, P kv.2) (foldl (λ d kv, dict_set kv.1 kv.2 d) d l)) as Hgen.
  { induction l as [|[k v] l IH]; intros d Hd Hl; [done|].
    apply Forall_cons in Hl as [Hv Hl]. simpl. apply IH; [|done].
    by apply dict_set_Forall. }
  apply Hgen. constructor.
Qed.

Lemma fill_cell_not_NaN (c : cell) : fill_cell c ≠ CNaN.
Proof. by destruct c. Qed.

Lemma Forall_zip_r {A B} (P : B → Prop) (l : list A) (k : list B) :
  Forall P k → Forall (λ ab, P ab.2) (zip l k).
Proof.
  intros Hk. apply Forall_forall. intros [a b] Hin.
  apply elem_of_zip_r in Hin. by apply (proj1 (Forall_forall _ _) Hk).
Qed.

(** X28: the records that the merger returns have no missing cell: what a
    sheet leaves open is the empty text in the result. *)
Theorem merge_samples_no_NaN (W : World) (ssub : string)
    (sample_dict s_dict : list (string * list (string * cell))) (st st' : state) :
  merge_samples_with_submission_form W ssub sample_dict st = (st', Ok s_dict) →
  Forall (λ kv, Forall (λ cc, cc.2 ≠ CNaN) kv.2) s_dict.
Proof.
  unfold merge_samples_with_submission_form. intros H.
  apply bind_Ok in H as (book & s1 & _ & H).
  apply bind_Ok in H as (customer & s2 & _ & H).
  apply bind_Ok in H as ([] & s3 & _ & H).
  apply bind_Ok in H as (book' & s4 & _ & H).
  apply bind_Ok in H as (lab & s5 & _ & H).
  apply bind_Ok in H as (merge & s6 & _ & H).
  apply bind_Ok in H as (sample_df & s7 & _ & H).
  apply bind_Ok in H as (index & s8 & _ & H).
  apply lift_Ok in H as [_ H]. unfold df_to_dict in H.
  destruct (decide (NoDup index)); [|done]. injection H as <-.
  apply (dict_of_list_Forall (λ rec, Forall (λ cc, cc.2 ≠ CNaN) rec)).
  apply (Forall_zip_r (λ rec, Forall (λ cc : string * cell, cc.2 ≠ CNaN) rec)).
  apply Forall_fmap, Forall_forall. intros r Hr. simpl.
  unfold row_dict. apply (dict_of_list_Forall (λ c, c ≠ CNaN)).
  apply (Forall_zip_r (λ c, c ≠ CNaN)).
  unfold df_fillna in Hr. simpl in Hr.
  apply list_elem_of_fmap in Hr as (r' & -> & _).
  apply Forall_fmap, Forall_forall. intros c _. apply fill_cell_not_NaN.
Qed.

Lemma merge_samples_no_NaN_witness :
  Forall (λ kv : string * list (string * cell),
            Forall (λ cc : string * cell, cc.2 ≠ CNaN) kv.2)
    (match (merge_samples_with_submission_form world4 "form2.xlsx" samples_A_B
              (initial_state files4)).2 with
     | Ok s_dict => s_dict
     | Err _ => []
     end).
Proof.
  apply (merge_samples_no_NaN world4 "form2.xlsx" samples_A_B _
           (initial_state files4)
           (merge_samples_with_submission_form world4 "form2.xlsx" samples_A_B
              (initial_state files4)).1).
  vm_compute. reflexivity.
Defined.

(** The record of sample B after the merger with the second form: the
    comment that the lab sheet leaves open is the empty text. *)
Example merge_samples_form2_B :
  (λ d, dict_get "Lab_Comment" <$> dict_get "B" d)
    <$> (merge_samples_with_submission_form world4 "form2.xlsx" samples_A_B
           (initial_state files4)).2
  = Ok (Some (Some (CStr EmptyString))).
Proof. vm_compute. reflexivity. Qed.

(** ** The parsed arguments *)

Lemma is_dir_loop (W : World) (l acc rfs : list string) :
  for_each_r l acc (λ acc v, d ← is_dir W v; Ok (acc ++ [d])) = Ok rfs →
  rfs = acc ++ l ∧ Forall (λ d, isdir W d = true) l.
Proof.
  revert acc. induction l as [|v l IH]; intros acc.
  - intros [= <-]. by rewrite app_nil_r.
  - rewrite for_each_r_cons. unfold is_dir.
    destruct (isdir W v) eqn:Hv; [|done].
    change (Ok v ≫= ?k) with (k v). cbv beta.
    change (Ok ?a ≫= ?k) with (k a). cbv beta.
    intros [-> Hl]%IH. rewrite <- app_assoc. split; [done|]. by constructor.
Qed.

(** X29: the arguments that the parser accepts are validated: there is at
    least one run folder, every run folder is a directory and is handed on
    as an absolute path, and a project id is handed on as the twelve
    characters of the form GCF-dddd-ddd that the given text starts with. *)
Theorem parse_args_validated (W : World) (c : cli) (st st' : state) (args : Namespace) :
  parse_args W c st = (st', Ok args) →
  cli_runfolders c ≠ []
  ∧ Forall (λ d, isdir W d = true) (cli_runfolders c)
  ∧ args_runfolders args = abspath W <$> cli_runfolders c
  ∧ match cli_project_id c with
    | None => args_project_id args = None
    | Some s =>
        ∃ g rest, args_project_id args = Some g ∧ s = g +:+ rest ∧ full_match gcf_patt g
    end.
Proof.
  unfold parse_args. intros H.
  apply bind_Ok in H as (project_id & s1 & H1 & H).
  apply bind_Ok in H as (? & s2 & H2 & H).
  apply bind_Ok in H as (runfolders & s3 & H3 & H).
  apply bind_Ok in H as (samplesheet & s4 & _ & H).
  apply bind_Ok in H as (output & s5 & _ & H).
  apply bind_Ok in H as (ssub & s6 & _ & H).
  injection H as _ <-. cbn [args_runfolders args_project_id].
  apply lift_Ok in H3 as [_ H3]. apply is_dir_loop in H3 as [-> Hdirs].
  split.
  { destruct (decide (cli_runfolders c = [])); [done|done]. }
  split; [done|]. split; [done|].
  unfold opt_arg in H1. destruct (cli_project_id c) as [s|].
  - apply bind_Ok in H1 as (g & s0 & H1 & [= _ <-]).
    apply bind_Ok in H1 as (r & s0' & Hr & [= _ <-]).
    apply lift_Ok in Hr as [_ Hr].
    apply is_valid_gcf_id_accepts in Hr as (g' & rest & -> & -> & Hg).
    by exists g', rest.
  - by injection H1 as _ <-.
Qed.

Lemma parse_args_validated_witness :
  cli_runfolders cli1 ≠ []
  ∧ Forall (λ d, isdir world1 d = true) (cli_runfolders cli1)
  ∧ args_runfolders args_of_cli1 = abspath world1 <$> cli_runfolders cli1
  ∧ args_project_id args_of_cli1 = None.
Proof.
  apply (parse_args_validated world1 cli1 (initial_state files1) parsed_state1
           args_of_cli1).
  vm_compute. reflexivity.
Defined.

(** ** What the inspection of the run folders returns *)

Lemma match_project_dir_Ok (W : World) (pth : string) (project_id : option string)
    (pdir id : string) :
  _match_project_dir W pth project_id = Ok (pdir, id) →
  pdir = path_join pth [id] ∧ isdir W pdir = true.
Proof.
  unfold _match_project_dir. destruct (listdir W pth) as [fns|]; [|done].
  change (Ok fns ≫= ?k) with (k fns). cbv beta.
  destruct (truthy project_id).
  - cbv zeta. destruct (list_find _ fns) as [[i fn]|] eqn:Hfind; [|done].
    apply list_find_Some in Hfind as (_ & [Hdir ->] & _).
    by intros [= <- <-].
  - rewrite scan_project_dirs_spec.
    destruct (matching_subdirs W pth fns) as [|fn [|fn' l]] eqn:E; [done| |done].
    change (Ok ?a ≫= ?k) with (k a). cbv beta iota.
    assert (fn ∈ matching_subdirs W pth fns) as Hfn by (rewrite E; left).
    apply list_elem_of_filter in Hfn as [Hfn _].
    apply andb_true_iff in Hfn as [Hdir _].
    destruct (path_join pth [fn]) eqn:Hp; [done|].
    by intros [= <- <-].
Qed.

Lemma inspect_dirs_loop_Ok (W : World) (runfolders : list string)
    (project_id : option string) (acc out : list string * gset string) :
  for_each_r runfolders acc (inspect_dir W project_id) = Ok out →
  ∃ ids, out.1 = acc.1 ++ zip_with (λ pth id, path_join pth [id]) runfolders ids
         ∧ out.2 = acc.2 ∪ list_to_set ids
         ∧ length ids = length runfolders
         ∧ Forall (λ d, isdir W d = true)
             (zip_with (λ pth id, path_join pth [id]) runfolders ids).
Proof.
  revert acc. induction runfolders as [|pth runfolders IH]; intros acc.
  - intros [= <-]. exists []. simpl.
    rewrite app_nil_r, (right_id_L ∅ (∪)). by repeat split.
  - rewrite for_each_r_cons. intros H.
    apply rbind_Ok in H as (acc' & Hstep & H).
    unfold inspect_dir in Hstep.
    apply rbind_Ok in Hstep as ([pdir id] & Hm & [= <-]).
    apply match_project_dir_Ok in Hm as [-> Hdir].
    apply IH in H as (ids & H1 & H2 & Hlen & Hdirs). cbn [fst snd] in H1, H2.
    exists (id :: ids). simpl. rewrite H1, H2, <- app_assoc.
    rewrite (assoc_L (∪)). repeat split; [by rewrite Hlen|]. by constructor.
Qed.

(** X30: when the inspection of one or more run folders succeeds, a project
    id is known, and the project directories are the directories of that
    name in the run folders, one for each run folder and in their order;
    each of them exists. *)
Theorem inspect_dirs_Ok (W : World) (runfolders : list string)
    (project_id project_id' : option string) (project_dirs : list string) :
  inspect_dirs W runfolders project_id = Ok (project_dirs, project_id') →
  runfolders ≠ [] →
  ∃ id, project_id' = Some id
        ∧ project_dirs = (λ pth, path_join pth [id]) <$> runfolders
        ∧ Forall (λ d, isdir W d = true) project_dirs.
Proof.
  unfold inspect_dirs. intros H Hne.
  apply rbind_Ok in H as ([dirs ids] & Hloop & H).
  apply inspect_dirs_loop_Ok in Hloop as (idl & Hdirs & Hids & Hlen & Hisdir).
  cbn [fst snd] in Hdirs, Hids. rewrite app_nil_l in Hdirs.
  rewrite (left_id_L ∅ (∪)) in Hids. subst dirs ids.
  destruct (decide (1 < size (list_to_set idl : gset string))%nat) as [|Hle]; [done|].
  destruct idl as [|id idl]; [by destruct runfolders|].
  assert (∀ x, x ∈ id :: idl → x = id) as Hall.
  { intros x Hx. apply (proj1 (size_le_1_iff _) Hle); rewrite elem_of_list_to_set;
      [done|left]. }
  assert ((list_to_set (id :: idl) : gset string) = {[id]}) as Hset.
  { apply set_eq. intros x. rewrite elem_of_list_to_set, elem_of_singleton.
    split; [apply Hall|intros ->; left]. }
  rewrite Hset, size_singleton in H. rewrite decide_True in H by done.
  rewrite elements_singleton in H. injection H as <- <-.
  exists id. split; [done|].
  assert (zip_with (λ pth id0, path_join pth [id0]) runfolders (id :: idl)
          = (λ pth, path_join pth [id]) <$> runfolders) as Hzip.
  { clear -Hall Hlen. revert Hall Hlen. generalize (id :: idl). intros l Hall.
    revert l Hall. induction runfolders as [|pth rf IH]; intros [|x l] Hall Hlen;
      try done.
    simpl. rewrite (Hall x) by left. f_equal. apply IH; [|by injection Hlen].
    intros y Hy. apply Hall. by right. }
  by rewrite <- Hzip.
Qed.

Lemma inspect_dirs_Ok_witness :
  ∃ id, Some "GCF-2020-001" = Some id
        ∧ [run1 +:+ "/GCF-2020-001"; run2 +:+ "/GCF-2020-001"]
          = (λ pth, path_join pth [id]) <$> [run1; run2]
        ∧ Forall (λ d, isdir world2 d = true)
            [run1 +:+ "/GCF-2020-001"; run2 +:+ "/GCF-2020-001"].
Proof.
  apply (inspect_dirs_Ok world2 [run1; run2] None).
  - vm_compute. reflexivity.
  - discriminate.
Defined.

(** * The input resolver, the merger and failed runs *)

(** ** The project directories of a run folder *)




(** A directory named by an id and one whose name goes on behind the same
    id are two project directories; a directory whose name goes on behind
    an id is the project directory when it is the only one, and its whole
    name is the project id. *)
Example inspect_dirs_trailing_characters :
  inspect_dirs world9 [run9] None = Err ambiguous_in_folder
  ∧ inspect_dirs world9 [run10] None
    = Ok ([run10 +:+ "/GCF-2020-0011"], Some "GCF-2020-0011").
Proof. split; vm_compute; reflexivity. Qed.

(** ** The merger returns *)

Lemma df_astype_str_Ok (name : string) (df : DataFrame) (ids : list cell) :
  df_column name df = Ok ids →
  ∃ df', df_astype_str name df = Ok df'
         ∧ df_column name df' = Ok ((λ c, CStr (cell_str c)) <$> ids).
Proof.
  intros Hids.
  destruct (df_astype_str name df) as [df'|e] eqn:E.
  - exists df'. split; [done|].
    apply df_astype_str_column in E as (ids' & Hids' & Hcol & _).
    by assert (ids' = ids) as -> by congruence.
  - exfalso. unfold df_astype_str in E. unfold df_column in Hids.
    by destruct (index_of name (columns df)).
Qed.

(** The frame [merge] of the merger and its column of ids. *)
Lemma merged_form_column (customer lab : DataFrame) (cids : list cell) :
  df_column "Sample_ID" customer = Ok cids →
  df_empty lab = true ∨ is_Ok (df_column "Sample_ID" lab) →
  ∃ merge, merged_form customer lab = Ok merge
           ∧ df_column "Sample_ID" merge = Ok (merged_ids cids lab).
Proof.
  intros Hcids Hlab. unfold merged_form, merged_ids.
  destruct (df_empty lab) eqn:Hempty; cbn [negb].
  - change (Ok customer ≫= ?k) with (k customer). cbv beta.
    by apply df_astype_str_Ok.
  - destruct Hlab as [|Hlab]; [done|].
    destruct (df_column "Sample_ID" lab) as [lids|] eqn:Hlids; [|done].
    destruct (pd_merge_inner_key_column "Sample_ID" customer lab cids lids
                suffix_x_not_Sample_ID Hcids Hlids) as (joined & -> & Hjoined).
    change (Ok joined ≫= ?k) with (k joined). cbv beta.
    by apply df_astype_str_Ok.
Qed.

Lemma elem_of_merged_ids (sid : string) (cids : list cell) (lab : DataFrame) :
  df_empty lab = true ∨ is_Ok (df_column "Sample_ID" lab) →
  CStr sid ∈ merged_ids cids lab ↔ in_merged_form sid cids lab.
Proof.
  intros Hlab. unfold merged_ids, in_merged_form. rewrite list_elem_of_fmap.
  destruct (df_empty lab) eqn:Hempty.
  - split.
    + intros (c & [= ->] & Hc). exists c. by repeat split.
    + intros (c & <- & Hc & _). by exists c.
  - destruct Hlab as [|Hlab]; [done|].
    destruct (df_column "Sample_ID" lab) as [lids|]; [|done].
    split.
    + intros (c & [= ->] & Hc). apply list_elem_of_bind in Hc as (c' & Hc & Hc').
      apply list_elem_of_filter in Hc as [-> Hc]. exists c'.
      repeat split; [done|]. intros _. by exists lids.
    + intros (c & <- & Hc & Hl). destruct (Hl eq_refl) as (lids' & [= <-] & Hcl).
      exists c. split; [done|]. apply list_elem_of_bind. exists c. split; [|done].
      by apply list_elem_of_filter.
Qed.

Lemma form_ids_merged (merge : DataFrame) (cids : list cell) (lab : DataFrame)
    (sid : string) :
  df_column "Sample_ID" merge = Ok (merged_ids cids lab) →
  sid ∈ form_ids merge ↔ CStr sid ∈ merged_ids cids lab.
Proof.
  intros Hcol. unfold form_ids. rewrite Hcol. unfold merged_ids.
  rewrite <- list_fmap_compose, !list_elem_of_fmap. split.
  - intros (c & -> & Hc). by exists c.
  - intros (c & [= ->] & Hc). by exists c.
Qed.

(** The merger returns when the workbook can be read, the sample dictionary
    is one of [find_samples] and is not empty, and the merged form names
    none of its samples twice; the mapping has the samples of both. *)
Lemma merge_samples_returns (W : World) (ssub book : string)
    (customer lab : DataFrame) (cids : list cell)
    (sample_dict : list (string * list (string * cell))) (st : state) :
  wf_sample_dict sample_dict →
  NoDup (dict_keys sample_dict) →
  sample_dict ≠ [] →
  files st !! ssub = Some book →
  customer_sheet W book = Ok customer →
  df_column "Sample_ID" customer = Ok cids →
  lab_sheet W book = Ok lab →
  df_empty lab = true ∨ is_Ok (df_column "Sample_ID" lab) →
  NoDup (ids_of_dict sample_dict (merged_ids cids lab)) →
  ∃ s_dict,
    merge_samples_with_submission_form W ssub sample_dict st
    = (add_log (audit_warnings (dict_keys sample_dict) cids) st, Ok s_dict)
    ∧ ∀ sid, sid ∈ dict_keys s_dict ↔
             sid ∈ dict_keys sample_dict ∧ in_merged_form sid cids lab.
Proof.
  intros Hwf Hnodup Hne Hbook Hcust Hcids Hlab Hcol Hform.
  rewrite (merge_samples_run W ssub book customer cids sample_dict st Hbook Hcust Hcids).
  destruct (merged_form_column customer lab cids Hcids Hcol) as (merge & Hmerge & Hmids).
  assert (∃ s_dict, join_with_form W book customer sample_dict = Ok s_dict)
    as [s_dict Hjoin].
  { unfold join_with_form. rewrite Hlab.
    change (Ok lab ≫= ?k) with (k lab). cbv beta. rewrite Hmerge.
    change (Ok merge ≫= ?k) with (k merge). cbv beta.
    destruct (pd_merge_inner_key_column "Sample_ID" (df_from_dict sample_dict) merge
                _ _ suffix_x_not_Sample_ID
                (df_from_dict_key_column sample_dict Hwf Hne) Hmids)
      as (joined & -> & Hindex).
    change (Ok joined ≫= ?k) with (k joined). cbv beta. rewrite Hindex.
    change (Ok ?a ≫= ?k) with (k a). cbv beta.
    unfold df_to_dict. rewrite decide_True; [by eexists|].
    assert (NoDup (CStr <$> dict_keys sample_dict)) as Hl
      by (apply (NoDup_fmap_2 _); done).
    by rewrite <- (filter_elem_of_perm _ (merged_ids cids lab) Hl). }
  exists s_dict. split; [by rewrite Hjoin|].
  apply join_with_form_keys in Hjoin as (lab' & merge' & Hlab' & Hmerge' & Hkeys).
  assert (lab' = lab) as -> by congruence.
  assert (merge' = merge) as -> by congruence.
  intros sid. rewrite Hkeys, (wf_sample_dict_column _ Hwf).
  rewrite (list_elem_of_fmap_inj CStr), (form_ids_merged merge cids lab sid Hmids).
  by rewrite (elem_of_merged_ids sid cids lab Hcol).
Qed.

Lemma audit_names_sheet_only (samples : list string) (ids : list cell)
    (names : list string) (sid : string) :
  WarnSheetOnly names ∈ audit_warnings samples ids → sid ∈ names →
  sid ∈ samples ∧ sid ∉ cell_str <$> ids.
Proof.
  intros ->%audit_warnings_sheet_only. by rewrite elem_of_elements, elem_of_sheet_only.
Qed.

Lemma audit_names_form_only (samples : list string) (ids : list cell)
    (names : list string) (sid : string) :
  WarnFormOnly names ∈ audit_warnings samples ids → sid ∈ names →
  sid ∈ cell_str <$> ids ∧ sid ∉ samples.
Proof.
  intros ->%audit_warnings_form_only. by rewrite elem_of_elements, elem_of_form_only.
Qed.




(** C10: the audit compares the sample dictionary with the customer sheet
    alone, before the lab sheet is read.  For a sample of the sample
    dictionary that the customer sheet lists and that a lab sheet which is
    not empty does not list, the merger returns a mapping (the dictionary
    being one of [find_samples], and the merged table naming none of its
    samples twice), the sample is not in that mapping, and no warning names
    the sample. *)
Theorem lab_sheet_drop_is_silent (W : World) (ssub book sid : string)
    (customer lab : DataFrame) (cids lids : list cell)
    (sample_dict : list (string * list (string * cell))) (st : state) :
  wf_sample_dict sample_dict →
  NoDup (dict_keys sample_dict) →
  files st !! ssub = Some book →
  customer_sheet W book = Ok customer →
  df_column "Sample_ID" customer = Ok cids →
  lab_sheet W book = Ok lab →
  df_empty lab = false →
  df_column "Sample_ID" lab = Ok lids →
  NoDup (ids_of_dict sample_dict (merged_ids cids lab)) →
  sid ∈ dict_keys sample_dict →
  sid ∈ cell_str <$> cids →
  sid ∉ cell_str <$> lids →
  dropped_without_warning sid cids sample_dict st
    (merge_samples_with_submission_form W ssub sample_dict st).
Proof.
  intros Hwf Hnodup Hbook Hcust Hcids Hlab Hempty Hlids Hform Hdict Hcustomer Hnolab.
  assert (sample_dict ≠ []) as Hne by (intros ->; by apply elem_of_nil in Hdict).
  assert (df_empty lab = true ∨ is_Ok (df_column "Sample_ID" lab)) as Hcol
    by (right; by rewrite Hlids).
  destruct (merge_samples_returns W ssub book customer lab cids sample_dict st
              Hwf Hnodup Hne Hbook Hcust Hcids Hlab Hcol Hform)
    as (s_dict & -> & Hkeys).
  unfold dropped_without_warning. cbn [fst snd].
  split; [done|]. split; [|split].
  - intros names Hw Hin.
    destruct (audit_names_sheet_only _ _ _ _ Hw Hin) as [_ Hno]. by apply Hno.
  - intros names Hw Hin.
    destruct (audit_names_form_only _ _ _ _ Hw Hin) as [_ Hno]. by apply Hno.
  - exists s_dict. split; [done|]. rewrite Hkeys.
    intros [_ (c & <- & _ & Hl)].
    destruct (Hl Hempty) as (lids' & Hlids' & Hc).
    assert (lids' = lids) as -> by congruence.
    apply Hnolab, list_elem_of_fmap. by exists c.
Qed.

Lemma lab_sheet_drop_is_silent_witness :
  dropped_without_warning "A" [CStr "A"; CStr "B"] samples_A_B (initial_state files4)
    (merge_samples_with_submission_form world4 "form2.xlsx" samples_A_B
       (initial_state files4)).
Proof.
  apply (lab_sheet_drop_is_silent world4 "form2.xlsx" "form A B, lab B" "A"
           (mkDF ["Sample_ID"; "External_ID"; "Sample_Group"; "Customer_Comment";
                  "Sample_Biosource"; "Project_ID"]
                 [[CStr "A"; CNaN; CNaN; CNaN; CNaN; CNaN];
                  [CStr "B"; CNaN; CNaN; CNaN; CNaN; CNaN]])
           (mkDF ["Sample_ID"; "Concentration"; "Lab_Comment"]
                 [[CStr "B"; CInt 12; CNaN]])
           [CStr "A"; CStr "B"] [CStr "B"]).
  - intros k rec Hin. unfold samples_A_B in Hin.
    apply elem_of_cons in Hin as [[= -> ->]|Hin]; [reflexivity|].
    apply list_elem_of_singleton in Hin as [= -> ->]. reflexivity.
  - apply (bool_decide_unpack _). vm_compute. exact I.
  - vm_compute. reflexivity.
  - vm_compute. reflexivity.
  - vm_compute. reflexivity.
  - vm_compute. reflexivity.
  - vm_compute. reflexivity.
  - vm_compute. reflexivity.
  - apply (bool_decide_unpack _). vm_compute. exact I.
  - apply (bool_decide_unpack _). vm_compute. exact I.
  - apply (bool_decide_unpack _). vm_compute. exact I.
  - apply (bool_decide_unpack _). vm_compute. exact I.
Defined.

(** ** What a failed run leaves behind *)

Lemma fails_keeps_bind {X A B} (f : state → X) (m : M A) (k : A → M B) :
  keeps f m →
  (∀ a st st' e, k a st = (st', Err e) → f st' = f st) →
  ∀ st st' e, (m ≫= k) st = (st', Err e) → f st' = f st.
Proof.
  intros Hm Hk st st' e. unfold mbind, M_bind. specialize (Hm st).
  destruct (m st) as [st1 [a|e1]]; simpl in *.
  - intros H%Hk. congruence.
  - by intros [= <- _].
Qed.

(** A run that fails has written nothing: the one statement that writes is
    the last one, and it does not fail. *)
Lemma run_fails_written (W : World) (args : Namespace) (st st' : state) (e : error) :
  run W args st = (st', Err e) → written st' = written st.
Proof.
  revert st st' e. unfold run.
  apply fails_keeps_bind; [keeps_written|intros [project_dirs project_id]].
  apply fails_keeps_bind;
    [unfold get_project_samples_from_samplesheet, read_sheet; keeps_written
    |intros [s_df opts]].
  apply fails_keeps_bind; [keeps_written|intros sample_dict].
  apply fails_keeps_bind; [keeps_written|intros ssub].
  apply fails_keeps_bind;
    [unfold merge_samples_with_submission_form, check_existence_of_samples;
     keeps_written
    |intros sample_dict'].
  apply fails_keeps_bind;
    [unfold create_fastq_dir, link_all; keeps_written|intros fastq_dir].
  apply fails_keeps_bind;
    [unfold create_default_config, find_read_geometry, find_machine; keeps_written
    |intros config].
  intros st st' e. unfold dump. by destruct (args_output args).
Qed.

Lemma keeps_tree_FileType_r (path : string) : keeps tree (FileType_r path).
Proof.
  intros st. unfold FileType_r. destruct (decide _); [done|].
  by destruct (files st !! path).
Qed.

Lemma keeps_tree_FileType_w (W : World) (path : string) : keeps tree (FileType_w W path).
Proof.
  intros st. unfold FileType_w. destruct (decide _); [done|].
  by destruct (writable W path).
Qed.

Lemma keeps_tree_parse_args (W : World) (c : cli) : keeps tree (parse_args W c).
Proof.
  unfold parse_args.
  repeat first
    [ apply keeps_ret
    | apply keeps_raise
    | apply keeps_lift
    | apply keeps_tree_FileType_w
    | apply keeps_opt_arg; intros
    | apply keeps_tree_FileType_r
    | apply keeps_bind; [|intros]
    | match goal with
      | |- keeps _ (match ?x with _ => _ end) => destruct x
      end ].
Qed.

Lemma keeps_tree_run (W : World) (args : Namespace) :
  args_create_fastq_dir args = false → keeps tree (run W args).
Proof.
  intros Hflag. unfold run. rewrite Hflag.
  unfold get_project_samples_from_samplesheet, read_sheet,
    merge_samples_with_submission_form, check_existence_of_samples,
    create_default_config, find_read_geometry.
  keeps; apply keeps_tree_find_machine.
Qed.

Lemma grows_keeps {A} (m : M A) : keeps tree m → grows m.
Proof.
  intros Hm st. specialize (Hm st). unfold tree in Hm. injection Hm as -> ->. done.
Qed.

Lemma grows_bind {A B} (m : M A) (k : A → M B) :
  grows m → (∀ a, grows (k a)) → grows (m ≫= k).
Proof.
  intros Hm Hk st. unfold mbind, M_bind. destruct (Hm st) as [Hd Hl].
  destruct (m st) as [st1 [a|e]]; simpl in *; [|done].
  destruct (Hk a st1) as [Hd' Hl']. split; by etrans.
Qed.

Lemma grows_for_each {A B} (l : list A) (b : B) (body : B → A → M B) :
  (∀ b x, grows (body b x)) → grows (for_each l b body).
Proof.
  intros Hbody. revert b. induction l as [|x l IH]; intros b.
  - by apply grows_keeps.
  - rewrite for_each_cons. apply grows_bind; [apply Hbody|apply IH].
Qed.

Lemma grows_makedirs (path : string) : grows (makedirs path).
Proof.
  intros st. unfold makedirs. destruct (files st !! path); [done|].
  split; [by apply prefix_app_r|done].
Qed.

Lemma grows_symlink (W : World) (src dst : string) : grows (symlink W src dst).
Proof.
  unfold symlink. apply grows_bind; [by apply grows_keeps|].
  intros []; [by apply grows_keeps|].
  intros st. split; [done|by apply prefix_app_r].
Qed.

Lemma grows_create_fastq_dir (W : World) (sample_ids project_dirs : list string) :
  grows (create_fastq_dir W sample_ids project_dirs).
Proof.
  unfold create_fastq_dir, link_all.
  repeat first
    [ apply grows_makedirs
    | apply grows_symlink
    | apply grows_bind; [|intros]
    | apply grows_for_each; intros
    | (apply grows_keeps; apply keeps_ret)
    | match goal with
      | |- grows (match ?x with _ => _ end) => destruct x
      | |- grows (let '(_, _) := ?x in _) => destruct x
      end ].
Qed.

Lemma grows_run (W : World) (args : Namespace) : grows (run W args).
Proof.
  unfold run.
  apply grows_bind; [apply grows_keeps; keeps|intros [project_dirs project_id]].
  apply grows_bind;
    [apply grows_keeps;
     unfold get_project_samples_from_samplesheet, read_sheet; keeps
    |intros [s_df opts]].
  apply grows_bind; [apply grows_keeps; keeps|intros sample_dict].
  apply grows_bind; [apply grows_keeps; keeps|intros ssub].
  apply grows_bind;
    [apply grows_keeps;
     unfold merge_samples_with_submission_form, check_existence_of_samples; keeps
    |intros sample_dict'].
  apply grows_bind.
  { destruct (args_create_fastq_dir args); [|apply grows_keeps; keeps].
    apply grows_bind; [apply grows_create_fastq_dir|].
    intros d. apply grows_keeps. keeps. }
  intros fastq_dir.
  apply grows_bind;
    [apply grows_keeps;
     unfold create_default_config, find_read_geometry; keeps;
     apply keeps_tree_find_machine
    |intros config].
  apply grows_keeps. keeps.
Qed.

(** C4 (amended): when the script fails after the arguments are parsed,
    nothing has been written: the output file is empty, the contents of no
    other file have changed and nothing is on the standard output.  The
    output file itself was created or emptied when [--output] was parsed,
    so what it held before the run is gone.  Without [--create-fastq-dir]
    the run has created no directory and no link; with it, the directories
    and links that the staging has created before the failure stay: the
    run removes none. *)
Theorem fatal_error_leaves_output_empty (W : World) (c : cli) (args : Namespace)
    (st st1 st2 : state) (e : error) :
  parse_args W c st = (st1, Ok args) →
  run W args st1 = (st2, Err e) →
  main W c st = (st2, Err e)
  ∧ output_emptied st st2 args.
Proof.
  intros Hparse Hrun. split.
  - unfold main. by rewrite (bind_run _ _ _ _ _ Hparse).
  - pose proof (parse_args_opens_output W c st st1 args Hparse) as Hopen.
    pose proof (keeps_run stdout _ _ _ _ (keeps_stdout_parse_args W c) Hparse) as Hout.
    pose proof (keeps_run tree _ _ _ _ (keeps_tree_parse_args W c) Hparse) as Htree.
    pose proof (run_fails_written W args st1 st2 e Hrun) as Hw.
    destruct (grows_run W args st1) as [Hdirs Hlinks]. rewrite Hrun in Hdirs, Hlinks.
    cbn [fst] in Hdirs, Hlinks.
    unfold written in Hw. injection Hw as Hfiles Hstdout.
    unfold tree in Htree. injection Htree as Hd1 Hl1.
    unfold output_emptied, output_opened in *.
    split; [|split; [|split; [|split]]].
    + destruct (args_output args); congruence.
    + congruence.
    + by rewrite <- Hd1.
    + by rewrite <- Hl1.
    + intros Hflag.
      pose proof (keeps_run tree _ _ _ _ (keeps_tree_run W args Hflag) Hrun) as Ht.
      unfold tree in Ht. injection Ht as Hd2 Hl2. split; congruence.
Qed.

Lemma fatal_error_leaves_output_empty_witness :
  main world3 cli3 (initial_state files3)
    = (initial_state [("config.yaml", EmptyString)], Err (project_not_found run3))
  ∧ output_emptied (initial_state files3)
      (initial_state [("config.yaml", EmptyString)]) args3.
Proof.
  apply (fatal_error_leaves_output_empty world3 cli3 args3 (initial_state files3)
           (initial_state [("config.yaml", EmptyString)])
           (initial_state [("config.yaml", EmptyString)])
           (project_not_found run3)).
  - vm_compute. reflexivity.
  - vm_compute. reflexivity.
Defined.

(** A run with [--create-fastq-dir] that fails when the document is built,
    for want of a [Stats.json]: the output file is empty, and the four
    directories and the three links of the staging are there. *)
Example failed_run_keeps_the_staging :
  let out := main world1 cli_staging (initial_state files_no_stats) in
  out.2 = Err (OSError (run1 +:+ "/Stats/Stats.json"))
  ∧ files out.1 !! "config.yaml" = Some EmptyString
  ∧ length (made_dirs out.1) = 4%nat
  ∧ (links out.1).*2
    = ["data/raw/fastq/200101_NB501038_0001_AXX/GCF-2020-001/A_S1_R1_001.fastq.gz";
       "data/raw/fastq/200101_NB501038_0001_AXX/GCF-2020-001/B_S2_R1_001.fastq.gz";
       "data/raw/fastq/200101_NB501038_0001_AXX/GCF-2020-001/B_S2_R2_001.fastq.gz"].
Proof. repeat split; vm_compute; reflexivity. Qed.
